(** * Order workflow client: shallow embedding and verified properties

    The development embeds the order-submission and order-management
    workflow of the café web client:

    - [src/lib/order-api.ts]: [transformOrder], [checkItemsAvailability],
      [placeOrder], [fetchAllOrders], [fetchOrdersByPhone],
      [updateOrderStatus], [updatePaymentStatus], [cancelOrder],
      [fetchOrderStats], [fetchRevenueStats];
    - [src/components/order-modal.tsx] (the popup-driven [OrderModal]):
      the validators, [validateForm], [handleSubmit], [resetForm],
      [handlePopupClose], [handleClose], the dialog's open-change
      callback and its title;
    - [src/components/order-success-popup.tsx]: [OrderSuccessPopup], the
      [OrderManagement] table ([loadOrders], [handleStatusUpdate],
      [handlePaymentUpdate], [handleCancelOrder], the per-order transition
      controls, the pagination bar, "Clear Filters") and
      [CustomerOrderTracking] ([searchOrders]).

    Conventions.  A JavaScript string is a Rocq [string] whose characters
    are read as UTF-16 code units below 256.  Identifiers and quantities
    are integers ([Z]); currency amounts are rationals ([Q]) and are only
    ever copied or tested for zero.  An optional property is an [option];
    [None] is [undefined] (or [null] on the backend side).  Asynchronous
    handlers are written in a state-and-exception monad with an event log;
    the reply of every network request is an explicit argument. *)

From Stdlib Require Import ZArith QArith List String Ascii Lia Bool.
From Stdlib Require Import DecimalString.
From stdpp Require Import gmap.

Import ListNotations.
Local Open Scope string_scope.
Local Open Scope Z_scope.

(* ===================================================================== *)
(** ** JavaScript primitives used by the sources *)
(* ===================================================================== *)

Module JS.

(** Code unit of a character. *)
Definition code (c : ascii) : N := N_of_ascii c.

(** [WhiteSpace] and [LineTerminator] code units below 256: the set used
    by [String.prototype.trim] and by the regular-expression class \s. *)
Definition isWhiteSpace (c : ascii) : bool :=
  existsb (N.eqb (code c)) [9; 10; 11; 12; 13; 32; 160]%N.

(** The class \d: ASCII decimal digits only. *)
Definition isDigit (c : ascii) : bool :=
  ((48 <=? code c) && (code c <=? 57))%N.

Fixpoint dropWhile {A} (p : A -> bool) (l : list A) : list A :=
  match l with
  | [] => []
  | x :: l' => if p x then dropWhile p l' else l
  end.

Definition chars (s : string) : list ascii := list_ascii_of_string s.
Definition str (l : list ascii) : string := string_of_list_ascii l.

Definition trimStart (l : list ascii) : list ascii := dropWhile isWhiteSpace l.
Definition trimEnd (l : list ascii) : list ascii :=
  rev (dropWhile isWhiteSpace (rev l)).

(** [s.trim()] *)
Definition trim (s : string) : string := str (trimEnd (trimStart (chars s))).

(** Truthiness of a string: only the empty string is falsy. *)
Definition truthy (s : string) : bool :=
  match s with EmptyString => false | _ => true end.

(** [a || b] on strings. *)
Definition or_else (a b : string) : string := if truthy a then a else b.

(** [a || b] when [a] may be [undefined]/[null]. *)
Definition opt_or_else (a : option string) (b : string) : string :=
  match a with Some s => or_else s b | None => b end.

(** [a || undefined] on a nullable string. *)
Definition or_undefined (a : option string) : option string :=
  match a with
  | Some s => if truthy s then Some s else None
  | None => None
  end.

(** Truthiness of an optional string ([!!x], [x && ...]). *)
Definition opt_truthy (a : option string) : bool :=
  match a with Some s => truthy s | None => false end.

(** [s.length] *)
Definition length (s : string) : Z := Z.of_nat (String.length s).

(** [s.replace(/\D/g, '')]: delete every non-digit character. *)
Definition stripNonDigits (s : string) : string :=
  str (List.filter isDigit (chars s)).

Fixpoint isPrefix (p l : list ascii) : bool :=
  match p, l with
  | [], _ => true
  | _ :: _, [] => false
  | a :: p', b :: l' => Ascii.eqb a b && isPrefix p' l'
  end.

Fixpoint includes_chars (needle l : list ascii) : bool :=
  isPrefix needle l ||
  match l with
  | [] => false
  | _ :: l' => includes_chars needle l'
  end.

(** [s.includes(needle)] *)
Definition includes (s needle : string) : bool :=
  includes_chars (chars needle) (chars s).

(** [n.toString()] for an integer-valued number. *)
Definition toString (n : Z) : string := NilZero.string_of_int (Z.to_int n).

(** Result of [parseInt]: [NaN] or an integer.  The model is exact for
    magnitudes representable without rounding and identifies [-0] with
    [0]. *)
Inductive num : Type :=
| NaN
| Num (z : Z).

Definition digitValue (radix : Z) (c : ascii) : option Z :=
  let n := Z.of_N (code c) in
  let v :=
    if (48 <=? n) && (n <=? 57) then Some (n - 48)
    else if (97 <=? n) && (n <=? 122) then Some (n - 87)
    else if (65 <=? n) && (n <=? 90) then Some (n - 55)
    else None in
  match v with
  | Some d => if d <? radix then Some d else None
  | None => None
  end.

(** Longest prefix of radix digits, accumulated most significant first;
    [seen] records whether at least one digit was consumed. *)
Fixpoint parseDigits (radix : Z) (l : list ascii) (seen : bool) (acc : Z)
  : option Z :=
  match l with
  | [] => if seen then Some acc else None
  | c :: l' =>
      match digitValue radix c with
      | Some d => parseDigits radix l' true (radix * acc + d)
      | None => if seen then Some acc else None
      end
  end.

(** [parseInt(s)] with the radix argument omitted. *)
Definition parseInt (s : string) : num :=
  let l := trimStart (chars s) in
  let '(sign, l) :=
    match l with
    | "-"%char :: l' => (-1, l')
    | "+"%char :: l' => (1, l')
    | _ => (1, l)
    end in
  let '(radix, l) :=
    match l with
    | "0"%char :: "x"%char :: l' => (16, l')
    | "0"%char :: "X"%char :: l' => (16, l')
    | _ => (10, l)
    end in
  match parseDigits radix l false 0 with
  | Some v => Num (sign * v)
  | None => NaN
  end.

(** *** A small regular-expression engine (Brzozowski derivatives),
    enough for the patterns that occur in the validators. *)
Inductive regex : Type :=
| Fail
| Eps
| Class (p : ascii -> bool)
| Seq (r1 r2 : regex)
| Alt (r1 r2 : regex)
| Star (r : regex).

Definition Plus (r : regex) : regex := Seq r (Star r).

Fixpoint nullable (r : regex) : bool :=
  match r with
  | Fail => false
  | Eps => true
  | Class _ => false
  | Seq r1 r2 => nullable r1 && nullable r2
  | Alt r1 r2 => nullable r1 || nullable r2
  | Star _ => true
  end.

Fixpoint deriv (c : ascii) (r : regex) : regex :=
  match r with
  | Fail => Fail
  | Eps => Fail
  | Class p => if p c then Eps else Fail
  | Seq r1 r2 =>
      if nullable r1
      then Alt (Seq (deriv c r1) r2) (deriv c r2)
      else Seq (deriv c r1) r2
  | Alt r1 r2 => Alt (deriv c r1) (deriv c r2)
  | Star r' => Seq (deriv c r') (Star r')
  end.

(** [re.test(s)] for a pattern anchored with ^ and $. *)
Definition test_anchored (r : regex) (s : string) : bool :=
  nullable (fold_left (fun r c => deriv c r) (chars s) r).

(** *** Vocabulary for statements about strings. *)

(** A string is blank when it is empty or made of white space only. *)
Definition blank (s : string) : Prop :=
  List.Forall (fun c => isWhiteSpace c = true) (chars s).




(** The language of a regular expression: the strings it matches in full. *)
Inductive matches : regex -> list ascii -> Prop :=
| matches_eps : matches Eps []
| matches_class p c : p c = true -> matches (Class p) [c]
| matches_seq r1 r2 l1 l2 :
    matches r1 l1 -> matches r2 l2 -> matches (Seq r1 r2) (l1 ++ l2)
| matches_alt_l r1 r2 l : matches r1 l -> matches (Alt r1 r2) l
| matches_alt_r r1 r2 l : matches r2 l -> matches (Alt r1 r2) l
| matches_star_nil r : matches (Star r) []
| matches_star_app r l1 l2 :
    matches r l1 -> matches (Star r) l2 -> matches (Star r) (l1 ++ l2).

End JS.

(* ===================================================================== *)
(** ** Data model ([lib/types.ts]) *)
(* ===================================================================== *)

(** Order and payment statuses are string literals at run time. *)

Module BackendOrderItem.
Record t : Type := mk {
  id : Z;
  item_name : string;
  item_price : Q;
  quantity : Z;
  special_instructions : option string;
  subtotal : Q
}.
End BackendOrderItem.

Module BackendOrder.
Record t : Type := mk {
  id : Z;
  customer_name : string;
  customer_phone : string;
  customer_email : option string;
  total_amount : Q;
  order_status : string;
  payment_status : string;
  payment_method : option string;
  special_instructions : option string;
  delivery_address : option string;
  order_date : string;
  estimated_delivery_time : option string;
  actual_delivery_time : option string;
  cancelled_at : option string;
  cancelled_reason : option string;
  cancelled_by : option string;
  items : list BackendOrderItem.t;
  created_at : string;
  updated_at : string
}.
End BackendOrder.

Module OrderItem.
Record t : Type := mk {
  id : Z;
  itemName : string;
  itemPrice : Q;
  quantity : Z;
  specialInstructions : option string;
  subtotal : Q
}.
End OrderItem.

Module Order.
Record t : Type := mk {
  id : Z;
  customerName : string;
  customerPhone : string;
  customerEmail : option string;
  totalAmount : Q;
  orderStatus : string;
  paymentStatus : string;
  paymentMethod : option string;
  specialInstructions : option string;
  deliveryAddress : option string;
  orderDate : string;
  estimatedDeliveryTime : option string;
  actualDeliveryTime : option string;
  cancelledAt : option string;
  cancelledReason : option string;
  cancelledBy : option string;
  items : list OrderItem.t;
  createdAt : string;
  updatedAt : string
}.

(** [{ ...order, orderStatus: s }] *)
Definition with_orderStatus (o : t) (s : string) : t :=
  mk (id o) (customerName o) (customerPhone o) (customerEmail o)
     (totalAmount o) s (paymentStatus o) (paymentMethod o)
     (specialInstructions o) (deliveryAddress o) (orderDate o)
     (estimatedDeliveryTime o) (actualDeliveryTime o) (cancelledAt o)
     (cancelledReason o) (cancelledBy o) (items o) (createdAt o)
     (updatedAt o).

(** [{ ...order, paymentStatus: s, paymentMethod: m }] *)
Definition with_payment (o : t) (s : string) (m : option string) : t :=
  mk (id o) (customerName o) (customerPhone o) (customerEmail o)
     (totalAmount o) (orderStatus o) s m
     (specialInstructions o) (deliveryAddress o) (orderDate o)
     (estimatedDeliveryTime o) (actualDeliveryTime o) (cancelledAt o)
     (cancelledReason o) (cancelledBy o) (items o) (createdAt o)
     (updatedAt o).
End Order.

Module SubmissionItem.
Record t : Type := mk {
  menuItemId : JS.num;
  quantity : Z;
  specialInstructions : option string
}.
End SubmissionItem.

Module OrderSubmission.
Record t : Type := mk {
  customerName : string;
  customerPhone : string;
  customerEmail : option string;
  items : list SubmissionItem.t;
  paymentMethod : option string;
  specialInstructions : option string;
  deliveryAddress : option string
}.
End OrderSubmission.

Module OrderStatusUpdate.
Record t : Type := mk {
  status : string;
  changedBy : option string;
  notes : option string
}.
End OrderStatusUpdate.

(** Payload of a successful [GET /orders] envelope. *)
Module OrdersListResponse.
Record t : Type := mk {
  data : list BackendOrder.t;
  totalCount : Z;
  totalPages : Z;
  currentPage : Z
}.
End OrdersListResponse.

(** Value returned by [fetchAllOrders]. *)
Module OrdersPage.
Record t : Type := mk {
  orders : list Order.t;
  totalCount : Z;
  totalPages : Z;
  currentPage : Z
}.
End OrdersPage.

(* ===================================================================== *)
(** ** Effects: network, notifications, parent callbacks *)
(* ===================================================================== *)

Module Eff.

(** A thrown value; everything the sources throw is an [Error]. *)
Inductive thrown : Type :=
| ErrorObj (message : string)
| NonError.

(** Requests issued with [fetch], by endpoint. *)
Inductive request : Type :=
| GET_menu_test
| POST_menu_test (itemIds : list JS.num)
| POST_orders (body : OrderSubmission.t)
| GET_orders (query : list (string * string))
| PUT_orders_status (orderId : Z) (status changedBy : string)
    (notes : option string).

(** The body of a response once parsed with [response.json()].  The API
    envelope is [{ success, data, message? }]; [data] is present exactly
    on success. *)
Inductive json (T : Type) : Type :=
| Malformed (err : string)
| Failure (message : option string)
| Success (message : option string) (data : T).
Arguments Malformed {T} err.
Arguments Failure {T} message.
Arguments Success {T} message data.

Record response (T : Type) : Type := mkResponse {
  ok : bool;
  status : Z;
  body : json T
}.
Arguments mkResponse {T} ok status body.
Arguments ok {T} r.
Arguments status {T} r.
Arguments body {T} r.

(** How a [fetch] settles: it rejects (network failure) or resolves. *)
Inductive reply (T : Type) : Type :=
| NetworkError (message : string)
| Resolved (r : response T).
Arguments NetworkError {T} message.
Arguments Resolved {T} r.

Record toast_t : Type := mkToast {
  title : string;
  description : string;
  variant : option string;
  duration : option Z
}.

Inductive event : Type :=
| Req (rq : request)
| Toast (t : toast_t)
| Call_clearCart
| Call_onClose.

(** Outcome of running an asynchronous function: it returned, it threw,
    or it is still suspended at an [await] whose reply has not arrived. *)
Inductive outcome (A : Type) : Type :=
| Returned (a : A)
| Threw (e : thrown)
| Suspended.
Arguments Returned {A} a.
Arguments Threw {A} e.
Arguments Suspended {A}.

(** A run yields an outcome, the component state it leaves, and the
    events it emitted, each with the state at the time of emission. *)
Record out (S A : Type) : Type := mkOut {
  res : outcome A;
  st : S;
  log : list (event * S)
}.
Arguments mkOut {S A} res st log.
Arguments res {S A} o.
Arguments st {S A} o.
Arguments log {S A} o.

Definition M (S A : Type) : Type := S -> out S A.

Definition ret {S A} (a : A) : M S A := fun s => mkOut (Returned a) s [].
Definition throw {S A} (e : thrown) : M S A := fun s => mkOut (Threw e) s [].
Definition suspend {S A} : M S A := fun s => mkOut Suspended s [].

Definition bind {S A B} (m : M S A) (k : A -> M S B) : M S B :=
  fun s =>
    match m s with
    | mkOut (Returned a) s' l =>
        match k a s' with
        | mkOut r s'' l' => mkOut r s'' (l ++ l')
        end
    | mkOut (Threw e) s' l => mkOut (Threw e) s' l
    | mkOut Suspended s' l => mkOut Suspended s' l
    end.

(** [try { m } catch (e) { h e }] *)
Definition try_catch {S A} (m : M S A) (h : thrown -> M S A) : M S A :=
  fun s =>
    match m s with
    | mkOut (Threw e) s' l =>
        match h e s' with
        | mkOut r s'' l' => mkOut r s'' (l ++ l')
        end
    | o => o
    end.

(** [try { m } finally { f }]; a suspended body has not reached its
    [finally] block. *)
Definition try_finally {S A} (m : M S A) (f : M S unit) : M S A :=
  fun s =>
    match m s with
    | mkOut Suspended s' l => mkOut Suspended s' l
    | mkOut r s' l =>
        match f s' with
        | mkOut (Returned _) s'' l' => mkOut r s'' (l ++ l')
        | mkOut (Threw e) s'' l' => mkOut (Threw e) s'' (l ++ l')
        | mkOut Suspended s'' l' => mkOut Suspended s'' (l ++ l')
        end
    end.

(** Calling an async function without awaiting it: its synchronous
    prefix runs now, the caller continues with the promise. *)
Definition spawn {S A} (m : M S A) : M S unit :=
  fun s => match m s with mkOut _ s' l => mkOut (Returned tt) s' l end.

Definition emit {S} (e : event) : M S unit :=
  fun s => mkOut (Returned tt) s [(e, s)].

(** A state setter, [setX(v)] or [setX(prev => ...)]. *)
Definition modify {S} (f : S -> S) : M S unit :=
  fun s => mkOut (Returned tt) (f s) [].

Definition toast {S} (t d : string) (v : option string) (du : option Z)
  : M S unit := emit (Toast (mkToast t d v du)).

(** [await fetch(...)]: the request is issued; [None] means the reply is
    still outstanding. *)
Definition fetch {S T} (rq : request) (rp : option (reply T))
  : M S (response T) :=
  bind (emit (Req rq)) (fun _ =>
    match rp with
    | None => suspend
    | Some (NetworkError m) => throw (ErrorObj m)
    | Some (Resolved r) => ret r
    end).

(** [await response.json()] *)
Definition parse {S T} (r : response T) : M S (json T) :=
  match body r with
  | Malformed err => throw (ErrorObj err)
  | j => ret j
  end.

(** The [message] property of a parsed body. *)
Definition message {T} (j : json T) : option string :=
  match j with
  | Malformed _ => None
  | Failure m => m
  | Success m _ => m
  end.

(** The events of a log, without the state snapshots. *)
Definition events {S} (l : list (event * S)) : list event := map fst l.

(** A run that does not depend on the component state, replayed at the
    state [s]. *)
Definition relocate {S A} (s : S) (o : out unit A) : out S A :=
  mkOut (res o) s (map (fun x => (fst x, s)) (log o)).

Definition is_request (e : event) : bool :=
  match e with Req _ => true | _ => false end.

Definition is_clearCart (e : event) : bool :=
  match e with Call_clearCart => true | _ => false end.

Definition is_POST_orders (e : event) : bool :=
  match e with Req (POST_orders _) => true | _ => false end.

End Eff.

Declare Scope eff_scope.
Delimit Scope eff_scope with eff.
Notation "x <- m ;; k" := (Eff.bind m (fun x => k))
  (at level 100, m at next level, right associativity) : eff_scope.
Notation "m ;;; k" := (Eff.bind m (fun _ => k))
  (at level 100, right associativity) : eff_scope.

(* ===================================================================== *)
(** ** Effects of the remaining endpoints *)
(* ===================================================================== *)

(** Payment updates, cancellations, the customer lookup and the statistics
    endpoints add their own requests to the events of [Eff]; a computation
    of [Eff] runs unchanged inside the wider signature through [lift]. *)

Module PaymentStatusUpdate.
Record t : Type := mk {
  paymentStatus : string;
  paymentMethod : option string;
  notes : option string
}.
End PaymentStatusUpdate.

Module OrderCancellation.
Record t : Type := mk {
  reason : string;
  cancelledBy : option string
}.
End OrderCancellation.

Module EffX.
Import Eff.

Inductive request : Type :=
| PUT_orders_payment (orderId : Z) (paymentStatus : string)
    (paymentMethod notes : option string)
| POST_orders_cancel (orderId : Z) (body : OrderCancellation.t)
| GET_orders_customer (phone : string) (query : list (string * string))
| GET_orders_stats_orders (authorization : option string)
| GET_stats_revenue (authorization : option string).

Inductive event : Type :=
| Core (e : Eff.event)
| Req (rq : request).

Record out (S A : Type) : Type := mkOut {
  res : outcome A;
  st : S;
  log : list (event * S)
}.
Arguments mkOut {S A} res st log.
Arguments res {S A} o.
Arguments st {S A} o.
Arguments log {S A} o.

Definition M (S A : Type) : Type := S -> out S A.

Definition ret {S A} (a : A) : M S A := fun s => mkOut (Returned a) s [].
Definition throw {S A} (e : thrown) : M S A := fun s => mkOut (Threw e) s [].
Definition suspend {S A} : M S A := fun s => mkOut Suspended s [].

Definition bind {S A B} (m : M S A) (k : A -> M S B) : M S B :=
  fun s =>
    match m s with
    | mkOut (Returned a) s' l =>
        match k a s' with
        | mkOut r s'' l' => mkOut r s'' (l ++ l')
        end
    | mkOut (Threw e) s' l => mkOut (Threw e) s' l
    | mkOut Suspended s' l => mkOut Suspended s' l
    end.

Definition try_catch {S A} (m : M S A) (h : thrown -> M S A) : M S A :=
  fun s =>
    match m s with
    | mkOut (Threw e) s' l =>
        match h e s' with
        | mkOut r s'' l' => mkOut r s'' (l ++ l')
        end
    | o => o
    end.

Definition try_finally {S A} (m : M S A) (f : M S unit) : M S A :=
  fun s =>
    match m s with
    | mkOut Suspended s' l => mkOut Suspended s' l
    | mkOut r s' l =>
        match f s' with
        | mkOut (Returned _) s'' l' => mkOut r s'' (l ++ l')
        | mkOut (Threw e) s'' l' => mkOut (Threw e) s'' (l ++ l')
        | mkOut Suspended s'' l' => mkOut Suspended s'' (l ++ l')
        end
    end.

Definition emit {S} (e : event) : M S unit :=
  fun s => mkOut (Returned tt) s [(e, s)].

Definition modify {S} (f : S -> S) : M S unit :=
  fun s => mkOut (Returned tt) (f s) [].

Definition toast {S} (t d : string) (v : option string) (du : option Z)
  : M S unit := emit (Core (Toast (mkToast t d v du))).

(** A computation over the events of [Eff], run in the wider signature. *)
Definition lift {S A} (m : Eff.M S A) : M S A :=
  fun s =>
    match m s with
    | Eff.mkOut r s' l => mkOut r s' (map (fun x => (Core (fst x), snd x)) l)
    end.

Definition fetch {S T} (rq : request) (rp : option (reply T))
  : M S (response T) :=
  bind (emit (Req rq)) (fun _ =>
    match rp with
    | None => suspend
    | Some (NetworkError m) => throw (ErrorObj m)
    | Some (Resolved r) => ret r
    end).

Definition parse {S T} (r : response T) : M S (json T) :=
  match body r with
  | Malformed err => throw (ErrorObj err)
  | j => ret j
  end.

Definition events {S} (l : list (event * S)) : list event := map fst l.

Definition is_request (e : event) : bool :=
  match e with
  | Req _ => true
  | Core (Eff.Req _) => true
  | _ => false
  end.

Definition is_toast (e : event) : bool :=
  match e with Core (Toast _) => true | _ => false end.

End EffX.

Declare Scope effx_scope.
Delimit Scope effx_scope with effx.
Notation "x <- m ;; k" := (EffX.bind m (fun x => k))
  (at level 100, m at next level, right associativity) : effx_scope.
Notation "m ;;; k" := (EffX.bind m (fun _ => k))
  (at level 100, right associativity) : effx_scope.

(* ===================================================================== *)
(** ** The order API client ([lib/order-api.ts]) *)
(* ===================================================================== *)

Module OrderApi.
Import Eff.
Local Open Scope eff_scope.

Definition transformItem (item : BackendOrderItem.t) : OrderItem.t :=
  {| OrderItem.id := BackendOrderItem.id item;
     OrderItem.itemName := BackendOrderItem.item_name item;
     OrderItem.itemPrice := BackendOrderItem.item_price item;
     OrderItem.quantity := BackendOrderItem.quantity item;
     OrderItem.specialInstructions :=
       JS.or_undefined (BackendOrderItem.special_instructions item);
     OrderItem.subtotal := BackendOrderItem.subtotal item |}.

Definition transformOrder (backendOrder : BackendOrder.t) : Order.t :=
  {| Order.id := BackendOrder.id backendOrder;
     Order.customerName := BackendOrder.customer_name backendOrder;
     Order.customerPhone := BackendOrder.customer_phone backendOrder;
     Order.customerEmail :=
       JS.or_undefined (BackendOrder.customer_email backendOrder);
     Order.totalAmount := BackendOrder.total_amount backendOrder;
     Order.orderStatus := BackendOrder.order_status backendOrder;
     Order.paymentStatus := BackendOrder.payment_status backendOrder;
     Order.paymentMethod :=
       JS.or_undefined (BackendOrder.payment_method backendOrder);
     Order.specialInstructions :=
       JS.or_undefined (BackendOrder.special_instructions backendOrder);
     Order.deliveryAddress :=
       JS.or_undefined (BackendOrder.delivery_address backendOrder);
     Order.orderDate := BackendOrder.order_date backendOrder;
     Order.estimatedDeliveryTime :=
       JS.or_undefined (BackendOrder.estimated_delivery_time backendOrder);
     Order.actualDeliveryTime :=
       JS.or_undefined (BackendOrder.actual_delivery_time backendOrder);
     Order.cancelledAt :=
       JS.or_undefined (BackendOrder.cancelled_at backendOrder);
     Order.cancelledReason :=
       JS.or_undefined (BackendOrder.cancelled_reason backendOrder);
     Order.cancelledBy :=
       JS.or_undefined (BackendOrder.cancelled_by backendOrder);
     Order.items := map transformItem (BackendOrder.items backendOrder);
     Order.createdAt := BackendOrder.created_at backendOrder;
     Order.updatedAt := BackendOrder.updated_at backendOrder |}.

Record OrdersParams : Type := mkParams {
  page : option Z;
  limit : option Z;
  status_ : option string;
  paymentStatus : option string;
  phone : option string;
  sortBy : option string;
  order : option string;
  includeCancelled : option bool
}.

(** [if (params?.k) queryParams.append(key, ...)]: a number is appended
    when it is not 0, a string when it is not empty. *)
Definition append_num (key : string) (v : option Z)
    (q : list (string * string)) : list (string * string) :=
  match v with
  | Some n => if n =? 0 then q else q ++ [(key, JS.toString n)]
  | None => q
  end.

Definition append_str (key : string) (v : option string)
    (q : list (string * string)) : list (string * string) :=
  match v with
  | Some s => if JS.truthy s then q ++ [(key, s)] else q
  | None => q
  end.

Definition append_bool (key : string) (v : option bool)
    (q : list (string * string)) : list (string * string) :=
  match v with
  | Some b => q ++ [(key, if b then "true" else "false")]
  | None => q
  end.

Definition queryParams (params : OrdersParams) : list (string * string) :=
  append_bool "includeCancelled" (includeCancelled params)
    (append_str "order" (order params)
      (append_str "sortBy" (sortBy params)
        (append_str "phone" (phone params)
          (append_str "paymentStatus" (paymentStatus params)
            (append_str "status" (status_ params)
              (append_num "limit" (limit params)
                (append_num "page" (page params) []))))))).

Section Calls.
Context {S : Type}.

Definition checkItemsAvailability (itemIds : list JS.num)
    (getReply postReply : option (reply unit)) : M S bool :=
  try_catch
    (getResponse <- fetch GET_menu_test getReply ;;
     postResponse <- fetch (POST_menu_test itemIds) postReply ;;
     if negb (ok postResponse) then
       errorData <- parse postResponse ;;
       throw (ErrorObj (JS.opt_or_else (message errorData)
                          "Failed to check item availability"))
     else
       availabilityResponse <- parse postResponse ;;
       ret true)
    (fun error => throw error).

Definition placeOrder (orderData : OrderSubmission.t)
    (getReply postReply : option (reply unit))
    (orderReply : option (reply BackendOrder.t)) : M S Order.t :=
  try_catch
    (let itemIds :=
       map SubmissionItem.menuItemId (OrderSubmission.items orderData) in
     _ <- try_catch
            (checkItemsAvailability itemIds getReply postReply)
            (fun error =>
               throw (ErrorObj "Some menu items are not available. Please refresh your cart and try again.")) ;;
     response <- fetch (POST_orders orderData) orderReply ;;
     if negb (ok response) then
       errorData <- parse response ;;
       throw (ErrorObj (JS.opt_or_else (message errorData)
                          ("HTTP error! status: " ++ JS.toString (status response))))
     else
       apiResponse <- parse response ;;
       match apiResponse with
       | Success _ data => ret (transformOrder data)
       | _ =>
           throw (ErrorObj (JS.opt_or_else (message apiResponse)
                              "Failed to place order"))
       end)
    (fun error => throw error).

Definition fetchAllOrders (params : OrdersParams)
    (listReply : option (reply OrdersListResponse.t)) : M S OrdersPage.t :=
  try_catch
    (response <- fetch (GET_orders (queryParams params)) listReply ;;
     if negb (ok response) then
       throw (ErrorObj ("HTTP error! status: " ++ JS.toString (status response)))
     else
       apiResponse <- parse response ;;
       match apiResponse with
       | Success _ d =>
           ret {| OrdersPage.orders :=
                    map transformOrder (OrdersListResponse.data d);
                  OrdersPage.totalCount := OrdersListResponse.totalCount d;
                  OrdersPage.totalPages := OrdersListResponse.totalPages d;
                  OrdersPage.currentPage := OrdersListResponse.currentPage d |}
       | _ =>
           throw (ErrorObj (JS.opt_or_else (message apiResponse)
                              "Failed to fetch orders"))
       end)
    (fun error => throw error).

Definition updateOrderStatus (orderId : Z)
    (statusUpdate : OrderStatusUpdate.t)
    (putReply : option (reply unit)) : M S unit :=
  try_catch
    (response <-
       fetch (PUT_orders_status orderId
                (OrderStatusUpdate.status statusUpdate)
                (JS.opt_or_else (OrderStatusUpdate.changedBy statusUpdate) "admin")
                (OrderStatusUpdate.notes statusUpdate))
             putReply ;;
     if negb (ok response) then
       errorData <- parse response ;;
       throw (ErrorObj (JS.opt_or_else (message errorData)
                          ("HTTP error! status: " ++ JS.toString (status response))))
     else
       apiResponse <- parse response ;;
       match apiResponse with
       | Success _ _ => ret tt
       | _ =>
           throw (ErrorObj (JS.opt_or_else (message apiResponse)
                              "Failed to update order status"))
       end)
    (fun error => throw error).

End Calls.

(** *** The calls to the remaining endpoints *)

(** [localStorage.getItem("token") || sessionStorage.getItem("token")] *)
Definition storedToken (localToken sessionToken : option string)
  : option string :=
  match localToken with
  | Some t => if JS.truthy t then Some t else sessionToken
  | None => sessionToken
  end.

(** The [Authorization] header spread into the request:
    [...(token && { Authorization: `Bearer ${token}` })]. *)
Definition authorization (token : option string) : option string :=
  match token with
  | Some t => if JS.truthy t then Some ("Bearer " ++ t) else None
  | None => None
  end.

Section CallsX.
Context {S : Type}.
Import EffX.
Local Open Scope effx_scope.

Definition fetchOrdersByPhone (phone : string) (includeCancelled : bool)
    (listReply : option (reply (list BackendOrder.t))) : M S (list Order.t) :=
  try_catch
    (let queryParams :=
       if includeCancelled then [("includeCancelled", "true")] else [] in
     response <- fetch (GET_orders_customer phone queryParams) listReply ;;
     if negb (ok response) then
       throw (ErrorObj ("HTTP error! status: " ++ JS.toString (status response)))
     else
       apiResponse <- parse response ;;
       match apiResponse with
       | Success _ data => ret (map transformOrder data)
       | _ =>
           throw (ErrorObj (JS.opt_or_else (message apiResponse)
                              "Failed to fetch orders"))
       end)
    (fun error => throw error).

Definition updatePaymentStatus (orderId : Z)
    (paymentUpdate : PaymentStatusUpdate.t)
    (putReply : option (reply unit)) : M S unit :=
  try_catch
    (response <-
       fetch (PUT_orders_payment orderId
                (PaymentStatusUpdate.paymentStatus paymentUpdate)
                (PaymentStatusUpdate.paymentMethod paymentUpdate)
                (PaymentStatusUpdate.notes paymentUpdate))
             putReply ;;
     if negb (ok response) then
       errorData <- parse response ;;
       throw (ErrorObj (JS.opt_or_else (message errorData)
                          ("HTTP error! status: " ++ JS.toString (status response))))
     else
       apiResponse <- parse response ;;
       match apiResponse with
       | Success _ _ => ret tt
       | _ =>
           throw (ErrorObj (JS.opt_or_else (message apiResponse)
                              "Failed to update payment status"))
       end)
    (fun error => throw error).

Definition cancelOrder (orderId : Z) (cancellation : OrderCancellation.t)
    (postReply : option (reply unit)) : M S unit :=
  try_catch
    (response <- fetch (POST_orders_cancel orderId cancellation) postReply ;;
     if negb (ok response) then
       errorData <- parse response ;;
       throw (ErrorObj (JS.opt_or_else (message errorData)
                          "Failed to cancel order"))
     else
       apiResponse <- parse response ;;
       match apiResponse with
       | Success _ _ => ret tt
       | _ =>
           throw (ErrorObj (JS.opt_or_else (message apiResponse)
                              "Failed to cancel order"))
       end)
    (fun error => throw error).

(** The statistics payloads are opaque read models of type [T]. *)
Definition fetchOrderStats {T} (localToken sessionToken : option string)
    (statsReply : option (reply T)) : M S T :=
  try_catch
    (let token := storedToken localToken sessionToken in
     response <- fetch (GET_orders_stats_orders (authorization token))
                       statsReply ;;
     if negb (ok response) then
       throw (ErrorObj ("HTTP error! status: " ++ JS.toString (status response)))
     else
       apiResponse <- parse response ;;
       match apiResponse with
       | Success _ data => ret data
       | _ =>
           throw (ErrorObj (JS.opt_or_else (message apiResponse)
                              "Failed to fetch order statistics"))
       end)
    (fun error => throw error).

Definition fetchRevenueStats {T} (localToken sessionToken : option string)
    (statsReply : option (reply T)) : M S T :=
  try_catch
    (let token := storedToken localToken sessionToken in
     response <- fetch (GET_stats_revenue (authorization token)) statsReply ;;
     if negb (ok response) then
       throw (ErrorObj ("HTTP error! status: " ++ JS.toString (status response)))
     else
       apiResponse <- parse response ;;
       match apiResponse with
       | Success _ data => ret data
       | _ =>
           throw (ErrorObj (JS.opt_or_else (message apiResponse)
                              "Failed to fetch revenue statistics"))
       end)
    (fun error => throw error).

End CallsX.

(** *** Vocabulary for the statements. *)

(** The optional text properties of an order. *)
Definition optionalFields (o : Order.t) : list (option string) :=
  [Order.customerEmail o; Order.paymentMethod o; Order.specialInstructions o;
   Order.deliveryAddress o; Order.estimatedDeliveryTime o;
   Order.actualDeliveryTime o; Order.cancelledAt o; Order.cancelledReason o;
   Order.cancelledBy o].

(** No optional text property, of the order or of one of its items, holds
    the empty string: it is absent or it has content. *)
Definition normalised (o : Order.t) : Prop :=
  ~ In (Some "") (optionalFields o)
  /\ List.Forall (fun item => OrderItem.specialInstructions item <> Some "")
       (Order.items o).

End OrderApi.

(* ===================================================================== *)
(** ** The success popup ([components/order-success-popup.tsx]) *)
(* ===================================================================== *)

Module OrderSuccessPopup.

(** What the popup shows: the details box, when rendered, holds the
    "Order ID: #..." row and the "Total Amount: ..." row.  Every close
    control of the popup (backdrop, X, "Got it, thanks!") runs the
    [onClose] property. *)
Record view : Type := mkView {
  orderIdRow : option string;
  totalAmountRow : option Q
}.

(** What stands where the details box goes.  The box is guarded by
    [(orderId || totalAmount) && ...]: a falsy guard renders nothing,
    except that the number 0 is rendered as the text "0". *)
Inductive details : Type :=
| NoDetails
| ZeroText
| DetailsBox (v : view).

(** [None] is the component returning [null]. *)
Definition render (open : bool) (orderId : option string)
    (totalAmount : option Q) : option details :=
  if negb open then None
  else
    Some
      (if JS.opt_truthy orderId then
         DetailsBox {| orderIdRow := option_map (String.append "#") orderId;
                       totalAmountRow := totalAmount |}
       else
         match totalAmount with
         | None => NoDetails
         | Some q =>
             if Qeq_bool q 0 then ZeroText
             else DetailsBox {| orderIdRow := None;
                                totalAmountRow := totalAmount |}
         end).

End OrderSuccessPopup.

(* ===================================================================== *)
(** ** The order modal ([components/order-modal.tsx]) *)
(* ===================================================================== *)

Module OrderModal.
Import Eff.
Local Open Scope eff_scope.

(** The catalog identifier is declared a string but may be a number at
    run time; [handleSubmit] branches on [typeof item.id]. *)
Inductive itemId : Type :=
| IdString (s : string)
| IdNumber (n : Z).

Module CartItem.
Record t : Type := mk {
  id : itemId;
  cartId : string;
  name : string;
  price : Q;
  image : string;
  quantity : Z;
  specialInstructions : option string
}.
End CartItem.

Record popupData_t : Type := mkPopupData {
  popup_id : string;
  popup_totalAmount : Q
}.

(** Properties read by the component; [clearCart], [onClose] are the
    events [Call_clearCart], [Call_onClose]. *)
Record props : Type := mkProps {
  isOpen : bool;
  cart : list CartItem.t
}.

Record state : Type := mkState {
  customerName : string;
  phoneNumber : string;
  customerEmail : string;
  generalInstructions : string;
  isSubmitting : bool;
  emailError : option string;
  phoneError : option string;
  nameError : option string;
  showPopup : bool;
  popupData : option popupData_t
}.

(** [useState] initial values. *)
Definition initial : state :=
  mkState "" "" "" "" false None None None false None.

Definition setCustomerName (v : string) : M state unit :=
  modify (fun s => mkState v (phoneNumber s) (customerEmail s)
    (generalInstructions s) (isSubmitting s) (emailError s) (phoneError s)
    (nameError s) (showPopup s) (popupData s)).
Definition setPhoneNumber (v : string) : M state unit :=
  modify (fun s => mkState (customerName s) v (customerEmail s)
    (generalInstructions s) (isSubmitting s) (emailError s) (phoneError s)
    (nameError s) (showPopup s) (popupData s)).
Definition setCustomerEmail (v : string) : M state unit :=
  modify (fun s => mkState (customerName s) (phoneNumber s) v
    (generalInstructions s) (isSubmitting s) (emailError s) (phoneError s)
    (nameError s) (showPopup s) (popupData s)).
Definition setGeneralInstructions (v : string) : M state unit :=
  modify (fun s => mkState (customerName s) (phoneNumber s) (customerEmail s)
    v (isSubmitting s) (emailError s) (phoneError s)
    (nameError s) (showPopup s) (popupData s)).
Definition setIsSubmitting (v : bool) : M state unit :=
  modify (fun s => mkState (customerName s) (phoneNumber s) (customerEmail s)
    (generalInstructions s) v (emailError s) (phoneError s)
    (nameError s) (showPopup s) (popupData s)).
Definition setEmailError (v : option string) : M state unit :=
  modify (fun s => mkState (customerName s) (phoneNumber s) (customerEmail s)
    (generalInstructions s) (isSubmitting s) v (phoneError s)
    (nameError s) (showPopup s) (popupData s)).
Definition setPhoneError (v : option string) : M state unit :=
  modify (fun s => mkState (customerName s) (phoneNumber s) (customerEmail s)
    (generalInstructions s) (isSubmitting s) (emailError s) v
    (nameError s) (showPopup s) (popupData s)).
Definition setNameError (v : option string) : M state unit :=
  modify (fun s => mkState (customerName s) (phoneNumber s) (customerEmail s)
    (generalInstructions s) (isSubmitting s) (emailError s) (phoneError s)
    v (showPopup s) (popupData s)).
Definition setShowPopup (v : bool) : M state unit :=
  modify (fun s => mkState (customerName s) (phoneNumber s) (customerEmail s)
    (generalInstructions s) (isSubmitting s) (emailError s) (phoneError s)
    (nameError s) v (popupData s)).
Definition setPopupData (v : option popupData_t) : M state unit :=
  modify (fun s => mkState (customerName s) (phoneNumber s) (customerEmail s)
    (generalInstructions s) (isSubmitting s) (emailError s) (phoneError s)
    (nameError s) (showPopup s) v).

(** *** Validation functions *)

Definition notSpaceNorAt (c : ascii) : bool :=
  negb (JS.isWhiteSpace c || Ascii.eqb c "@").

(** The pattern [^[^\s@]+@[^\s@]+\.[^\s@]+$]. *)
Definition emailRegex : JS.regex :=
  JS.Seq (JS.Plus (JS.Class notSpaceNorAt))
    (JS.Seq (JS.Class (Ascii.eqb "@"))
      (JS.Seq (JS.Plus (JS.Class notSpaceNorAt))
        (JS.Seq (JS.Class (Ascii.eqb "."))
          (JS.Plus (JS.Class notSpaceNorAt))))).

Definition validateEmail (email : string) : option string :=
  if negb (JS.truthy (JS.trim email)) then None
  else if negb (JS.test_anchored emailRegex email) then
    Some "Please enter a valid email address"
  else None.

Definition validatePhoneNumber (phone : string) : option string :=
  if negb (JS.truthy (JS.trim phone)) then None
  else
    let cleanPhone := JS.stripNonDigits phone in
    if JS.length cleanPhone <? 10 then
      Some "Phone number must be at least 10 digits"
    else if JS.length cleanPhone >? 15 then
      Some "Phone number cannot exceed 15 digits"
    else None.

(** *** Handlers.  The first argument, where present, is the closure of the
    render in which the handler was created: its properties and state. *)

Definition closure : Type := props * state.

Definition handleEmailChange (value : string) : M state unit :=
  setCustomerEmail value ;;;
  setEmailError (validateEmail value).

Definition handlePhoneChange (value : string) : M state unit :=
  setPhoneNumber value ;;;
  setPhoneError (validatePhoneNumber value).

Definition handleNameChange (value : string) : M state unit :=
  setCustomerName value ;;;
  if negb (JS.truthy (JS.trim value)) then
    setNameError (Some "Customer name is required")
  else if JS.length (JS.trim value) <? 2 then
    setNameError (Some "Name must be at least 2 characters")
  else
    setNameError None.

Definition validateForm (c : closure) : M state bool :=
  let isValid := true in
  isValid <-
    (if negb (JS.truthy (JS.trim (customerName (snd c)))) then
       setNameError (Some "Customer name is required") ;;; ret false
     else if JS.length (JS.trim (customerName (snd c))) <? 2 then
       setNameError (Some "Name must be at least 2 characters") ;;; ret false
     else ret isValid) ;;
  let emailValidationError := validateEmail (customerEmail (snd c)) in
  setEmailError emailValidationError ;;;
  let isValid := if JS.opt_truthy emailValidationError then false else isValid in
  let phoneValidationError := validatePhoneNumber (phoneNumber (snd c)) in
  setPhoneError phoneValidationError ;;;
  let isValid := if JS.opt_truthy phoneValidationError then false else isValid in
  ret isValid.

Definition resetForm : M state unit :=
  setCustomerName "" ;;;
  setPhoneNumber "" ;;;
  setCustomerEmail "" ;;;
  setGeneralInstructions "" ;;;
  setEmailError None ;;;
  setPhoneError None ;;;
  setNameError None.

(** The [orderData] object literal built in [handleSubmit]. *)
Definition orderData (c : closure) : OrderSubmission.t :=
  {| OrderSubmission.customerName := JS.trim (customerName (snd c));
     OrderSubmission.customerPhone :=
       JS.or_else (JS.trim (phoneNumber (snd c))) "Not provided";
     OrderSubmission.customerEmail :=
       Some (JS.or_else (JS.trim (customerEmail (snd c))) "Not provided");
     OrderSubmission.items :=
       map (fun item =>
              let menuItemId :=
                match CartItem.id item with
                | IdString s => JS.parseInt s
                | IdNumber n => JS.Num n
                end in
              {| SubmissionItem.menuItemId := menuItemId;
                 SubmissionItem.quantity := CartItem.quantity item;
                 SubmissionItem.specialInstructions :=
                   Some (JS.opt_or_else (CartItem.specialInstructions item) "") |})
           (cart (fst c));
     OrderSubmission.paymentMethod := None;
     OrderSubmission.specialInstructions :=
       Some (JS.or_else (JS.trim (generalInstructions (snd c))) "");
     OrderSubmission.deliveryAddress := None |}.

Definition destructive : option string := Some "destructive".

(** [handleSubmit] from [setIsSubmitting(true)] on, that is, once both
    guards have let the submission through. *)
Definition handleSubmit_send (c : closure)
    (getReply postReply : option (reply unit))
    (orderReply : option (reply BackendOrder.t)) : M state unit :=
  setIsSubmitting true ;;;
  try_finally
    (try_catch
       (response <- OrderApi.placeOrder (orderData c)
                      getReply postReply orderReply ;;
        let orderInfo :=
          {| popup_id := JS.toString (Order.id response);
             popup_totalAmount := Order.totalAmount response |} in
        setPopupData (Some orderInfo) ;;;
        setShowPopup true ;;;
        resetForm)
       (fun error =>
          let errorMessage :=
            match error with
            | ErrorObj m =>
                if JS.includes m "not available" then
                  "Some items in your cart are no longer available. Please refresh your cart and try again."
                else m
            | NonError => "Failed to place order. Please try again."
            end in
          toast "Order Failed" errorMessage destructive None))
    (setIsSubmitting false).

Definition handleSubmit (c : closure)
    (getReply postReply : option (reply unit))
    (orderReply : option (reply BackendOrder.t)) : M state unit :=
  isValid <- validateForm c ;;
  if negb isValid then
    toast "Validation Error" "Please fix the errors below before submitting"
      destructive None
  else if Z.of_nat (List.length (cart (fst c))) =? 0 then
    toast "Empty Cart" "Please add items to your cart before placing an order"
      destructive None
  else
    handleSubmit_send c getReply postReply orderReply.

Definition handlePopupClose : M state unit :=
  setShowPopup false ;;;
  setPopupData None ;;;
  emit Call_clearCart ;;;
  emit Call_onClose.

Definition handleClose : M state unit :=
  resetForm ;;;
  emit Call_onClose.

(** The dialog's [onOpenChange] callback. *)
Definition onOpenChange (c : closure) (open : bool) : M state unit :=
  if negb (showPopup (snd c)) then
    if negb open then handleClose else ret tt
  else ret tt.

(** *** What the render derives from the state. *)

(** [disabled] of the "Place Order" button. *)
Definition submitDisabled (s : state) : bool :=
  isSubmitting s || JS.opt_truthy (nameError s)
  || JS.opt_truthy (emailError s) || JS.opt_truthy (phoneError s).

(** The [<OrderSuccessPopup .../>] element of the render. *)
Definition popup (s : state) : option OrderSuccessPopup.details :=
  OrderSuccessPopup.render (showPopup s)
    (option_map popup_id (popupData s))
    (option_map popup_totalAmount (popupData s)).

(** *** Every way the user can drive the component. *)
Inductive action : Type :=
| NameChange (value : string)
| PhoneChange (value : string)
| EmailChange (value : string)
| InstructionsChange (value : string)
| Submit (getReply postReply : option (reply unit))
    (orderReply : option (reply BackendOrder.t))
| CancelClick
| DialogOpenChange (open : bool)
| PopupClose.

Definition handler (a : action) (c : closure) : M state unit :=
  match a with
  | NameChange v => handleNameChange v
  | PhoneChange v => handlePhoneChange v
  | EmailChange v => handleEmailChange v
  | InstructionsChange v => setGeneralInstructions v
  | Submit r1 r2 r3 => handleSubmit c r1 r2 r3
  | CancelClick => handleClose
  | DialogOpenChange open => onOpenChange c open
  | PopupClose => handlePopupClose
  end.

(** Run a handler created by the render of [(p, s)] on the state [s]. *)
Definition dispatch (a : action) (p : props) (s : state) : out state unit :=
  handler a (p, s) s.

(** States reachable from the initial one. *)
Inductive reachable : state -> Prop :=
| reach_initial : reachable initial
| reach_step a p s : reachable s -> reachable (st (dispatch a p s)).

(** *** The dialog title. *)

(** [cart.reduce((total, item) => total + item.quantity, 0)] *)
Definition getTotalItems (p : props) : Z :=
  fold_left (fun total item => total + CartItem.quantity item) (cart p) 0.

(** [Checkout ({getTotalItems()} {getTotalItems() === 1 ? 'item' : 'items'})] *)
Definition checkoutTitle (p : props) : string :=
  "Checkout (" ++ JS.toString (getTotalItems p) ++ " "
  ++ (if getTotalItems p =? 1 then "item" else "items") ++ ")".

(** *** Vocabulary for the statements. *)

(** A non-empty run of characters that are neither white space nor "@". *)
Definition plainPart (l : list ascii) : Prop :=
  l <> [] /\ List.Forall (fun c => notSpaceNorAt c = true) l.

(** The shape [local@domain.tld]. *)
Definition emailShape (s : string) : Prop :=
  exists a b c,
    JS.chars s = (a ++ "@"%char :: b ++ "."%char :: c)%list
    /\ plainPart a /\ plainPart b /\ plainPart c.

(** The popup flag and the popup data go together, and the order id to
    show is not empty. *)
Definition popup_consistent (s : state) : Prop :=
  match popupData s with
  | None => showPopup s = false
  | Some d => showPopup s = true /\ JS.truthy (popup_id d) = true
  end.

(** The name check of [validateForm] passes. *)
Definition nameValid (name : string) : bool :=
  JS.truthy (JS.trim name) && negb (JS.length (JS.trim name) <? 2).

(** All field validators pass on the values held by the state. *)
Definition formValid (s : state) : bool :=
  nameValid (customerName s)
  && negb (JS.opt_truthy (validateEmail (customerEmail s)))
  && negb (JS.opt_truthy (validatePhoneNumber (phoneNumber s))).

(** The stored errors agree with the validators: the e-mail and phone
    errors always, the name error whenever the name is acceptable. *)
Definition in_sync (s : state) : Prop :=
  emailError s = validateEmail (customerEmail s)
  /\ phoneError s = validatePhoneNumber (phoneNumber s)
  /\ (nameValid (customerName s) = true -> nameError s = None).

(** The four form fields and the three validation errors of a state. *)
Definition form (s : state)
  : string * string * string * string
    * (option string * option string * option string) :=
  (customerName s, phoneNumber s, customerEmail s, generalInstructions s,
   (nameError s, emailError s, phoneError s)).

(** The state in which [resetForm] leaves the form. *)
Definition blankForm
  : string * string * string * string
    * (option string * option string * option string) :=
  ("", "", "", "", (None, None, None)).

(** [s] with the submitting flag set to [b]. *)
Definition submitting (b : bool) (s : state) : state :=
  mkState (customerName s) (phoneNumber s) (customerEmail s)
    (generalInstructions s) b (emailError s) (phoneError s)
    (nameError s) (showPopup s) (popupData s).

(** The state in which [validateForm], run on the values of [c], leaves
    the state [s0]. *)
Definition validated (c : closure) (s0 : state) : state :=
  mkState (customerName s0) (phoneNumber s0) (customerEmail s0)
    (generalInstructions s0) (isSubmitting s0)
    (validateEmail (customerEmail (snd c)))
    (validatePhoneNumber (phoneNumber (snd c)))
    (if negb (JS.truthy (JS.trim (customerName (snd c)))) then
       Some "Customer name is required"
     else if JS.length (JS.trim (customerName (snd c))) <? 2 then
       Some "Name must be at least 2 characters"
     else nameError s0)
    (showPopup s0) (popupData s0).

(** The notification shown for a failed submission. *)
Definition failureToast (e : thrown) : event :=
  Toast (mkToast "Order Failed"
           match e with
           | ErrorObj m =>
               if JS.includes m "not available" then
                 "Some items in your cart are no longer available. Please refresh your cart and try again."
               else m
           | NonError => "Failed to place order. Please try again."
           end
           destructive None).

(** The availability probe of [placeOrder] goes through: both requests
    resolve, the second with an ok status and a parseable body. *)
Definition probePasses (getReply postReply : option (reply unit)) : bool :=
  match getReply, postReply with
  | Some (Resolved _), Some (Resolved r) =>
      ok r && match body r with Malformed _ => false | _ => true end
  | _, _ => false
  end.

(** The order record of a successful order-creation reply: an ok status
    and an envelope with [success: true]. *)
Definition createdOrder (orderReply : option (reply BackendOrder.t))
  : option BackendOrder.t :=
  match orderReply with
  | Some (Resolved r) =>
      if ok r then
        match body r with Success _ data => Some data | _ => None end
      else None
  | _ => None
  end.

(** The error with which a settled, unsuccessful order-creation reply makes
    [placeOrder] reject once the probe has passed. *)
Definition rejection (orderReply : reply BackendOrder.t) : option string :=
  match orderReply with
  | NetworkError m => Some m
  | Resolved r =>
      match body r with
      | Malformed err => Some err
      | Failure m =>
          Some (JS.opt_or_else m
                  (if ok r then "Failed to place order"
                   else "HTTP error! status: " ++ JS.toString (status r)))
      | Success m _ =>
          if ok r then None
          else Some (JS.opt_or_else m
                       ("HTTP error! status: " ++ JS.toString (status r)))
      end
  end.

End OrderModal.

(* ===================================================================== *)
(** ** The order management table ([OrderManagement]) *)
(* ===================================================================== *)

Module OrderManagement.
Import Eff.
Local Open Scope eff_scope.

Record state : Type := mkState {
  orders : list Order.t;
  loading : bool;
  error : option string;
  searchTerm : string;
  statusFilter : string;
  paymentFilter : string;
  selectedOrder : option Order.t;
  showOrderModal : bool;
  currentPage : Z;
  totalPages : Z;
  totalCount : Z;
  updatingOrders : gset Z
}.

(** [useState] initial values. *)
Definition initial : state :=
  mkState [] true None "" "all" "all" None false 1 1 0 ∅.

Definition setOrders (f : list Order.t -> list Order.t) : M state unit :=
  modify (fun s => mkState (f (orders s)) (loading s) (error s)
    (searchTerm s) (statusFilter s) (paymentFilter s) (selectedOrder s)
    (showOrderModal s) (currentPage s) (totalPages s) (totalCount s)
    (updatingOrders s)).
Definition setLoading (v : bool) : M state unit :=
  modify (fun s => mkState (orders s) v (error s)
    (searchTerm s) (statusFilter s) (paymentFilter s) (selectedOrder s)
    (showOrderModal s) (currentPage s) (totalPages s) (totalCount s)
    (updatingOrders s)).
Definition setError (v : option string) : M state unit :=
  modify (fun s => mkState (orders s) (loading s) v
    (searchTerm s) (statusFilter s) (paymentFilter s) (selectedOrder s)
    (showOrderModal s) (currentPage s) (totalPages s) (totalCount s)
    (updatingOrders s)).
Definition setCurrentPage (v : Z) : M state unit :=
  modify (fun s => mkState (orders s) (loading s) (error s)
    (searchTerm s) (statusFilter s) (paymentFilter s) (selectedOrder s)
    (showOrderModal s) v (totalPages s) (totalCount s)
    (updatingOrders s)).
Definition setTotalPages (v : Z) : M state unit :=
  modify (fun s => mkState (orders s) (loading s) (error s)
    (searchTerm s) (statusFilter s) (paymentFilter s) (selectedOrder s)
    (showOrderModal s) (currentPage s) v (totalCount s)
    (updatingOrders s)).
Definition setTotalCount (v : Z) : M state unit :=
  modify (fun s => mkState (orders s) (loading s) (error s)
    (searchTerm s) (statusFilter s) (paymentFilter s) (selectedOrder s)
    (showOrderModal s) (currentPage s) (totalPages s) v
    (updatingOrders s)).
Definition setUpdatingOrders (f : gset Z -> gset Z) : M state unit :=
  modify (fun s => mkState (orders s) (loading s) (error s)
    (searchTerm s) (statusFilter s) (paymentFilter s) (selectedOrder s)
    (showOrderModal s) (currentPage s) (totalPages s) (totalCount s)
    (f (updatingOrders s))).

Definition mapBackendToFrontendStatus (backendStatus : string) : string :=
  if String.eqb backendStatus "delivered" then "completed" else backendStatus.

Definition mapFrontendToBackendStatus (frontendStatus : string) : string :=
  if String.eqb frontendStatus "completed" then "delivered" else frontendStatus.

(** The argument object passed to [fetchAllOrders] by [loadOrders]. *)
Definition listParams (c : state) (page : Z) : OrderApi.OrdersParams :=
  {| OrderApi.page := Some page;
     OrderApi.limit := Some 10;
     OrderApi.status_ :=
       if negb (String.eqb (statusFilter c) "all")
       then Some (statusFilter c) else None;
     OrderApi.paymentStatus :=
       if negb (String.eqb (paymentFilter c) "all")
       then Some (paymentFilter c) else None;
     OrderApi.phone :=
       if JS.truthy (JS.trim (searchTerm c))
       then Some (JS.trim (searchTerm c)) else None;
     OrderApi.sortBy := Some "order_date";
     OrderApi.order := Some "desc";
     OrderApi.includeCancelled := Some true |}.

(** The body of [loadOrders]; [self] stands for the function itself in
    the fall-back call [loadOrders(1)], which is not awaited.  [c] is the
    render closure (filters, current page). *)
Definition loadOrders_body (self : Z -> M state unit) (c : state)
    (page : Z) (listReply : option (reply OrdersListResponse.t))
  : M state unit :=
  try_finally
    (try_catch
       (setLoading true ;;;
        setError None ;;;
        response <- OrderApi.fetchAllOrders (listParams c page) listReply ;;
        if (Z.of_nat (List.length (OrdersPage.orders response)) =? 0)
           && (page >? 1) then
          setCurrentPage 1 ;;;
          spawn (self 1)
        else
          setOrders (fun _ => OrdersPage.orders response) ;;;
          setTotalCount (OrdersPage.totalCount response) ;;;
          setTotalPages (OrdersPage.totalPages response) ;;;
          setCurrentPage (OrdersPage.currentPage response))
       (fun err =>
          setError (Some (match err with
                          | ErrorObj m => m
                          | NonError => "Failed to load orders"
                          end)) ;;;
          toast "Loading Failed" "Failed to load orders. Please try again."
            (Some "destructive") None))
    (setLoading false).

(** A call of [loadOrders] whose reply is still outstanding: it issues
    its request and stays suspended at the [await]. *)
Definition loadOrders_pending (c : state) (page : Z) : M state unit :=
  loadOrders_body (fun _ => suspend) c page None.

Definition loadOrders (c : state) (page : Z)
    (listReply : option (reply OrdersListResponse.t)) : M state unit :=
  loadOrders_body (loadOrders_pending c) c page listReply.

(** [s.charAt(0).toUpperCase() + s.slice(1)] for ASCII letters, which is
    what the status names are made of. *)
Definition capitalize (s : string) : string :=
  match s with
  | EmptyString => EmptyString
  | String ch rest =>
      let n := JS.code ch in
      String (if ((97 <=? n) && (n <=? 122))%N
              then ascii_of_N (n - 32) else ch) rest
  end.

(** [refreshReply] answers the fetch issued after a successful update,
    [revertReply] the fetch issued from the [catch] block. *)
Definition handleStatusUpdate (c : state) (orderId : Z) (newStatus : string)
    (putReply : option (reply unit))
    (refreshReply revertReply : option (reply OrdersListResponse.t))
  : M state unit :=
  try_finally
    (try_catch
       (setUpdatingOrders (fun prev => prev ∪ {[orderId]}) ;;;
        setOrders (fun prevOrders =>
          map (fun order =>
                 if Order.id order =? orderId
                 then Order.with_orderStatus order
                        (mapFrontendToBackendStatus newStatus)
                 else order)
              prevOrders) ;;;
        let backendStatus := mapFrontendToBackendStatus newStatus in
        OrderApi.updateOrderStatus orderId
          {| OrderStatusUpdate.status := backendStatus;
             OrderStatusUpdate.changedBy := Some "admin";
             OrderStatusUpdate.notes := None |} putReply ;;;
        loadOrders c (currentPage c) refreshReply ;;;
        toast "Status Updated"
          ("Order status updated to " ++ capitalize newStatus) None None)
       (fun err =>
          loadOrders c (currentPage c) revertReply ;;;
          toast "Update Failed"
            "Failed to update order status. Please try again."
            (Some "destructive") None))
    (setUpdatingOrders (fun prev => prev ∖ {[orderId]})).

(** *** The transition controls rendered for one order. *)

Inductive control : Type :=
| StatusButton (status : string)
| PaymentButton (paymentStatus : string) (paymentMethod : option string).

Record button : Type := mkButton {
  target : control;
  disabled : bool
}.

Definition isUpdating (s : state) (order : Order.t) : bool :=
  bool_decide (Order.id order ∈ updatingOrders s).

Definition statusButtons (s : state) (order : Order.t) : list button :=
  map (fun status =>
         mkButton (StatusButton status)
           (isUpdating s order
            || String.eqb (Order.orderStatus order) "cancelled"
            || String.eqb (Order.orderStatus order) "delivered"))
      ["pending"; "preparing"; "ready"; "completed"; "cancelled"].

Definition paymentButtons (s : state) (order : Order.t) : list button :=
  [ mkButton (PaymentButton "pending" None) (isUpdating s order);
    mkButton (PaymentButton "paid" (Some "cash")) (isUpdating s order);
    mkButton (PaymentButton "paid" (Some "upi")) (isUpdating s order) ].

Definition controls (s : state) (order : Order.t) : list button :=
  statusButtons s order ++ paymentButtons s order.

(** *** Filters, pagination and the remaining handlers. *)

Definition setSearchTerm (v : string) : M state unit :=
  modify (fun s => mkState (orders s) (loading s) (error s)
    v (statusFilter s) (paymentFilter s) (selectedOrder s)
    (showOrderModal s) (currentPage s) (totalPages s) (totalCount s)
    (updatingOrders s)).
Definition setStatusFilter (v : string) : M state unit :=
  modify (fun s => mkState (orders s) (loading s) (error s)
    (searchTerm s) v (paymentFilter s) (selectedOrder s)
    (showOrderModal s) (currentPage s) (totalPages s) (totalCount s)
    (updatingOrders s)).
Definition setPaymentFilter (v : string) : M state unit :=
  modify (fun s => mkState (orders s) (loading s) (error s)
    (searchTerm s) (statusFilter s) v (selectedOrder s)
    (showOrderModal s) (currentPage s) (totalPages s) (totalCount s)
    (updatingOrders s)).

(** [setCurrentPage(prev => f(prev))] *)
Definition updateCurrentPage (f : Z -> Z) : M state unit :=
  modify (fun s => mkState (orders s) (loading s) (error s)
    (searchTerm s) (statusFilter s) (paymentFilter s) (selectedOrder s)
    (showOrderModal s) (f (currentPage s)) (totalPages s) (totalCount s)
    (updatingOrders s)).

(** The pagination bar is rendered below a non-empty list when
    [totalPages > 1]. *)
Definition paginationShown (s : state) : bool :=
  (Z.of_nat (List.length (orders s)) >? 0) && (totalPages s >? 1).

(** The "Previous" button: its [onClick] and its [disabled] flag. *)
Definition previousClick : M state unit :=
  updateCurrentPage (fun prev => Z.max 1 (prev - 1)).

Definition previousDisabled (s : state) : bool :=
  (currentPage s =? 1) || loading s.

(** The "Next" button; [c] is the render closure (its [totalPages]). *)
Definition nextClick (c : state) : M state unit :=
  updateCurrentPage (fun prev => Z.min (totalPages c) (prev + 1)).

Definition nextDisabled (s : state) : bool :=
  (currentPage s =? totalPages s) || loading s.

(** The "Clear Filters" button is rendered in place of an empty list when
    a filter is set. *)
Definition clearFiltersShown (s : state) : bool :=
  (Z.of_nat (List.length (orders s)) =? 0)
  && (JS.truthy (searchTerm s)
      || negb (String.eqb (statusFilter s) "all")
      || negb (String.eqb (paymentFilter s) "all")).

(** Its [onClick]; [loadOrders(1)] is not awaited. *)
Definition clearFiltersClick (c : state) : M state unit :=
  setSearchTerm "" ;;;
  setStatusFilter "all" ;;;
  setPaymentFilter "all" ;;;
  setCurrentPage 1 ;;;
  spawn (loadOrders c 1 None).

(** [PAYMENT_STATUS_LABELS] of [lib/types.ts]. *)
Definition PAYMENT_STATUS_LABELS : list (string * string) :=
  [("pending", "Payment Pending"); ("paid", "Paid");
   ("failed", "Payment Failed"); ("refunded", "Refunded")].

(** [`${PAYMENT_STATUS_LABELS[key]}`]: a missing key prints as
    "undefined".  Exact for keys that are not properties inherited from
    [Object.prototype]. *)
Definition paymentLabel (key : string) : string :=
  match find (fun kv => String.eqb (fst kv) key) PAYMENT_STATUS_LABELS with
  | Some kv => snd kv
  | None => "undefined"
  end.

Section HandlersX.
Import EffX.
Local Open Scope effx_scope.

Definition handlePaymentUpdate (c : state) (orderId : Z) (newStatus : string)
    (paymentMethod : option string)
    (putReply : option (reply unit))
    (refreshReply revertReply : option (reply OrdersListResponse.t))
  : M state unit :=
  try_finally
    (try_catch
       (lift (setUpdatingOrders (fun prev => prev ∪ {[orderId]})) ;;;
        lift (setOrders (fun prevOrders =>
          map (fun order =>
                 if Order.id order =? orderId
                 then Order.with_payment order newStatus
                        (if JS.opt_truthy paymentMethod then paymentMethod
                         else Order.paymentMethod order)
                 else order)
              prevOrders)) ;;;
        OrderApi.updatePaymentStatus orderId
          {| PaymentStatusUpdate.paymentStatus := newStatus;
             PaymentStatusUpdate.paymentMethod := paymentMethod;
             PaymentStatusUpdate.notes := None |} putReply ;;;
        lift (loadOrders c (currentPage c) refreshReply) ;;;
        toast "Payment Updated"
          ("Payment status updated to " ++ paymentLabel newStatus) None None)
       (fun err =>
          lift (loadOrders c (currentPage c) revertReply) ;;;
          toast "Update Failed"
            "Failed to update payment status. Please try again."
            (Some "destructive") None))
    (lift (setUpdatingOrders (fun prev => prev ∖ {[orderId]}))).

Definition handleCancelOrder (c : state) (orderId : Z) (reason : string)
    (postReply : option (reply unit))
    (refreshReply : option (reply OrdersListResponse.t))
  : M state unit :=
  try_finally
    (try_catch
       (lift (setUpdatingOrders (fun prev => prev ∪ {[orderId]})) ;;;
        OrderApi.cancelOrder orderId
          {| OrderCancellation.reason := reason;
             OrderCancellation.cancelledBy := Some "admin" |} postReply ;;;
        lift (loadOrders c (currentPage c) refreshReply) ;;;
        toast "Order Cancelled" "Order has been cancelled successfully."
          None None)
       (fun err =>
          toast "Cancellation Failed"
            "Failed to cancel order. Please try again."
            (Some "destructive") None))
    (lift (setUpdatingOrders (fun prev => prev ∖ {[orderId]}))).

End HandlersX.

(** Whether a control is drawn highlighted ([variant="default"]): a status
    button when it names the display status of the order, a payment button
    when the order has its payment status and, for the "paid" buttons, its
    payment method. *)
Definition selected (order : Order.t) (c : control) : bool :=
  match c with
  | StatusButton status =>
      String.eqb (mapBackendToFrontendStatus (Order.orderStatus order)) status
  | PaymentButton paymentStatus None =>
      String.eqb (Order.paymentStatus order) paymentStatus
  | PaymentButton paymentStatus (Some method) =>
      String.eqb (Order.paymentStatus order) paymentStatus
      && match Order.paymentMethod order with
         | Some m => String.eqb m method
         | None => false
         end
  end.

(** The [onClick] of a control of [order]. *)
Definition click (c : state) (order : Order.t) (b : control)
    (putReply : option (reply unit))
    (refreshReply revertReply : option (reply OrdersListResponse.t))
  : EffX.M state unit :=
  match b with
  | StatusButton status =>
      EffX.lift (handleStatusUpdate c (Order.id order) status
                   putReply refreshReply revertReply)
  | PaymentButton paymentStatus paymentMethod =>
      handlePaymentUpdate c (Order.id order) paymentStatus paymentMethod
        putReply refreshReply revertReply
  end.

(** *** Vocabulary for the statements. *)

Definition is_status (b : button) : bool :=
  match target b with StatusButton _ => true | _ => false end.

Definition is_payment (b : button) : bool :=
  match target b with PaymentButton _ _ => true | _ => false end.

(** Terminal order statuses. *)
Definition terminal (order : Order.t) : Prop :=
  Order.orderStatus order = "delivered"
  \/ Order.orderStatus order = "cancelled".

(** The list shown right after the optimistic rewrite of order [orderId]
    to [newStatus]. *)
Definition optimistic (s : state) (orderId : Z) (newStatus : string)
  : list Order.t :=
  map (fun order =>
         if Order.id order =? orderId
         then Order.with_orderStatus order
                (mapFrontendToBackendStatus newStatus)
         else order)
      (orders s).

(** The row that a click on control [b] puts in place of [order] until
    the list is fetched again. *)
Definition optimisticRow (b : control) (order : Order.t) : Order.t :=
  match b with
  | StatusButton status =>
      Order.with_orderStatus order (mapFrontendToBackendStatus status)
  | PaymentButton paymentStatus paymentMethod =>
      Order.with_payment order paymentStatus
        (if JS.opt_truthy paymentMethod then paymentMethod
         else Order.paymentMethod order)
  end.

(** The list with the row of order [orderId] rewritten by [f]. *)
Definition rewriteRow (orderId : Z) (f : Order.t -> Order.t)
    (l : list Order.t) : list Order.t :=
  map (fun order => if Order.id order =? orderId then f order else order) l.

(** The page carried by a reply that [fetchAllOrders] accepts: an ok
    status and an envelope with [success: true]. *)
Definition fetchedPage (listReply : option (reply OrdersListResponse.t))
  : option OrdersPage.t :=
  match listReply with
  | Some (Resolved r) =>
      if ok r then
        match body r with
        | Success _ d =>
            Some {| OrdersPage.orders :=
                      map OrderApi.transformOrder (OrdersListResponse.data d);
                    OrdersPage.totalCount := OrdersListResponse.totalCount d;
                    OrdersPage.totalPages := OrdersListResponse.totalPages d;
                    OrdersPage.currentPage := OrdersListResponse.currentPage d |}
        | _ => None
        end
      else None
  | _ => None
  end.

(** The error with which [fetchAllOrders] rejects a settled reply; [None]
    when it accepts the reply.  With a non-ok status the body is not
    read. *)
Definition listRejection (listReply : reply OrdersListResponse.t)
  : option string :=
  match listReply with
  | NetworkError m => Some m
  | Resolved r =>
      if ok r then
        match body r with
        | Malformed err => Some err
        | Failure m => Some (JS.opt_or_else m "Failed to fetch orders")
        | Success _ _ => None
        end
      else Some ("HTTP error! status: " ++ JS.toString (status r))
  end.

(** The status-update endpoint accepted the request. *)
Definition updateAccepted (putReply : reply unit) : bool :=
  match putReply with
  | Resolved r =>
      ok r && match body r with Success _ _ => true | _ => false end
  | NetworkError _ => false
  end.

End OrderManagement.

(* ===================================================================== *)
(** ** Order tracking by phone ([CustomerOrderTracking]) *)
(* ===================================================================== *)

Module CustomerOrderTracking.
Import Eff EffX.
Local Open Scope effx_scope.

Record state : Type := mkState {
  phone : string;
  orders : list Order.t;
  loading : bool
}.

(** [useState] initial values. *)
Definition initial : state := mkState "" [] false.

Definition setPhone (v : string) : M state unit :=
  modify (fun s => mkState v (orders s) (loading s)).
Definition setOrders (v : list Order.t) : M state unit :=
  modify (fun s => mkState (phone s) v (loading s)).
Definition setLoading (v : bool) : M state unit :=
  modify (fun s => mkState (phone s) (orders s) v).

(** [c] is the render closure. *)
Definition searchOrders (c : state)
    (listReply : option (reply (list BackendOrder.t))) : M state unit :=
  if negb (JS.truthy (JS.trim (phone c))) then ret tt
  else
    setLoading true ;;;
    try_finally
      (try_catch
         (fetchedOrders <- OrderApi.fetchOrdersByPhone (phone c) false
                             listReply ;;
          setOrders fetchedOrders)
         (fun error => ret tt))
      (setLoading false).

(** [disabled] of the search button. *)
Definition searchDisabled (s : state) : bool := loading s.

(** The orders carried by a reply that [fetchOrdersByPhone] accepts: an
    ok status and an envelope with [success: true]. *)
Definition foundOrders (listReply : reply (list BackendOrder.t))
  : option (list Order.t) :=
  match listReply with
  | Resolved r =>
      if ok r then
        match body r with
        | Success _ data => Some (map OrderApi.transformOrder data)
        | _ => None
        end
      else None
  | NetworkError _ => None
  end.

End CustomerOrderTracking.

(* ===================================================================== *)
(** ** Sample data used by the examples *)
(* ===================================================================== *)

Module Samples.
Import Eff.

Definition backendItem : BackendOrderItem.t :=
  BackendOrderItem.mk 1 "Masala Chai" (301 # 4) 2 None (301 # 2).

(** The backend record [{ id: 42, total_amount: 150.5, ... }]. *)
Definition backendOrder : BackendOrder.t :=
  BackendOrder.mk 42 "Asha Rao" "123-456-7890" None (301 # 2)
    "pending" "pending" None None None "2025-01-01T10:00:00Z"
    None None None None None [backendItem]
    "2025-01-01T10:00:00Z" "2025-01-01T10:00:00Z".

Definition deliveredOrder : Order.t :=
  Order.with_orderStatus (OrderApi.transformOrder backendOrder) "delivered".

Definition cartLine : OrderModal.CartItem.t :=
  OrderModal.CartItem.mk (OrderModal.IdString "7") "7-1" "Masala Chai"
    (301 # 4) "/chai.jpg" 2 None.

Definition modalProps : OrderModal.props :=
  OrderModal.mkProps true [cartLine].

Definition emptyCartProps : OrderModal.props :=
  OrderModal.mkProps true [].

(** A form filled in with acceptable values and no stored error. *)
Definition filledForm : OrderModal.state :=
  OrderModal.mkState " Asha Rao " "123-456-7890" "asha@example.com" ""
    false None None None false None.

(** A form whose phone number is too short. *)
Definition badPhoneForm : OrderModal.state :=
  OrderModal.mkState "Asha Rao" "12345" "" ""
    false None None None false None.

Definition probeReply : reply unit :=
  Resolved (mkResponse true 200 (Success None tt)).

Definition probeOk : option (reply unit) := Some probeReply.

Definition createdReply : reply BackendOrder.t :=
  Resolved (mkResponse true 201 (Success None backendOrder)).

Definition created : option (reply BackendOrder.t) := Some createdReply.

(** A rejection carrying a message of the server. *)
Definition rejectedReply : reply BackendOrder.t :=
  Resolved (mkResponse false 400 (Failure (Some "Quantity must be positive"))).

Definition rejected : option (reply BackendOrder.t) := Some rejectedReply.

Definition offline {T} : option (reply T) :=
  Some (NetworkError "Failed to fetch").

Definition listReply (rows : list BackendOrder.t) (page : Z)
  : reply OrdersListResponse.t :=
  Resolved (mkResponse true 200
    (Success None (OrdersListResponse.mk rows 25 3 page))).

Definition listOf (rows : list BackendOrder.t) (page : Z)
  : option (reply OrdersListResponse.t) := Some (listReply rows page).

Definition putReply : reply unit :=
  Resolved (mkResponse true 200 (Success None tt)).


(** The management table showing one pending order on page 3. *)
Definition table : OrderManagement.state :=
  OrderManagement.mkState [OrderApi.transformOrder backendOrder]
    false None "" "all" "all" None false 3 3 25 ∅.

(** The management table showing the delivered order, with no update in
    flight. *)
Definition deliveredTable : OrderManagement.state :=
  OrderManagement.mkState [deliveredOrder]
    false None "" "all" "all" None false 1 1 1 ∅.

End Samples.

(* ===================================================================== *)
(** ** Facts about the JavaScript primitives *)
(* ===================================================================== *)

Section JSFacts.
Import JS.

Lemma dropWhile_nil_iff {A} (p : A -> bool) (l : list A) :
  dropWhile p l = [] <-> forallb p l = true.
Proof.
  induction l as [|x l IH]; simpl.
  - tauto.
  - destruct (p x); simpl; [exact IH | split; discriminate].
Qed.

Lemma truthy_str_false (l : list ascii) : truthy (str l) = false <-> l = [].
Proof. destruct l; simpl; split; congruence. Qed.

Lemma trimStart_blank (l : list ascii) :
  trimEnd (trimStart l) = [] <-> forallb isWhiteSpace l = true.
Proof.
  unfold trimStart, trimEnd.
  induction l as [|x l IH]; simpl.
  - tauto.
  - destruct (isWhiteSpace x) eqn:Hx; simpl; [exact IH|].
    split; [|discriminate].
    intros H. apply (f_equal (@rev ascii)) in H.
    rewrite rev_involutive in H. simpl in H.
    apply dropWhile_nil_iff in H.
    rewrite forallb_app in H. simpl in H. rewrite Hx in H.
    rewrite andb_false_r in H. discriminate.
Qed.

Lemma trim_blank (s : string) : truthy (trim s) = false <-> blank s.
Proof.
  unfold trim, blank. rewrite truthy_str_false, trimStart_blank.
  rewrite forallb_forall, List.Forall_forall. reflexivity.
Qed.

Lemma trim_not_blank (s : string) : truthy (trim s) = true <-> ~ blank s.
Proof.
  rewrite <- trim_blank. destruct (truthy (trim s)); split; congruence.
Qed.

Lemma length_str (l : list ascii) : String.length (str l) = List.length l.
Proof. induction l; simpl; congruence. Qed.


Lemma str_chars (s : string) : str (chars s) = s.
Proof. apply string_of_list_ascii_of_string. Qed.

Lemma toString_truthy (n : Z) : truthy (toString n) = true.
Proof.
  unfold toString. destruct (Z.to_int n) as [d|d]; destruct d; reflexivity.
Qed.








Example parseInt_examples :
  parseInt "7" = Num 7 /\ parseInt "042" = Num 42
  /\ parseInt " 12abc" = Num 12 /\ parseInt "abc" = NaN
  /\ parseInt "0x1f" = Num 31 /\ parseInt "-3" = Num (-3).
Proof. repeat split; reflexivity. Qed.

End JSFacts.

(* ===================================================================== *)
(** ** The validators and the view-model transformation *)
(* ===================================================================== *)

Section Validators.
Import OrderModal.

Lemma stripNonDigits_length (s : string) :
  JS.length (JS.stripNonDigits s)
  = Z.of_nat (List.length (List.filter JS.isDigit (JS.chars s))).
Proof. unfold JS.length, JS.stripNonDigits. now rewrite length_str. Qed.

Lemma validatePhoneNumber_cases (s : string) :
  validatePhoneNumber s =
    if JS.truthy (JS.trim s) then
      if JS.length (JS.stripNonDigits s) <? 10
      then Some "Phone number must be at least 10 digits"
      else if JS.length (JS.stripNonDigits s) >? 15
           then Some "Phone number cannot exceed 15 digits"
           else None
    else None.
Proof. unfold validatePhoneNumber. now destruct (JS.truthy (JS.trim s)). Qed.


Example validatePhoneNumber_dashes :
  validatePhoneNumber "123-456-7890" = None.
Proof. reflexivity. Qed.

Example validatePhoneNumber_short :
  validatePhoneNumber "12345" = Some "Phone number must be at least 10 digits".
Proof. reflexivity. Qed.

Example validatePhoneNumber_long :
  validatePhoneNumber "+91 (0) 12345-67890-12345"
  = Some "Phone number cannot exceed 15 digits".
Proof. reflexivity. Qed.

Example validatePhoneNumber_empty : validatePhoneNumber "" = None.
Proof. reflexivity. Qed.

Example validateEmail_examples :
  validateEmail "a@b.com" = None
  /\ validateEmail "a@b" = Some "Please enter a valid email address"
  /\ validateEmail "a b@c.d" = Some "Please enter a valid email address"
  /\ validateEmail "  " = None.
Proof. repeat split; reflexivity. Qed.

End Validators.

Section Transform.
Import OrderApi.

Lemma transformItem_subtotal (item : BackendOrderItem.t) :
  OrderItem.subtotal (transformItem item) = BackendOrderItem.subtotal item.
Proof. reflexivity. Qed.

(** C9.  [transformOrder] reproduces the total amount, the order status
    and, position by position, every item's subtotal of the backend
    record: the fields are copied, nothing is recomputed. *)
Theorem transformOrder_mirrors (b : BackendOrder.t) :
  Order.totalAmount (transformOrder b) = BackendOrder.total_amount b
  /\ Order.orderStatus (transformOrder b) = BackendOrder.order_status b
  /\ map OrderItem.subtotal (Order.items (transformOrder b))
     = map BackendOrderItem.subtotal (BackendOrder.items b).
Proof.
  repeat split. simpl.
  induction (BackendOrder.items b) as [|item l IH]; simpl.
  - reflexivity.
  - now rewrite IH.
Qed.

(** The total is mirrored even when it differs from the sum of the
    subtotals: 150.5 is kept next to a single subtotal of 150.5 doubled. *)
Example transformOrder_no_recompute :
  let b := BackendOrder.mk 9 "N" "P" None (301 # 2) "ready" "paid"
             (Some "cash") None None "d" None None None None None
             [BackendOrderItem.mk 1 "x" (301 # 2) 2 None (301 # 1)] "c" "u" in
  Order.totalAmount (transformOrder b) = (301 # 2)%Q
  /\ map OrderItem.subtotal (Order.items (transformOrder b)) = [(301 # 1)%Q].
Proof. split; reflexivity. Qed.

End Transform.

(* ===================================================================== *)
(** ** Reasoning about runs *)
(* ===================================================================== *)

Section EffFacts.
Import Eff.
Context {S : Type}.

(** Every event a computation can emit, from any state, satisfies [P]. *)
Definition only (P : event -> Prop) {A} (m : M S A) : Prop :=
  forall s, List.Forall P (events (log (m s))).

Lemma only_ret P {A} (a : A) : only P (ret a).
Proof. intros s. constructor. Qed.

Lemma only_throw P {A} e : only P (throw (A:=A) e).
Proof. intros s. constructor. Qed.

Lemma only_suspend P {A} : only P (suspend (A:=A)).
Proof. intros s. constructor. Qed.

Lemma only_modify P f : only P (modify f).
Proof. intros s. constructor. Qed.

Lemma only_emit (P : event -> Prop) e : P e -> only P (emit e).
Proof. intros H s. repeat constructor. exact H. Qed.

Lemma only_toast (P : event -> Prop) t d v du :
  P (Toast (mkToast t d v du)) -> only P (toast t d v du).
Proof. apply only_emit. Qed.

Lemma only_bind P {A B} (m : M S A) (k : A -> M S B) :
  only P m -> (forall a, only P (k a)) -> only P (bind m k).
Proof.
  intros Hm Hk s. unfold bind. specialize (Hm s).
  destruct (m s) as [[a|e|] s' l]; simpl in *; try exact Hm.
  specialize (Hk a s'). destruct (k a s') as [r s'' l']. simpl in *.
  unfold events in *. rewrite map_app. apply List.Forall_app. now split.
Qed.

Lemma only_try_catch P {A} (m : M S A) h :
  only P m -> (forall e, only P (h e)) -> only P (try_catch m h).
Proof.
  intros Hm Hh s. unfold try_catch. specialize (Hm s).
  destruct (m s) as [[a|e|] s' l]; simpl in *; try exact Hm.
  specialize (Hh e s'). destruct (h e s') as [r s'' l']. simpl in *.
  unfold events in *. rewrite map_app. apply List.Forall_app. now split.
Qed.

Lemma only_try_finally P {A} (m : M S A) f :
  only P m -> only P f -> only P (try_finally m f).
Proof.
  intros Hm Hf s. unfold try_finally. specialize (Hm s).
  destruct (m s) as [[a|e|] s' l]; simpl in *; try exact Hm;
    specialize (Hf s'); destruct (f s') as [[u|e'|] s'' l']; simpl in *;
    unfold events in *; rewrite map_app; apply List.Forall_app; now split.
Qed.

Lemma only_spawn P {A} (m : M S A) : only P m -> only P (spawn m).
Proof.
  intros Hm s. unfold spawn. specialize (Hm s).
  destruct (m s) as [r s' l]. exact Hm.
Qed.

Lemma only_fetch (P : event -> Prop) {T} rq (rp : option (reply T)) :
  P (Req rq) -> only P (fetch rq rp).
Proof.
  intros H. unfold fetch. apply only_bind; [now apply only_emit|].
  intros _. destruct rp as [[m|r]|];
    [apply only_throw | apply only_ret | apply only_suspend].
Qed.

Lemma only_parse P {T} (r : response T) : only P (parse r).
Proof.
  unfold parse. destruct (body r); [apply only_throw | apply only_ret ..].
Qed.

(** The log of a sequence starts with the log of its first part. *)
Lemma log_bind_prefix {A B} (m : M S A) (k : A -> M S B) s :
  exists rest, log (bind m k s) = (log (m s) ++ rest)%list.
Proof.
  unfold bind. destruct (m s) as [[a|e|] s' l]; simpl;
    [destruct (k a s'); eexists; reflexivity
    | exists []; now rewrite app_nil_r ..].
Qed.

Lemma log_try_catch_prefix {A} (m : M S A) h s :
  exists rest, log (try_catch m h s) = (log (m s) ++ rest)%list.
Proof.
  unfold try_catch. destruct (m s) as [[a|e|] s' l]; simpl;
    [exists []; now rewrite app_nil_r
    | destruct (h e s'); eexists; reflexivity
    | exists []; now rewrite app_nil_r].
Qed.

Lemma log_try_finally_prefix {A} (m : M S A) f s :
  exists rest, log (try_finally m f s) = (log (m s) ++ rest)%list.
Proof.
  unfold try_finally.
  destruct (m s) as [[a|e|] s' l]; simpl;
    try (destruct (f s') as [[u|e'|] s'' l']; simpl; eexists; reflexivity).
  exists []; now rewrite app_nil_r.
Qed.

Lemma log_fetch_head {T} rq (rp : option (reply T)) s :
  log (fetch (S:=S) rq rp s) = [(Req rq, s)].
Proof. destruct rp as [[m|r]|]; reflexivity. Qed.

End EffFacts.

(** Splits a reply into the shapes the API client distinguishes. *)
Ltac split_reply r :=
  let m := fresh "m" in
  let c := fresh "code" in
  let b := fresh "msg" in
  let d := fresh "data" in
  destruct r as [[m|[[|] c [b|b|b d]]]|].

Ltac split_settled r :=
  let m := fresh "m" in
  let c := fresh "code" in
  let b := fresh "msg" in
  let d := fresh "data" in
  destruct r as [m|[[|] c [b|b|b d]]].

(** Proves [only P m] by following the structure of [m]. *)
Ltac only_step :=
  first
    [ apply only_ret | apply only_throw | apply only_suspend
    | apply only_modify | apply only_parse | apply only_spawn
    | apply only_bind | apply only_try_catch | apply only_try_finally
    | apply only_fetch | apply only_toast | apply only_emit
    | match goal with
      | |- only _ (if ?b then _ else _) => destruct b
      | |- only _ (match ?x with _ => _ end) => destruct x
      end
    | intro | reflexivity | exact I ].

Ltac only_tac := repeat only_step.

(* ===================================================================== *)
(** ** The order API client: availability gate *)
(* ===================================================================== *)

Section ApiFacts.
Import Eff OrderApi.

(** The API functions never touch the component state. *)
Lemma placeOrder_relocate {S} (od : OrderSubmission.t) r1 r2 r3 (s : S) :
  placeOrder od r1 r2 r3 s = relocate s (placeOrder od r1 r2 r3 tt).
Proof.
  split_reply r1; try reflexivity; split_reply r2; try reflexivity;
    split_reply r3; reflexivity.
Qed.

Lemma fetchAllOrders_relocate {S} params r (s : S) :
  fetchAllOrders params r s = relocate s (fetchAllOrders params r tt).
Proof. split_reply r; reflexivity. Qed.

Lemma updateOrderStatus_relocate {S} i u r (s : S) :
  updateOrderStatus i u r s = relocate s (updateOrderStatus i u r tt).
Proof. split_reply r; reflexivity. Qed.

(** The first request of [placeOrder] goes to the test endpoint. *)
Lemma placeOrder_probe_first {S} (od : OrderSubmission.t) r1 r2 r3 (s : S) :
  exists rest,
    events (log (placeOrder od r1 r2 r3 s)) = Req GET_menu_test :: rest.
Proof.
  unfold placeOrder.
  destruct (log_try_catch_prefix
    (Eff.bind
       (try_catch
          (checkItemsAvailability
             (map SubmissionItem.menuItemId (OrderSubmission.items od)) r1 r2)
          (fun _ => throw (ErrorObj "Some menu items are not available. Please refresh your cart and try again.")))
       (fun _ =>
          Eff.bind (fetch (POST_orders od) r3) (fun response =>
            if negb (ok response) then
              Eff.bind (parse response) (fun errorData =>
                throw (ErrorObj (JS.opt_or_else (message errorData)
                  ("HTTP error! status: " ++ JS.toString (status response)))))
            else
              Eff.bind (parse response) (fun apiResponse =>
                match apiResponse with
                | Success _ data => ret (transformOrder data)
                | _ => throw (ErrorObj (JS.opt_or_else (message apiResponse)
                                          "Failed to place order"))
                end))))
    (fun error => throw error) s) as [t1 ->].
  match goal with
  | |- context [log (Eff.bind ?m ?k s)] =>
      destruct (log_bind_prefix m k s) as [t2 ->]
  end.
  match goal with
  | |- context [log (try_catch ?m ?h s)] =>
      destruct (log_try_catch_prefix m h s) as [t3 ->]
  end.
  unfold checkItemsAvailability.
  match goal with
  | |- context [log (try_catch ?m ?h s)] =>
      destruct (log_try_catch_prefix m h s) as [t4 ->]
  end.
  match goal with
  | |- context [log (Eff.bind ?m ?k s)] =>
      destruct (log_bind_prefix m k s) as [t5 ->]
  end.
  rewrite log_fetch_head. simpl. eexists. reflexivity.
Qed.

(** The probe throws exactly when one of its requests settles badly: a
    network failure, a non-ok status or an unreadable body. *)
Lemma checkItemsAvailability_throws {S} ids r1 r2 (s : S) :
  (exists e, res (checkItemsAvailability ids r1 r2 s) = Threw e)
  <-> match r1 with
      | None => False
      | Some (NetworkError _) => True
      | Some (Resolved _) =>
          match r2 with
          | None => False
          | Some (NetworkError _) => True
          | Some (Resolved r) =>
              ok r = false \/ exists err, body r = Malformed err
          end
      end.
Proof.
  split_reply r1; split_reply r2; cbn;
    (split;
     [ intros [e H];
       first [ discriminate H | exact I | left; reflexivity
             | right; eexists; reflexivity ]
     | intros Hc;
       first [ contradiction | eexists; reflexivity
             | destruct Hc as [Hc|[err Hc]]; discriminate Hc ] ]).
Qed.

(** C10.  [placeOrder] starts with the availability probe on the test
    endpoint, and whenever that probe throws, whatever the reason,
    [placeOrder] throws the fixed "not available" error and no request to
    the order-creation endpoint is ever issued. *)
Theorem placeOrder_availability_gate {S} (od : OrderSubmission.t)
    (r1 r2 : option (reply unit)) (r3 : option (reply BackendOrder.t))
    (s : S) (e : thrown) :
  res (checkItemsAvailability (S:=S)
         (map SubmissionItem.menuItemId (OrderSubmission.items od)) r1 r2 s)
  = Threw e ->
  (exists rest,
      events (log (placeOrder od r1 r2 r3 s)) = Req GET_menu_test :: rest)
  /\ res (placeOrder od r1 r2 r3 s)
     = Threw (ErrorObj "Some menu items are not available. Please refresh your cart and try again.")
  /\ existsb is_POST_orders (events (log (placeOrder od r1 r2 r3 s))) = false.
Proof.
  intros H. split; [apply placeOrder_probe_first|].
  revert H.
  split_reply r1; split_reply r2; cbn; intros H; try discriminate H;
    split; reflexivity.
Qed.

(** The probe itself failing on the network blocks the order. *)
Lemma placeOrder_availability_gate_witness :
  let od := OrderModal.orderData (Samples.modalProps, Samples.filledForm) in
  res (checkItemsAvailability (S:=unit)
         (map SubmissionItem.menuItemId (OrderSubmission.items od))
         Samples.offline Samples.probeOk tt)
  = Threw (ErrorObj "Failed to fetch")
  /\ (exists rest,
        events (log (placeOrder od Samples.offline Samples.probeOk
                       Samples.created tt))
        = Req GET_menu_test :: rest)
  /\ res (placeOrder od Samples.offline Samples.probeOk Samples.created tt)
     = Threw (ErrorObj "Some menu items are not available. Please refresh your cart and try again.")
  /\ existsb is_POST_orders
       (events (log (placeOrder od Samples.offline Samples.probeOk
                       Samples.created tt))) = false.
Proof.
  split; [reflexivity|].
  apply (placeOrder_availability_gate
           (OrderModal.orderData (Samples.modalProps, Samples.filledForm))
           Samples.offline Samples.probeOk Samples.created tt
           (ErrorObj "Failed to fetch")).
  reflexivity.
Defined.

(** With a passing probe the order request is the third and last one. *)
Example placeOrder_requests :
  let od := OrderModal.orderData (Samples.modalProps, Samples.filledForm) in
  events (log (placeOrder od Samples.probeOk Samples.probeOk
                 Samples.created tt))
  = [Req GET_menu_test; Req (POST_menu_test [JS.Num 7]); Req (POST_orders od)].
Proof. reflexivity. Qed.

End ApiFacts.

(* ===================================================================== *)
(** ** The order modal: how the handlers run *)
(* ===================================================================== *)

Section ModalRuns.
Import Eff OrderModal.

Lemma validateForm_run (c : closure) (s0 : state) :
  validateForm c s0 = mkOut (Returned (formValid (snd c))) (validated c s0) [].
Proof.
  unfold validateForm, formValid, nameValid, validated.
  destruct (JS.truthy (JS.trim (customerName (snd c)))); simpl;
    [destruct (JS.length (JS.trim (customerName (snd c))) <? 2); simpl|];
    destruct (JS.opt_truthy (validateEmail (customerEmail (snd c))));
    destruct (JS.opt_truthy (validatePhoneNumber (phoneNumber (snd c))));
    reflexivity.
Qed.

(** A validator's error, when there is one, is a non-empty message. *)
Lemma validateEmail_truthy (v : string) :
  JS.opt_truthy (validateEmail v) = true <-> validateEmail v <> None.
Proof.
  unfold validateEmail.
  destruct (negb (JS.truthy (JS.trim v))); [simpl; split; congruence|].
  destruct (negb (JS.test_anchored emailRegex v)); simpl; split; congruence.
Qed.

Lemma validatePhoneNumber_truthy (v : string) :
  JS.opt_truthy (validatePhoneNumber v) = true <-> validatePhoneNumber v <> None.
Proof.
  rewrite validatePhoneNumber_cases.
  destruct (JS.truthy (JS.trim v)); [|simpl; split; congruence].
  destruct (JS.length (JS.stripNonDigits v) <? 10); [simpl; split; congruence|].
  destruct (JS.length (JS.stripNonDigits v) >? 15); simpl; split; congruence.
Qed.

Lemma validateEmail_falsy (v : string) :
  JS.opt_truthy (validateEmail v) = false <-> validateEmail v = None.
Proof.
  pose proof (validateEmail_truthy v) as [H1 H2].
  destruct (validateEmail v) as [m|]; simpl in *; split; intros H;
    try reflexivity; try discriminate.
  rewrite H2 in H; [discriminate | discriminate].
Qed.

Lemma validatePhoneNumber_falsy (v : string) :
  JS.opt_truthy (validatePhoneNumber v) = false
  <-> validatePhoneNumber v = None.
Proof.
  pose proof (validatePhoneNumber_truthy v) as [H1 H2].
  destruct (validatePhoneNumber v) as [m|]; simpl in *; split; intros H;
    try reflexivity; try discriminate.
  rewrite H2 in H; [discriminate | discriminate].
Qed.

Lemma formValid_true (s : state) :
  formValid s = true <->
  nameValid (customerName s) = true
  /\ validateEmail (customerEmail s) = None
  /\ validatePhoneNumber (phoneNumber s) = None.
Proof.
  unfold formValid. rewrite !andb_true_iff, !negb_true_iff.
  rewrite validateEmail_falsy, validatePhoneNumber_falsy. tauto.
Qed.

Lemma cart_length_zero (l : list CartItem.t) :
  (Z.of_nat (List.length l) =? 0) = match l with [] => true | _ => false end.
Proof. destruct l; reflexivity. Qed.

(** *** The three ways [handleSubmit_send] can go. *)

Ltac send_run c r1 r2 r3 s1 H :=
  let E := fresh "E" in
  unfold handleSubmit_send, setIsSubmitting, modify;
  unfold Eff.bind at 1; unfold try_finally, try_catch;
  unfold Eff.bind at 1;
  rewrite (placeOrder_relocate (orderData c) r1 r2 r3);
  destruct (OrderApi.placeOrder (orderData c) r1 r2 r3 tt) as [r0 [] l0] eqn:E;
  cbn [res] in H; subst r0;
  cbn; rewrite ?app_nil_r; reflexivity.

Lemma send_returned (c : closure) r1 r2 r3 (s1 : state) (order : Order.t) :
  res (OrderApi.placeOrder (orderData c) r1 r2 r3 tt) = Returned order ->
  handleSubmit_send c r1 r2 r3 s1
  = mkOut (Returned tt)
      (mkState "" "" "" "" false None None None true
         (Some (mkPopupData (JS.toString (Order.id order))
                            (Order.totalAmount order))))
      (log (relocate (submitting true s1)
              (OrderApi.placeOrder (orderData c) r1 r2 r3 tt))).
Proof.
  intros H. send_run c r1 r2 r3 s1 H.
Qed.

Lemma send_threw (c : closure) r1 r2 r3 (s1 : state) (e : thrown) :
  res (OrderApi.placeOrder (orderData c) r1 r2 r3 tt) = Threw e ->
  handleSubmit_send c r1 r2 r3 s1
  = mkOut (Returned tt) (submitting false s1)
      (log (relocate (submitting true s1)
              (OrderApi.placeOrder (orderData c) r1 r2 r3 tt))
       ++ [(failureToast e, submitting true s1)])%list.
Proof.
  intros H. send_run c r1 r2 r3 s1 H.
Qed.

Lemma send_suspended (c : closure) r1 r2 r3 (s1 : state) :
  res (OrderApi.placeOrder (orderData c) r1 r2 r3 tt) = Suspended ->
  handleSubmit_send c r1 r2 r3 s1
  = mkOut Suspended (submitting true s1)
      (log (relocate (submitting true s1)
              (OrderApi.placeOrder (orderData c) r1 r2 r3 tt))).
Proof.
  intros H. send_run c r1 r2 r3 s1 H.
Qed.

(** [handleSubmit] through its guards. *)
Lemma handleSubmit_run (p : props) (s : state) r1 r2 r3 :
  dispatch (Submit r1 r2 r3) p s
  = if negb (formValid s) then
      mkOut (Returned tt) (validated (p, s) s)
        [(Toast (mkToast "Validation Error"
                   "Please fix the errors below before submitting"
                   destructive None), validated (p, s) s)]
    else
      match cart p with
      | [] =>
          mkOut (Returned tt) (validated (p, s) s)
            [(Toast (mkToast "Empty Cart"
                       "Please add items to your cart before placing an order"
                       destructive None), validated (p, s) s)]
      | _ :: _ => handleSubmit_send (p, s) r1 r2 r3 (validated (p, s) s)
      end.
Proof.
  unfold dispatch, handler, handleSubmit.
  unfold Eff.bind at 1. rewrite validateForm_run. cbn [res st log fst snd].
  destruct (formValid s); cbn [negb].
  - rewrite cart_length_zero.
    destruct (cart p); [reflexivity|].
    destruct (handleSubmit_send (p, s) r1 r2 r3 (validated (p, s) s));
      reflexivity.
  - reflexivity.
Qed.

(** The events of the API client are requests. *)
Lemma placeOrder_only_requests {S} od r1 r2 r3 :
  only (S:=S) (fun e => is_request e = true)
       (OrderApi.placeOrder od r1 r2 r3).
Proof.
  unfold OrderApi.placeOrder, OrderApi.checkItemsAvailability. only_tac.
Qed.

Lemma events_app {S} (l1 l2 : list (event * S)) :
  events (l1 ++ l2) = (events l1 ++ events l2)%list.
Proof. apply map_app. Qed.

Lemma events_relocate {S A} (s : S) (o : out unit A) :
  events (log (relocate s o)) = events (log o).
Proof.
  unfold relocate, events. cbn [log]. rewrite map_map. reflexivity.
Qed.

End ModalRuns.

(* ===================================================================== *)
(** ** The order modal: submission workflow *)
(* ===================================================================== *)

Section ModalClaims.
Import Eff OrderModal.

(** A failed validation leaves at least one non-empty error behind, which
    keeps the submit button disabled. *)
Lemma validated_disabled (p : props) (s : state) :
  formValid s = false -> submitDisabled (validated (p, s) s) = true.
Proof.
  unfold formValid, nameValid, submitDisabled, validated.
  cbn [snd isSubmitting nameError emailError phoneError].
  destruct (JS.truthy (JS.trim (customerName s))); cbn [negb andb].
  - destruct (JS.length (JS.trim (customerName s)) <? 2); cbn [negb andb].
    + intros _. cbn. now rewrite orb_true_r.
    + destruct (JS.opt_truthy (validateEmail (customerEmail s))).
      * intros _. now rewrite !orb_true_r.
      * destruct (JS.opt_truthy (validatePhoneNumber (phoneNumber s))).
        -- intros _. now rewrite !orb_true_r.
        -- discriminate.
  - intros _. cbn. now rewrite orb_true_r.
Qed.

Lemma In_events_relocate {S A} (s : S) (o : out unit A) (e : event) :
  In e (events (log (relocate s o))) <-> In e (events (log o)).
Proof. now rewrite events_relocate. Qed.

(** The only order-creation request [placeOrder] can issue carries the
    submission it was given. *)
Lemma placeOrder_posts_its_argument od r1 r2 r3 body :
  In (Req (POST_orders body))
     (events (log (OrderApi.placeOrder (S:=unit) od r1 r2 r3 tt))) ->
  body = od.
Proof.
  split_reply r1; split_reply r2; split_reply r3; cbn;
    intros H; repeat (destruct H as [H|H]; try discriminate H);
    try contradiction; now inversion H.
Qed.

Lemma placeOrder_posts_when_probe_passes od r1 r2 r3 :
  probePasses r1 r2 = true ->
  In (Req (POST_orders od))
     (events (log (OrderApi.placeOrder (S:=unit) od r1 r2 r3 tt))).
Proof.
  split_reply r1; split_reply r2; cbn; try discriminate; intros _;
    split_reply r3; cbn; auto.
Qed.

Lemma send_events (c : closure) r1 r2 r3 (s1 : state) :
  exists tail,
    events (log (handleSubmit_send c r1 r2 r3 s1))
    = (events (log (OrderApi.placeOrder (S:=unit) (orderData c) r1 r2 r3 tt))
       ++ tail)%list
    /\ List.Forall (fun e => is_request e = false) tail.
Proof.
  destruct (res (OrderApi.placeOrder (S:=unit) (orderData c) r1 r2 r3 tt))
    as [order|e|] eqn:H.
  - rewrite (send_returned c r1 r2 r3 s1 order H). cbn [log].
    rewrite events_relocate.
    exists []. rewrite app_nil_r. split; [reflexivity | constructor].
  - rewrite (send_threw c r1 r2 r3 s1 e H). cbn [log].
    rewrite events_app, events_relocate. eexists. split; [reflexivity|].
    repeat constructor.
  - rewrite (send_suspended c r1 r2 r3 s1 H). cbn [log].
    rewrite events_relocate.
    exists []. rewrite app_nil_r. split; [reflexivity | constructor].
Qed.

(** C6.  The submit handler checks its preconditions in order.  With a
    failing validator it stores the field errors (which keeps the submit
    button disabled), shows the validation notification and issues no
    request.  With passing validators and an empty cart it shows the
    empty-cart notification and issues no request.  Only with passing
    validators and a non-empty cart does it go to the network, starting
    with [placeOrder]'s probe, and any order-creation request it sends
    carries the submission built from the form and the cart; that request
    is sent whenever the probe passes. *)
Theorem handleSubmit_preconditions (p : props) (s : state)
    (r1 r2 : option (reply unit)) (r3 : option (reply BackendOrder.t)) :
  let o := dispatch (Submit r1 r2 r3) p s in
  (formValid s = false ->
     events (log o)
     = [Toast (mkToast "Validation Error"
                 "Please fix the errors below before submitting"
                 destructive None)]
     /\ emailError (st o) = validateEmail (customerEmail s)
     /\ phoneError (st o) = validatePhoneNumber (phoneNumber s)
     /\ (nameValid (customerName s) = false ->
         JS.opt_truthy (nameError (st o)) = true)
     /\ submitDisabled (st o) = true)
  /\ (formValid s = true -> cart p = [] ->
     events (log o)
     = [Toast (mkToast "Empty Cart"
                 "Please add items to your cart before placing an order"
                 destructive None)])
  /\ (formValid s = true -> cart p <> [] ->
     (exists rest, events (log o) = Req GET_menu_test :: rest)
     /\ (forall body, In (Req (POST_orders body)) (events (log o)) ->
         body = orderData (p, s))
     /\ (probePasses r1 r2 = true ->
         In (Req (POST_orders (orderData (p, s)))) (events (log o))))
  /\ (existsb is_request (events (log o)) = true ->
      formValid s = true /\ cart p <> []).
Proof.
  intros o. subst o. rewrite handleSubmit_run.
  destruct (formValid s) eqn:Hv; cbn [negb].
  - split; [discriminate|].
    split; [intros _ Hc; rewrite Hc; reflexivity|].
    split.
    + intros _ Hne.
      destruct (cart p) as [|x l] eqn:Hc; [congruence|].
      destruct (send_events (p, s) r1 r2 r3 (validated (p, s) s))
        as [tail [He Ht]].
      rewrite He. split; [|split].
      * destruct (placeOrder_probe_first (S:=unit) (orderData (p, s))
                    r1 r2 r3 tt) as [rest ->].
        eexists. reflexivity.
      * intros body Hin. apply in_app_or in Hin. destruct Hin as [Hin|Hin].
        -- now apply placeOrder_posts_its_argument in Hin.
        -- rewrite List.Forall_forall in Ht. apply Ht in Hin.
           discriminate Hin.
      * intros Hp. apply in_or_app. left.
        now apply placeOrder_posts_when_probe_passes.
    + intros Hex. split; [reflexivity|].
      intros Hc. rewrite Hc in Hex. discriminate Hex.
  - split.
    + intros _. cbn [st log events map fst].
      split; [reflexivity|]. split; [reflexivity|]. split; [reflexivity|].
      split.
      * unfold nameValid. cbn [validated snd nameError].
        destruct (JS.truthy (JS.trim (customerName s))); cbn [negb andb];
          [|reflexivity].
        destruct (JS.length (JS.trim (customerName s)) <? 2); cbn;
          congruence.
      * now apply validated_disabled.
    + split; [discriminate|]. split; [discriminate|].
      intros Hex. discriminate Hex.
Qed.

(** A phone number that is too short blocks the submission. *)
Example handleSubmit_bad_phone :
  events (log (dispatch (Submit Samples.probeOk Samples.probeOk
                           Samples.created)
                 Samples.modalProps Samples.badPhoneForm))
  = [Toast (mkToast "Validation Error"
              "Please fix the errors below before submitting"
              destructive None)]
  /\ phoneError (st (dispatch (Submit Samples.probeOk Samples.probeOk
                                 Samples.created)
                       Samples.modalProps Samples.badPhoneForm))
     = Some "Phone number must be at least 10 digits".
Proof. split; reflexivity. Qed.

(** A valid form with an empty cart is not sent. *)
Example handleSubmit_empty_cart :
  events (log (dispatch (Submit Samples.probeOk Samples.probeOk
                           Samples.created)
                 Samples.emptyCartProps Samples.filledForm))
  = [Toast (mkToast "Empty Cart"
              "Please add items to your cart before placing an order"
              destructive None)].
Proof. reflexivity. Qed.

(** A valid form with a cart line goes out after the two probe requests. *)
Example handleSubmit_sends :
  events (log (dispatch (Submit Samples.probeOk Samples.probeOk
                           Samples.created)
                 Samples.modalProps Samples.filledForm))
  = [Req GET_menu_test;
     Req (POST_menu_test [JS.Num 7]);
     Req (POST_orders
            (OrderSubmission.mk "Asha Rao" "123-456-7890"
               (Some "asha@example.com")
               [SubmissionItem.mk (JS.Num 7) 2 (Some "")]
               None (Some "") None))].
Proof. reflexivity. Qed.

(** *** The stored errors follow the fields. *)

Lemma in_sync_blank (b : bool) (sp : bool) (pd : option popupData_t) :
  in_sync (mkState "" "" "" "" b None None None sp pd).
Proof.
  unfold in_sync. cbn.
  split; [reflexivity|]. split; [reflexivity|]. intros H. discriminate H.
Qed.

Lemma in_sync_submitting (b : bool) (s : state) :
  in_sync s -> in_sync (submitting b s).
Proof. intros H. exact H. Qed.

Lemma in_sync_validated (p : props) (s : state) :
  in_sync s -> in_sync (validated (p, s) s).
Proof.
  intros [He [Hp Hn]]. unfold in_sync, validated.
  cbn [snd customerEmail phoneNumber customerName emailError phoneError
       nameError].
  split; [reflexivity|]. split; [reflexivity|].
  intros Hv. specialize (Hn Hv). unfold nameValid in Hv.
  destruct (JS.truthy (JS.trim (customerName s))); [|discriminate Hv].
  destruct (JS.length (JS.trim (customerName s)) <? 2); [discriminate Hv|].
  exact Hn.
Qed.

Lemma dispatch_in_sync (a : action) (p : props) (s : state) :
  in_sync s -> in_sync (st (dispatch a p s)).
Proof.
  intros H. pose proof H as [He [Hp Hn]].
  destruct a as [v|v|v|v|r1 r2 r3| |open|].
  - unfold dispatch, handler, handleNameChange, in_sync, nameValid.
    destruct (JS.truthy (JS.trim v)) eqn:E1; cbn [negb];
      [destruct (JS.length (JS.trim v) <? 2) eqn:E2|];
      unfold Eff.bind, setCustomerName, setNameError, modify;
      cbn [st customerName customerEmail phoneNumber emailError phoneError
           nameError];
      rewrite E1, ?E2; cbn [negb andb];
      (split; [assumption|]); (split; [assumption|]);
      intros Hv; (discriminate Hv || reflexivity).
  - cbn. repeat split; assumption.
  - cbn. repeat split; assumption.
  - cbn. repeat split; assumption.
  - rewrite handleSubmit_run.
    destruct (formValid s); cbn [negb];
      [|now apply in_sync_validated].
    destruct (cart p); [now apply in_sync_validated|].
    destruct (res (OrderApi.placeOrder (S:=unit) (orderData (p, s))
                     r1 r2 r3 tt)) as [order|e|] eqn:E.
    + rewrite (send_returned _ _ _ _ _ _ E). apply in_sync_blank.
    + rewrite (send_threw _ _ _ _ _ _ E).
      now apply in_sync_submitting, in_sync_validated.
    + rewrite (send_suspended _ _ _ _ _ E).
      now apply in_sync_submitting, in_sync_validated.
  - cbn. apply in_sync_blank.
  - unfold dispatch, handler, onOpenChange. cbn [snd].
    destruct (showPopup s); cbn [negb]; [exact H|].
    destruct open; cbn [negb]; [exact H|]. cbn. apply in_sync_blank.
  - cbn. repeat split; assumption.
Qed.

(** In every reachable state the stored errors agree with the fields. *)
Lemma reachable_in_sync (s : state) : reachable s -> in_sync s.
Proof.
  induction 1 as [|a p s Hr IH].
  - apply (in_sync_blank false false None).
  - now apply dispatch_in_sync.
Qed.

(** *** Failure of a submission. *)

Lemma placeOrder_settles od (a b : reply unit) (c : reply BackendOrder.t) :
  res (OrderApi.placeOrder (S:=unit) od (Some a) (Some b) (Some c) tt)
  <> Suspended.
Proof. split_settled a; split_settled b; split_settled c; discriminate. Qed.

(** What [placeOrder] throws: always an [Error]; the fixed availability
    message when the probe did not pass, and otherwise the rejection
    derived from the order-creation reply. *)
Lemma placeOrder_throws od r1 r2 r3 e :
  res (OrderApi.placeOrder (S:=unit) od r1 r2 r3 tt) = Threw e ->
  exists m, e = ErrorObj m
    /\ (probePasses r1 r2 = false ->
        m = "Some menu items are not available. Please refresh your cart and try again.")
    /\ (probePasses r1 r2 = true ->
        exists c, r3 = Some c /\ rejection c = Some m).
Proof.
  split_reply r1; split_reply r2; cbn;
    try (intros H; inversion H; eexists; split; [reflexivity|];
         split; [reflexivity | discriminate]);
    try discriminate.
  all: split_reply r3; cbn; intros H; inversion H; eexists;
    (split; [reflexivity|]); (split; [discriminate|]);
    intros _; eexists; split; reflexivity.
Qed.

Lemma filter_requests_nil (l : list event) :
  List.Forall (fun e => is_request e = true) l ->
  List.filter (fun e => negb (is_request e)) l = [].
Proof.
  induction 1 as [|e l He _ IH]; [reflexivity|].
  cbn [List.filter]. rewrite He. exact IH.
Qed.

End ModalClaims.

Section ModalOutcomes.
Import Eff OrderModal.

(** C5.  Once the submission has gone to the network, every settled
    outcome leaves the submitting flag cleared.  When [placeOrder] throws,
    the form fields are as the user left them, no error is reset (the
    name error is untouched, the e-mail and phone errors are the [None]
    the passing validators produced, so whenever the stored errors agreed
    with the fields the whole form is unchanged), and the popup state is
    untouched.  The one notification shown is "Order Failed"; its text is
    the thrown message verbatim, except that a message containing
    "not available" is replaced by the refresh-your-cart text.  The thrown
    message is the fixed availability message when the probe failed;
    otherwise it is the server's [message] when the reply has a non-empty
    one, and the generic "Failed to place order" or "HTTP error! status: N"
    when it has none. *)
Theorem handleSubmit_failure (p : props) (s : state)
    (a b : reply unit) (c : reply BackendOrder.t) :
  formValid s = true -> cart p <> [] ->
  let o := dispatch (Submit (Some a) (Some b) (Some c)) p s in
  isSubmitting (st o) = false
  /\ forall e,
      res (OrderApi.placeOrder (S:=unit) (orderData (p, s))
             (Some a) (Some b) (Some c) tt) = Threw e ->
      (customerName (st o) = customerName s
       /\ phoneNumber (st o) = phoneNumber s
       /\ customerEmail (st o) = customerEmail s
       /\ generalInstructions (st o) = generalInstructions s)
      /\ (nameError (st o) = nameError s
          /\ emailError (st o) = None /\ phoneError (st o) = None)
      /\ (in_sync s -> form (st o) = form s)
      /\ (showPopup (st o) = showPopup s /\ popupData (st o) = popupData s)
      /\ exists m,
          e = ErrorObj m
          /\ List.filter (fun ev => negb (is_request ev)) (events (log o))
             = [Toast (mkToast "Order Failed"
                  (if JS.includes m "not available"
                   then "Some items in your cart are no longer available. Please refresh your cart and try again."
                   else m)
                  destructive None)]
          /\ (probePasses (Some a) (Some b) = false ->
              m = "Some menu items are not available. Please refresh your cart and try again.")
          /\ (probePasses (Some a) (Some b) = true ->
              forall r, c = Resolved r ->
                (forall msg, message (body r) = Some msg ->
                   JS.truthy msg = true -> m = msg)
                /\ ((forall err, body r <> Malformed err) ->
                    JS.opt_truthy (message (body r)) = false ->
                    m = if ok r then "Failed to place order"
                        else "HTTP error! status: " ++ JS.toString (status r))).
Proof.
  intros Hv Hc o. subst o. rewrite handleSubmit_run, Hv. cbn [negb].
  destruct (cart p) as [|x l] eqn:Hcart; [congruence|]. clear Hc.
  apply formValid_true in Hv. destruct Hv as [Hn [He Hp]].
  assert (Hname : nameError (validated (p, s) s) = nameError s).
  { unfold validated, nameValid in *. cbn [nameError snd].
    destruct (JS.truthy (JS.trim (customerName s))); [|discriminate Hn].
    destruct (JS.length (JS.trim (customerName s)) <? 2);
      [discriminate Hn | reflexivity]. }
  split.
  - pose proof (placeOrder_settles (orderData (p, s)) a b c) as Hs.
    destruct (res (OrderApi.placeOrder (S:=unit) (orderData (p, s))
                     (Some a) (Some b) (Some c) tt)) as [order|e|] eqn:E.
    + now rewrite (send_returned _ _ _ _ _ _ E).
    + now rewrite (send_threw _ _ _ _ _ _ E).
    + congruence.
  - intros e E. rewrite (send_threw _ _ _ _ _ _ E). cbn [st log].
    split; [repeat split|]. split; [cbn; repeat split; assumption|].
    split.
    { intros [Hse [Hsp _]]. unfold form.
      cbn [submitting customerName phoneNumber customerEmail
           generalInstructions nameError emailError phoneError].
      rewrite Hname. unfold validated.
      cbn [customerName phoneNumber customerEmail generalInstructions
           emailError phoneError snd].
      rewrite Hse, Hsp. reflexivity. }
    split; [split; reflexivity|].
    destruct (placeOrder_throws _ _ _ _ _ E) as [m [-> [Hfail Hpass]]].
    exists m. split; [reflexivity|]. split; [|split].
    + rewrite events_app, events_relocate, List.filter_app.
      rewrite filter_requests_nil by apply placeOrder_only_requests.
      reflexivity.
    + exact Hfail.
    + intros Hpp r ->. destruct (Hpass Hpp) as [c' [Hc' Hrej]].
      inversion Hc'; subst c'; clear Hc'. cbn [rejection] in Hrej.
      split.
      * intros msg Hmsg Ht.
        destruct (body r) as [err|m0|m0 d]; cbn [message] in Hmsg;
          [discriminate Hmsg| |]; subst m0; cbn [JS.opt_or_else] in Hrej;
          unfold JS.or_else in Hrej; rewrite Ht in Hrej.
        -- congruence.
        -- destruct (ok r); congruence.
      * intros Hnm Hf.
        destruct (body r) as [err|m0|m0 d]; cbn [message] in Hf.
        -- now destruct (Hnm err).
        -- destruct m0 as [m0|]; cbn [JS.opt_or_else JS.opt_truthy] in *;
             unfold JS.or_else in Hrej; try rewrite Hf in Hrej; congruence.
        -- destruct (ok r); [discriminate Hrej|].
           destruct m0 as [m0|]; cbn [JS.opt_or_else JS.opt_truthy] in *;
             unfold JS.or_else in Hrej; try rewrite Hf in Hrej; congruence.
Qed.

(** A server rejection is shown verbatim and the form is kept. *)
Lemma handleSubmit_failure_witness :
  formValid Samples.filledForm = true
  /\ cart Samples.modalProps <> []
  /\ isSubmitting
       (st (dispatch (Submit (Some Samples.probeReply) (Some Samples.probeReply)
                        (Some Samples.rejectedReply))
              Samples.modalProps Samples.filledForm)) = false
  /\ form (st (dispatch (Submit (Some Samples.probeReply)
                           (Some Samples.probeReply)
                           (Some Samples.rejectedReply))
                 Samples.modalProps Samples.filledForm))
     = form Samples.filledForm
  /\ List.filter (fun ev => negb (is_request ev))
       (events (log (dispatch (Submit (Some Samples.probeReply)
                                 (Some Samples.probeReply)
                                 (Some Samples.rejectedReply))
                       Samples.modalProps Samples.filledForm)))
     = [Toast (mkToast "Order Failed" "Quantity must be positive"
                 destructive None)].
Proof.
  assert (Hv : formValid Samples.filledForm = true) by reflexivity.
  assert (Hc : cart Samples.modalProps <> []) by discriminate.
  split; [exact Hv|]. split; [exact Hc|].
  destruct (handleSubmit_failure Samples.modalProps Samples.filledForm
              Samples.probeReply Samples.probeReply Samples.rejectedReply
              Hv Hc) as [Hs Hf].
  split; [exact Hs|].
  destruct (Hf (ErrorObj "Quantity must be positive") eq_refl)
    as [_ [_ [Hform _]]].
  split; [apply Hform; repeat split; intros _; reflexivity|].
  reflexivity.
Defined.

Example handleSubmit_unavailable_message :
  List.filter (fun ev => negb (is_request ev))
    (events (log (dispatch (Submit Samples.offline Samples.probeOk
                              Samples.created)
                    Samples.modalProps Samples.filledForm)))
  = [Toast (mkToast "Order Failed"
              "Some items in your cart are no longer available. Please refresh your cart and try again."
              destructive None)].
Proof. reflexivity. Qed.

(** *** Success of a submission. *)

Lemma placeOrder_returns od r1 r2 r3 (data : BackendOrder.t) :
  probePasses r1 r2 = true -> createdOrder r3 = Some data ->
  res (OrderApi.placeOrder (S:=unit) od r1 r2 r3 tt)
  = Returned (OrderApi.transformOrder data).
Proof.
  split_reply r1; split_reply r2; cbn; try discriminate; intros _;
    split_reply r3; cbn; intros H; inversion H; reflexivity.
Qed.

Lemma existsb_false_Forall {A} (f : A -> bool) (l : list A) :
  List.Forall (fun x => f x = false) l -> existsb f l = false.
Proof.
  induction 1 as [|x l Hx _ IH]; [reflexivity|].
  cbn [existsb]. now rewrite Hx, IH.
Qed.

(** No handler other than [handlePopupClose] calls [clearCart]. *)
Lemma handler_no_clearCart (a : action) (c : closure) :
  a <> PopupClose -> only (fun e => is_clearCart e = false) (handler a c).
Proof.
  destruct a; intros Ha; try congruence;
    unfold handler, handleNameChange, handlePhoneChange, handleEmailChange,
      handleSubmit, handleSubmit_send, validateForm, handleClose,
      onOpenChange, handleClose, resetForm, setCustomerName, setPhoneNumber,
      setCustomerEmail, setGeneralInstructions, setIsSubmitting,
      setEmailError, setPhoneError, setNameError, setShowPopup, setPopupData,
      OrderApi.placeOrder, OrderApi.checkItemsAvailability;
    only_tac.
Qed.

Lemma clearCart_only_on_popup_close (a : action) (p : props) (s : state) :
  existsb is_clearCart (events (log (dispatch a p s))) = true
  <-> a = PopupClose.
Proof.
  split.
  - intros H.
    destruct a; try reflexivity;
      match type of H with
      | existsb _ (events (log (dispatch ?x _ _))) = _ =>
          assert (Hne : x <> PopupClose) by discriminate;
          pose proof (handler_no_clearCart x (p, s) Hne s) as Hn;
          apply existsb_false_Forall in Hn;
          unfold dispatch in H; congruence
      end.
  - intros ->. reflexivity.
Qed.

(** C1.  On a successful order-creation reply the submit handler resets
    the form fields and the validation errors and shows the popup with the
    returned order id and total amount, without calling [clearCart].
    Closing the popup then calls [clearCart] exactly once, hides the popup
    and closes the modal; and among all the handlers of the modal,
    [handlePopupClose] is the only one whose run calls [clearCart]. *)
Theorem handleSubmit_success (p : props) (s : state)
    (r1 r2 : option (reply unit)) (r3 : option (reply BackendOrder.t))
    (data : BackendOrder.t) :
  formValid s = true -> cart p <> [] ->
  probePasses r1 r2 = true -> createdOrder r3 = Some data ->
  let o := dispatch (Submit r1 r2 r3) p s in
  let o' := dispatch PopupClose p (st o) in
  form (st o) = blankForm
  /\ isSubmitting (st o) = false
  /\ popup (st o)
     = Some (OrderSuccessPopup.DetailsBox
               {| OrderSuccessPopup.orderIdRow :=
                    Some ("#" ++ JS.toString (BackendOrder.id data));
                  OrderSuccessPopup.totalAmountRow :=
                    Some (BackendOrder.total_amount data) |})
  /\ existsb is_clearCart (events (log o)) = false
  /\ List.filter is_clearCart (events (log o')) = [Call_clearCart]
  /\ In Call_onClose (events (log o'))
  /\ popup (st o') = None
  /\ (forall a' p' s',
        existsb is_clearCart (events (log (dispatch a' p' s'))) = true
        <-> a' = PopupClose).
Proof.
  intros Hv Hc Hp Hd o o'.
  assert (Hno : existsb is_clearCart (events (log o)) = false).
  { apply existsb_false_Forall.
    apply (handler_no_clearCart (Submit r1 r2 r3) (p, s)). discriminate. }
  subst o'. revert Hno. subst o.
  rewrite handleSubmit_run, Hv. cbn [negb].
  destruct (cart p) as [|x l] eqn:Hcart; [congruence|].
  rewrite (send_returned _ _ _ _ _ _ (placeOrder_returns _ _ _ _ _ Hp Hd)).
  cbn [st]. intros Hno.
  split; [reflexivity|]. split; [reflexivity|].
  split.
  { unfold popup, OrderSuccessPopup.render.
    cbn [showPopup popupData option_map popup_id popup_totalAmount negb
         JS.opt_truthy Order.id Order.totalAmount OrderApi.transformOrder].
    rewrite toString_truthy. reflexivity. }
  split; [exact Hno|].
  split; [reflexivity|]. split; [cbn; auto|]. split; [reflexivity|].
  apply clearCart_only_on_popup_close.
Qed.

(** The reply [{ id: 42, totalAmount: 150.5 }]: the popup shows "#42" and
    150.5, the cart is untouched until the popup is closed. *)
Lemma handleSubmit_success_witness :
  formValid Samples.filledForm = true
  /\ cart Samples.modalProps <> []
  /\ probePasses Samples.probeOk Samples.probeOk = true
  /\ createdOrder Samples.created = Some Samples.backendOrder
  /\ form (st (dispatch (Submit Samples.probeOk Samples.probeOk
                           Samples.created)
                 Samples.modalProps Samples.filledForm)) = blankForm
  /\ popup (st (dispatch (Submit Samples.probeOk Samples.probeOk
                            Samples.created)
                  Samples.modalProps Samples.filledForm))
     = Some (OrderSuccessPopup.DetailsBox
               {| OrderSuccessPopup.orderIdRow := Some "#42";
                  OrderSuccessPopup.totalAmountRow := Some (301 # 2)%Q |})
  /\ existsb is_clearCart
       (events (log (dispatch (Submit Samples.probeOk Samples.probeOk
                                 Samples.created)
                       Samples.modalProps Samples.filledForm))) = false.
Proof.
  assert (Hv : formValid Samples.filledForm = true) by reflexivity.
  assert (Hc : cart Samples.modalProps <> []) by discriminate.
  assert (Hp : probePasses Samples.probeOk Samples.probeOk = true)
    by reflexivity.
  assert (Hd : createdOrder Samples.created = Some Samples.backendOrder)
    by reflexivity.
  repeat (split; [assumption|]).
  destruct (handleSubmit_success Samples.modalProps Samples.filledForm
              Samples.probeOk Samples.probeOk Samples.created
              Samples.backendOrder Hv Hc Hp Hd)
    as [Hform [_ [Hpop [Hno _]]]].
  split; [exact Hform|]. split; [exact Hpop | exact Hno].
Defined.

End ModalOutcomes.

(* ===================================================================== *)
(** ** The submission payload *)
(* ===================================================================== *)

Section OrderData.
Import OrderModal.


(** Per-item instructions are forwarded as entered, white space included. *)
Example orderData_item_instructions_untrimmed :
  let line := CartItem.mk (IdNumber 3) "3-1" "Latte" (90 # 1) "" 1
                (Some "  extra hot ") in
  map SubmissionItem.specialInstructions
    (OrderSubmission.items
       (orderData (mkProps true [line], Samples.filledForm)))
  = [Some "  extra hot "].
Proof. reflexivity. Qed.


End OrderData.

(* ===================================================================== *)
(** ** The order management table *)
(* ===================================================================== *)

Section Management.
Import Eff OrderManagement.

Lemma queryParams_page (c : state) (N : Z) :
  N <> 0 ->
  hd_error (OrderApi.queryParams (listParams c N))
  = Some ("page", JS.toString N).
Proof.
  intros HN. unfold OrderApi.queryParams, listParams.
  cbn [OrderApi.page OrderApi.limit OrderApi.status_ OrderApi.paymentStatus
       OrderApi.phone OrderApi.sortBy OrderApi.order
       OrderApi.includeCancelled].
  unfold OrderApi.append_num at 2.
  destruct (Z.eqb_spec N 0) as [|_]; [contradiction|].
  destruct (negb (String.eqb (statusFilter c) "all"));
    destruct (negb (String.eqb (paymentFilter c) "all"));
    destruct (JS.truthy (JS.trim (searchTerm c))) eqn:Ht;
    cbn; rewrite ?Ht; try reflexivity;
    destruct (JS.truthy (statusFilter c));
    destruct (JS.truthy (paymentFilter c)); reflexivity.
Qed.

(** C7.  When the fetch of a page N > 1 returns zero rows, [loadOrders]
    sets the current page to 1 and issues a second request, for page 1,
    without putting the empty page on display.  A zero-row result for a
    page that is not beyond the first issues no further request and is
    displayed as it is. *)
Theorem loadOrders_fallback (c s : state) (N : Z)
    (listReply : option (reply OrdersListResponse.t)) (pg : OrdersPage.t) :
  N > 1 ->
  fetchedPage listReply = Some pg ->
  OrdersPage.orders pg = [] ->
  let o := loadOrders c N listReply s in
  events (log o)
  = [Req (GET_orders (OrderApi.queryParams (listParams c N)));
     Req (GET_orders (OrderApi.queryParams (listParams c 1)))]
  /\ hd_error (OrderApi.queryParams (listParams c 1)) = Some ("page", "1")
  /\ currentPage (st o) = 1
  /\ orders (st o) = orders s
  /\ res o = Returned tt
  /\ forall N' : Z, N' <= 1 ->
       let o1 := loadOrders c N' listReply s in
       events (log o1)
       = [Req (GET_orders (OrderApi.queryParams (listParams c N')))]
       /\ orders (st o1) = [].
Proof.
  intros HN Hf Hz o. subst o.
  split_reply listReply; try discriminate Hf.
  cbn [fetchedPage ok body] in Hf. inversion Hf; subst pg; clear Hf.
  destruct data as [rows tc tp cp].
  cbn [OrdersPage.orders OrdersListResponse.data] in Hz.
  apply map_eq_nil in Hz. subst rows.
  assert (HN' : (N >? 1) = true) by (apply Z.gtb_lt; lia).
  split; [|split; [|split; [|split; [|split]]]].
  - unfold loadOrders, loadOrders_body, loadOrders_pending, loadOrders_body.
    rewrite HN'. cbv -[listParams OrderApi.queryParams]. reflexivity.
  - now apply queryParams_page.
  - unfold loadOrders, loadOrders_body, loadOrders_pending, loadOrders_body.
    rewrite HN'. reflexivity.
  - unfold loadOrders, loadOrders_body, loadOrders_pending, loadOrders_body.
    rewrite HN'. reflexivity.
  - unfold loadOrders, loadOrders_body, loadOrders_pending, loadOrders_body.
    rewrite HN'. reflexivity.
  - intros N' HN1 o1. subst o1.
    assert (HN1' : (N' >? 1) = false).
    { destruct (Z.gtb_spec N' 1); [lia | reflexivity]. }
    unfold loadOrders, loadOrders_body, loadOrders_pending, loadOrders_body.
    rewrite HN1'. cbv -[listParams OrderApi.queryParams].
    split; reflexivity.
Qed.

(** Page 3 of a filtered list comes back empty: page 1 is requested. *)
Lemma loadOrders_fallback_witness :
  3 > 1
  /\ fetchedPage (Samples.listOf [] 3)
     = Some (OrdersPage.mk [] 25 3 3)
  /\ events (log (loadOrders Samples.table 3 (Samples.listOf [] 3)
                    Samples.table))
     = [Req (GET_orders [("page", "3"); ("limit", "10");
                         ("sortBy", "order_date"); ("order", "desc");
                         ("includeCancelled", "true")]);
        Req (GET_orders [("page", "1"); ("limit", "10");
                         ("sortBy", "order_date"); ("order", "desc");
                         ("includeCancelled", "true")])]
  /\ currentPage (st (loadOrders Samples.table 3 (Samples.listOf [] 3)
                        Samples.table)) = 1
  /\ orders (st (loadOrders Samples.table 3 (Samples.listOf [] 3)
                   Samples.table)) = orders Samples.table.
Proof.
  assert (H3 : 3 > 1) by lia.
  assert (Hf : fetchedPage (Samples.listOf [] 3)
               = Some (OrdersPage.mk [] 25 3 3)) by reflexivity.
  split; [exact H3|]. split; [exact Hf|].
  destruct (loadOrders_fallback Samples.table Samples.table 3
              (Samples.listOf [] 3) (OrdersPage.mk [] 25 3 3)
              H3 Hf eq_refl) as [He [_ [Hp [Ho _]]]].
  split; [exact He|]. split; [exact Hp | exact Ho].
Defined.

(** *** Transition controls *)

(** On a delivered order that is not being updated, the payment buttons
    are rendered enabled. *)
Lemma terminal_payment_buttons_enabled :
  In Samples.deliveredOrder (orders Samples.deliveredTable)
  /\ Order.orderStatus Samples.deliveredOrder = "delivered"
  /\ map disabled (List.filter is_payment
                     (controls Samples.deliveredTable Samples.deliveredOrder))
     = [false; false; false].
Proof.
  split; [left; reflexivity|]. split; [reflexivity|].
  vm_compute. reflexivity.
Qed.

(** C4.  For an order whose status is delivered or cancelled,
    every order-status button is disabled; a payment-status button is
    disabled exactly while the order is being updated. *)
Theorem terminal_controls (s : state) (order : Order.t) :
  terminal order ->
  (forall b, In b (controls s order) -> is_status b = true ->
     disabled b = true)
  /\ (forall b, In b (controls s order) -> is_payment b = true ->
      disabled b = isUpdating s order)
  /\ map target (controls s order)
     = [StatusButton "pending"; StatusButton "preparing";
        StatusButton "ready"; StatusButton "completed";
        StatusButton "cancelled"; PaymentButton "pending" None;
        PaymentButton "paid" (Some "cash"); PaymentButton "paid" (Some "upi")].
Proof.
  intros Ht.
  assert (Hd : (isUpdating s order
                || String.eqb (Order.orderStatus order) "cancelled"
                || String.eqb (Order.orderStatus order) "delivered") = true).
  { destruct Ht as [-> | ->]; cbn; now rewrite ?orb_true_r. }
  unfold controls, statusButtons, paymentButtons. cbn [map app].
  rewrite Hd.
  split; [|split; [|reflexivity]].
  - intros b Hin Hs.
    repeat (destruct Hin as [<-|Hin]; [try reflexivity; discriminate Hs|]).
    destruct Hin.
  - intros b Hin Hp.
    repeat (destruct Hin as [<-|Hin]; [try reflexivity; discriminate Hp|]).
    destruct Hin.
Qed.

Lemma terminal_controls_witness :
  terminal Samples.deliveredOrder
  /\ (forall b,
        In b (controls Samples.deliveredTable Samples.deliveredOrder) ->
        is_status b = true -> disabled b = true)
  /\ (forall b,
        In b (controls Samples.deliveredTable Samples.deliveredOrder) ->
        is_payment b = true ->
        disabled b = isUpdating Samples.deliveredTable Samples.deliveredOrder).
Proof.
  assert (Ht : terminal Samples.deliveredOrder) by (left; reflexivity).
  split; [exact Ht|].
  destruct (terminal_controls Samples.deliveredTable Samples.deliveredOrder Ht)
    as [Hs [Hp _]].
  split; [exact Hs | exact Hp].
Defined.

End Management.

Section StatusUpdate.
Import Eff OrderManagement.


Lemma marker_added (upd : gset Z) (i : Z) : i ∈ upd ∪ {[i]}.
Proof. apply elem_of_union. right. now apply elem_of_singleton. Qed.

Lemma marker_removed (upd : gset Z) (i : Z) : i ∉ (upd ∪ {[i]}) ∖ {[i]}.
Proof.
  rewrite elem_of_difference, elem_of_singleton. intros [_ H]. now apply H.
Qed.




(** The optimistic status is what the list shows while the endpoint is
    being called. *)
Example handleStatusUpdate_optimistic :
  map Order.orderStatus (optimistic Samples.table 42 "completed")
  = ["delivered"].
Proof. reflexivity. Qed.

(** A rejected update is followed by the same fetch, which puts the
    backend's unchanged record back on display. *)
Example handleStatusUpdate_reverts :
  map Order.orderStatus
    (orders (st (handleStatusUpdate Samples.table 42 "completed"
                   (Some (Resolved (mkResponse false 409
                            (Failure (Some "Illegal transition")))))
                   (Some (NetworkError "unused"))
                   (Some (Samples.listReply [Samples.backendOrder] 3))
                   Samples.table)))
  = ["pending"]
  /\ events (log (handleStatusUpdate Samples.table 42 "completed"
                   (Some (Resolved (mkResponse false 409
                            (Failure (Some "Illegal transition")))))
                   (Some (NetworkError "unused"))
                   (Some (Samples.listReply [Samples.backendOrder] 3))
                   Samples.table))
    = [Req (PUT_orders_status 42 "delivered" "admin" None);
       Req (GET_orders [("page", "3"); ("limit", "10");
                        ("sortBy", "order_date"); ("order", "desc");
                        ("includeCancelled", "true")]);
       Toast (mkToast "Update Failed"
                "Failed to update order status. Please try again."
                (Some "destructive") None)].
Proof. split; reflexivity. Qed.

End StatusUpdate.

(* ===================================================================== *)
(** ** The e-mail validator *)
(* ===================================================================== *)

Section RegexFacts.
Import JS.

Lemma matches_nil_nullable (r : regex) (l : list ascii) :
  matches r l -> l = [] -> nullable r = true.
Proof.
  induction 1 as [|p c Hp|r1 r2 l1 l2 _ IH1 _ IH2|r1 r2 l _ IH|r1 r2 l _ IH
                  |r|r l1 l2 _ _ _ _]; intros Hl; simpl.
  - reflexivity.
  - discriminate Hl.
  - apply app_eq_nil in Hl. destruct Hl as [H1 H2].
    now rewrite IH1, IH2.
  - now rewrite IH.
  - rewrite IH by assumption. apply orb_true_r.
  - reflexivity.
  - reflexivity.
Qed.

Lemma nullable_matches (r : regex) : nullable r = true <-> matches r [].
Proof.
  split; [|intros H; now apply (matches_nil_nullable r [])].
  induction r as [| |p|r1 IH1 r2 IH2|r1 IH1 r2 IH2|r IH]; simpl; intros H.
  - discriminate H.
  - constructor.
  - discriminate H.
  - apply andb_true_iff in H. destruct H as [H1 H2].
    apply (matches_seq r1 r2 [] []); auto.
  - apply orb_true_iff in H. destruct H as [H|H].
    + apply matches_alt_l. auto.
    + apply matches_alt_r. auto.
  - constructor.
Qed.

Lemma matches_seq_inv (r1 r2 : regex) (l : list ascii) :
  matches (Seq r1 r2) l ->
  exists l1 l2, l = (l1 ++ l2)%list /\ matches r1 l1 /\ matches r2 l2.
Proof. intros H. inversion H; subst. eauto. Qed.

Lemma matches_star_cons (r : regex) (c : ascii) (l : list ascii) :
  matches (Star r) (c :: l) ->
  exists l1 l2,
    l = (l1 ++ l2)%list /\ matches r (c :: l1) /\ matches (Star r) l2.
Proof.
  intros H. remember (Star r) as sr eqn:Hs. remember (c :: l) as cl eqn:Hc.
  revert l Hc Hs.
  induction H as [|p' c'|r1 r2 k1 k2|r1 r2 k|r1 r2 k| |r' k1 k2 H1 _ H2 IH2];
    intros l0 Hc Hs; try discriminate Hs; try discriminate Hc.
  inversion Hs; subst r'.
  destruct k1 as [|c1 k1].
  - simpl in Hc. apply IH2; [exact Hc | reflexivity].
  - simpl in Hc. inversion Hc; subst. eauto.
Qed.

Lemma deriv_matches (r : regex) (c : ascii) (l : list ascii) :
  matches (deriv c r) l <-> matches r (c :: l).
Proof.
  revert l.
  induction r as [| |p|r1 IH1 r2 IH2|r1 IH1 r2 IH2|r IH]; intros l; simpl.
  - split; intros H; inversion H.
  - split; intros H; inversion H.
  - destruct (p c) eqn:Hp; split; intros H; inversion H; subst.
    + now constructor.
    + constructor.
    + congruence.
  - split.
    + intros H.
      destruct (nullable r1) eqn:Hn.
      * inversion H as [| | |? ? ? Hl|? ? ? Hr| |]; subst.
        -- apply matches_seq_inv in Hl.
           destruct Hl as [l1 [l2 [-> [H1 H2]]]].
           apply IH1 in H1.
           apply (matches_seq r1 r2 (c :: l1) l2); assumption.
        -- apply IH2 in Hr.
           apply (matches_seq r1 r2 [] (c :: l)); [|assumption].
           now apply nullable_matches.
      * apply matches_seq_inv in H.
        destruct H as [l1 [l2 [-> [H1 H2]]]].
        apply IH1 in H1.
        apply (matches_seq r1 r2 (c :: l1) l2); assumption.
    + intros H. apply matches_seq_inv in H.
      destruct H as [l1 [l2 [Hl [H1 H2]]]].
      destruct l1 as [|c1 l1].
      * simpl in Hl. subst l2.
        assert (Hn : nullable r1 = true) by now apply nullable_matches.
        rewrite Hn. apply matches_alt_r. now apply IH2.
      * simpl in Hl. inversion Hl; subst c1 l.
        apply IH1 in H1.
        destruct (nullable r1).
        -- apply matches_alt_l. now constructor.
        -- now constructor.
  - split; intros H; inversion H; subst.
    + apply matches_alt_l. now apply IH1.
    + apply matches_alt_r. now apply IH2.
    + apply matches_alt_l. now apply IH1.
    + apply matches_alt_r. now apply IH2.
  - split.
    + intros H. apply matches_seq_inv in H.
      destruct H as [l1 [l2 [-> [H1 H2]]]].
      apply IH in H1.
      apply (matches_star_app r (c :: l1) l2); assumption.
    + intros H. apply matches_star_cons in H.
      destruct H as [l1 [l2 [-> [H1 H2]]]].
      apply IH in H1. now constructor.
Qed.

(** The derivative engine decides the language of the expression. *)
Lemma test_anchored_matches (r : regex) (s : string) :
  test_anchored r s = true <-> matches r (chars s).
Proof.
  unfold test_anchored. generalize (chars s) as l. intros l. revert r.
  induction l as [|c l IH]; intros r; simpl.
  - apply nullable_matches.
  - rewrite IH. apply deriv_matches.
Qed.

Lemma matches_class_inv (p : ascii -> bool) (l : list ascii) :
  matches (Class p) l <-> exists c, l = [c] /\ p c = true.
Proof.
  split.
  - intros H. inversion H; subst. eauto.
  - intros [c [-> Hp]]. now constructor.
Qed.

Lemma matches_star_class (p : ascii -> bool) (l : list ascii) :
  matches (Star (Class p)) l <-> List.Forall (fun c => p c = true) l.
Proof.
  split.
  - intros H. remember (Star (Class p)) as sr eqn:Hs.
    induction H as [| | | | | |r l1 l2 H1 _ H2 IH2]; try discriminate Hs.
    + constructor.
    + inversion Hs; subst r. inversion H1; subst.
      constructor; [assumption | now apply IH2].
  - induction 1 as [|c l Hc _ IH].
    + constructor.
    + apply (matches_star_app (Class p) [c] l); [now constructor | exact IH].
Qed.

Lemma matches_plus_class (p : ascii -> bool) (l : list ascii) :
  matches (Plus (Class p)) l
  <-> l <> [] /\ List.Forall (fun c => p c = true) l.
Proof.
  unfold Plus. split.
  - intros H. apply matches_seq_inv in H.
    destruct H as [l1 [l2 [-> [H1 H2]]]].
    apply matches_class_inv in H1. destruct H1 as [c [-> Hc]].
    apply matches_star_class in H2.
    split; [discriminate | now constructor].
  - intros [Hne Hall]. destruct l as [|c l]; [congruence|].
    inversion Hall; subst.
    apply (matches_seq (Class p) (Star (Class p)) [c] l).
    + now constructor.
    + now apply matches_star_class.
Qed.

End RegexFacts.

Section EmailValidator.
Import OrderModal.

Lemma matches_char (a : ascii) (l : list ascii) :
  JS.matches (JS.Class (Ascii.eqb a)) l <-> l = [a].
Proof.
  rewrite matches_class_inv. split.
  - intros [c [-> Hc]]. apply Ascii.eqb_eq in Hc. now subst.
  - intros ->. exists a. split; [reflexivity | apply Ascii.eqb_refl].
Qed.

Lemma emailRegex_shape (s : string) :
  JS.test_anchored emailRegex s = true <-> emailShape s.
Proof.
  rewrite test_anchored_matches. unfold emailRegex, emailShape, plainPart.
  split.
  - intros H.
    apply matches_seq_inv in H. destruct H as [a [l1 [-> [Ha H]]]].
    apply matches_seq_inv in H. destruct H as [at_ [l2 [-> [Hat H]]]].
    apply matches_seq_inv in H. destruct H as [b [l3 [-> [Hb H]]]].
    apply matches_seq_inv in H. destruct H as [dot [c [-> [Hdot Hc]]]].
    apply matches_char in Hat. apply matches_char in Hdot. subst at_ dot.
    apply matches_plus_class in Ha, Hb, Hc.
    exists a, b, c. split; [|auto].
    reflexivity.
  - intros [a [b [c [-> [Ha [Hb Hc]]]]]].
    apply (JS.matches_seq _ _ a); [now apply matches_plus_class|].
    apply (JS.matches_seq _ _ ["@"%char]); [now apply matches_char|].
    apply (JS.matches_seq _ _ b); [now apply matches_plus_class|].
    apply (JS.matches_seq _ _ ["."%char]); [now apply matches_char|].
    now apply matches_plus_class.
Qed.

(** X1.  The e-mail validator accepts a string exactly when it is blank
    or has the shape local@domain.tld, three non-empty runs free of white
    space and of "@", separated by an "@" and a "."; every other string is
    rejected with the invalid-address message. *)
Theorem validateEmail_spec (s : string) :
  (validateEmail s = None <-> JS.blank s \/ emailShape s)
  /\ (validateEmail s = None
      \/ validateEmail s = Some "Please enter a valid email address").
Proof.
  unfold validateEmail.
  destruct (JS.truthy (JS.trim s)) eqn:Ht; cbn [negb].
  - apply trim_not_blank in Ht.
    destruct (JS.test_anchored emailRegex s) eqn:Hm; cbn [negb].
    + apply emailRegex_shape in Hm. split; [|now left].
      split; [intros _; now right | reflexivity].
    + split; [|now right].
      split; [discriminate|].
      intros [Hb|Hs]; [contradiction|].
      apply emailRegex_shape in Hs. congruence.
  - apply trim_blank in Ht. split; [|now left].
    split; [intros _; now left | reflexivity].
Qed.

End EmailValidator.

(* ===================================================================== *)
(** ** The order modal: further properties *)
(* ===================================================================== *)

Section ModalExtras.
Import Eff OrderModal.

(** X2.  In every state the modal can reach, an enabled "Place Order"
    button means that no submission is in flight and that the e-mail and
    the phone number held by the form pass their validators: of the three
    checks of [validateForm] only the name check can still fail.  (The
    name error is stored by [handleNameChange] and [validateForm] only, so
    a name that was never typed is not flagged.) *)
Theorem enabled_submit_fields_valid (s : state) :
  reachable s -> submitDisabled s = false ->
  isSubmitting s = false
  /\ validateEmail (customerEmail s) = None
  /\ validatePhoneNumber (phoneNumber s) = None
  /\ formValid s = nameValid (customerName s).
Proof.
  intros Hr Hd. apply reachable_in_sync in Hr.
  destruct Hr as [He [Hp _]].
  unfold submitDisabled in Hd.
  apply orb_false_iff in Hd. destruct Hd as [Hd Hph].
  apply orb_false_iff in Hd. destruct Hd as [Hd Hem].
  apply orb_false_iff in Hd. destruct Hd as [Hsub _].
  rewrite He in Hem. rewrite Hp in Hph.
  split; [exact Hsub|].
  split; [now apply validateEmail_falsy|].
  split; [now apply validatePhoneNumber_falsy|].
  unfold formValid. rewrite Hem, Hph. cbn [negb].
  now rewrite !andb_true_r.
Qed.

(** After an acceptable e-mail address has been typed into the fresh
    form the button is enabled although the name is still empty. *)
Lemma enabled_submit_fields_valid_witness :
  let s := st (dispatch (EmailChange "asha@example.com") Samples.modalProps
                 initial) in
  reachable s /\ submitDisabled s = false
  /\ validateEmail (customerEmail s) = None
  /\ formValid s = false.
Proof.
  intros s.
  assert (Hr : reachable s) by (apply reach_step, reach_initial).
  assert (Hd : submitDisabled s = false) by reflexivity.
  split; [exact Hr|]. split; [exact Hd|].
  destruct (enabled_submit_fields_valid s Hr Hd) as [_ [He [_ Hf]]].
  split; [exact He|]. rewrite Hf. reflexivity.
Defined.

(** X3.  Closing the dialog.  While the success popup is shown, and for
    an open-change to "open", the dialog's [onOpenChange] does nothing at
    all.  Otherwise it behaves as the Cancel button: the four fields and
    the three validation errors are blanked, [onClose] is called exactly
    once, after the reset, and nothing else happens: no request, no
    notification, no [clearCart]; the submitting flag and the popup are
    left as they were. *)
Theorem onOpenChange_close (c : closure) (open : bool) (s : state) :
  let o := onOpenChange c open s in
  if showPopup (snd c) || open then o = mkOut (Returned tt) s []
  else
    o = handleClose s
    /\ res o = Returned tt
    /\ form (st o) = blankForm
    /\ log o = [(Call_onClose, st o)]
    /\ isSubmitting (st o) = isSubmitting s
    /\ showPopup (st o) = showPopup s
    /\ popupData (st o) = popupData s.
Proof.
  unfold onOpenChange.
  destruct (showPopup (snd c)), open; cbn [orb negb]; try reflexivity.
  repeat split.
Qed.

Lemma filter_none {A} (f : A -> bool) (l : list A) :
  List.Forall (fun x => f x = false) l -> List.filter f l = [].
Proof.
  induction 1 as [|x l Hx _ IH]; [reflexivity|].
  cbn [List.filter]. now rewrite Hx.
Qed.

(** The requests of [placeOrder], by how far the replies let it go. *)
Lemma placeOrder_trace od r1 r2 r3 :
  events (log (OrderApi.placeOrder (S:=unit) od r1 r2 r3 tt))
  = firstn
      (match r1 with
       | Some (Resolved _) => if probePasses r1 r2 then 3 else 2
       | _ => 1
       end)
      [Req GET_menu_test;
       Req (POST_menu_test
              (map SubmissionItem.menuItemId (OrderSubmission.items od)));
       Req (POST_orders od)].
Proof.
  split_reply r1; try reflexivity; split_reply r2; try reflexivity;
    split_reply r3; reflexivity.
Qed.

(** X4.  The network traffic of one click on "Place Order", for any
    replies, settled or outstanding.  Nothing is requested unless the
    validators pass and the cart is non-empty.  Then the requests are, in
    this order and each at most once, the GET probe, the POST probe with
    the item ids of the submission and the order-creation POST: the second
    is issued only once the first has resolved, the third only when the
    probe has passed, and no request is ever repeated. *)
Theorem handleSubmit_requests (p : props) (s : state)
    (r1 r2 : option (reply unit)) (r3 : option (reply BackendOrder.t)) :
  List.filter is_request (events (log (dispatch (Submit r1 r2 r3) p s)))
  = if formValid s && negb (Z.of_nat (List.length (cart p)) =? 0) then
      firstn
        (match r1 with
         | Some (Resolved _) => if probePasses r1 r2 then 3 else 2
         | _ => 1
         end)
        [Req GET_menu_test;
         Req (POST_menu_test
                (map SubmissionItem.menuItemId
                   (OrderSubmission.items (orderData (p, s)))));
         Req (POST_orders (orderData (p, s)))]
    else [].
Proof.
  rewrite handleSubmit_run, cart_length_zero.
  destruct (formValid s); cbn [negb andb]; [|reflexivity].
  destruct (cart p) as [|item items] eqn:Hc; [reflexivity|].
  cbn [negb].
  destruct (send_events (p, s) r1 r2 r3 (validated (p, s) s))
    as [tail [-> Htail]].
  rewrite List.filter_app, (filter_none _ _ Htail), app_nil_r.
  rewrite placeOrder_trace.
  generalize (orderData (p, s)). intros od.
  destruct r1 as [[m|r]|]; try reflexivity.
  destruct (probePasses (Some (Resolved r)) r2); reflexivity.
Qed.

(** X5.  While the order-creation request is outstanding (the form is
    valid, the cart non-empty and the probe has passed) the handler is
    suspended with the submitting flag set, which disables the "Place
    Order" button; the flag was set before the first request went out;
    the fields, the popup and the cart are untouched and nothing has been
    notified. *)
Theorem handleSubmit_in_flight (p : props) (s : state)
    (r1 r2 : option (reply unit)) :
  formValid s = true -> cart p <> [] -> probePasses r1 r2 = true ->
  let o := dispatch (Submit r1 r2 None) p s in
  res o = Suspended
  /\ st o = submitting true (validated (p, s) s)
  /\ submitDisabled (st o) = true
  /\ (customerName (st o), phoneNumber (st o), customerEmail (st o),
      generalInstructions (st o))
     = (customerName s, phoneNumber s, customerEmail s, generalInstructions s)
  /\ popup (st o) = popup s
  /\ events (log o)
     = [Req GET_menu_test;
        Req (POST_menu_test
               (map SubmissionItem.menuItemId
                  (OrderSubmission.items (orderData (p, s)))));
        Req (POST_orders (orderData (p, s)))]
  /\ List.Forall (fun x => isSubmitting (snd x) = true) (log o).
Proof.
  intros Hv Hc Hp o. subst o.
  rewrite handleSubmit_run, Hv. cbn [negb].
  destruct (cart p) as [|item items] eqn:Ecart; [congruence|].
  clear Hc.
  assert (Hs : res (OrderApi.placeOrder (S:=unit) (orderData (p, s))
                      r1 r2 None tt) = Suspended).
  { revert Hp. generalize (orderData (p, s)). intros od.
    split_reply r1; split_reply r2; cbn; try discriminate; reflexivity. }
  rewrite (send_suspended _ _ _ _ _ Hs). cbn [res st log].
  split; [reflexivity|]. split; [reflexivity|].
  split; [reflexivity|]. split; [reflexivity|]. split; [reflexivity|].
  split.
  - rewrite events_relocate, placeOrder_trace.
    destruct r1 as [[m|r]|]; try discriminate Hp.
    rewrite Hp. reflexivity.
  - unfold relocate. cbn [log]. apply List.Forall_forall.
    intros x Hx. apply in_map_iff in Hx. destruct Hx as [y [<- _]].
    reflexivity.
Qed.

(** The order of a filled-in form is on its way. *)
Lemma handleSubmit_in_flight_witness :
  let o := dispatch (Submit Samples.probeOk Samples.probeOk None)
             Samples.modalProps Samples.filledForm in
  res o = Suspended /\ submitDisabled (st o) = true.
Proof.
  intros o.
  assert (Hv : formValid Samples.filledForm = true) by reflexivity.
  assert (Hc : cart Samples.modalProps <> []) by discriminate.
  assert (Hp : probePasses Samples.probeOk Samples.probeOk = true)
    by reflexivity.
  destruct (handleSubmit_in_flight Samples.modalProps Samples.filledForm
              Samples.probeOk Samples.probeOk Hv Hc Hp) as [H1 [_ [H2 _]]].
  split; [exact H1 | exact H2].
Defined.

(** *** The dialog title *)

Lemma fold_left_quantity (l : list CartItem.t) (acc : Z) :
  fold_left (fun total item => total + CartItem.quantity item) l acc
  = acc + fold_left (fun total item => total + CartItem.quantity item) l 0.
Proof.
  revert acc. induction l as [|item l IH]; intros acc; cbn [fold_left].
  - lia.
  - rewrite (IH (acc + CartItem.quantity item)),
      (IH (0 + CartItem.quantity item)). lia.
Qed.

Lemma getTotalItems_cons (b : bool) (item : CartItem.t) (l : list CartItem.t) :
  getTotalItems (mkProps b (item :: l))
  = CartItem.quantity item + getTotalItems (mkProps b l).
Proof.
  unfold getTotalItems. cbn [cart fold_left].
  rewrite fold_left_quantity. lia.
Qed.

Lemma getTotalItems_lower (b : bool) (l : list CartItem.t) :
  List.Forall (fun item => 0 < CartItem.quantity item) l ->
  Z.of_nat (List.length l) <= getTotalItems (mkProps b l).
Proof.
  induction 1 as [|item l Hq _ IH].
  - reflexivity.
  - rewrite getTotalItems_cons. cbn [List.length]. lia.
Qed.

Lemma length_append (s1 s2 : string) :
  String.length (s1 ++ s2) = (String.length s1 + String.length s2)%nat.
Proof.
  induction s1 as [|c s1 IH]; simpl.
  - reflexivity.
  - now f_equal.
Qed.

(** X6.  The unit count of the dialog title.  When every cart line has a
    positive quantity, the count is at least the number of lines, it is 0
    only for the empty cart, and the title says "item" in the singular
    exactly for a cart of one line of quantity 1. *)
Theorem checkoutTitle_units (p : props) :
  List.Forall (fun item => 0 < CartItem.quantity item) (cart p) ->
  Z.of_nat (List.length (cart p)) <= getTotalItems p
  /\ (getTotalItems p = 0 <-> cart p = [])
  /\ (checkoutTitle p = "Checkout (1 item)"
      <-> exists item, cart p = [item] /\ CartItem.quantity item = 1)
  /\ ((forall item, cart p = [item] -> CartItem.quantity item <> 1) ->
      checkoutTitle p
      = "Checkout (" ++ JS.toString (getTotalItems p) ++ " items)").
Proof.
  destruct p as [b l]. cbn [cart]. intros Hall.
  pose proof (getTotalItems_lower b l Hall) as Hlow.
  assert (Hone : getTotalItems (mkProps b l) = 1
                 <-> exists item, l = [item] /\ CartItem.quantity item = 1).
  { split.
    - intros H1. destruct l as [|item l]; [discriminate H1|].
      exists item. rewrite getTotalItems_cons in H1, Hlow.
      inversion Hall as [|? ? Hq Hrest]; subst.
      pose proof (getTotalItems_lower b l Hrest) as Hl.
      destruct l as [|item' l].
      + split; [reflexivity|]. cbn in H1. lia.
      + cbn [List.length] in Hl. lia.
    - intros [item [-> Hq]]. cbn. lia. }
  split; [exact Hlow|]. split; [|split].
  - split.
    + intros H0. destruct l; [reflexivity|]. cbn [List.length] in Hlow. lia.
    + intros ->. reflexivity.
  - rewrite <- Hone. unfold checkoutTitle.
    destruct (Z.eqb_spec (getTotalItems (mkProps b l)) 1) as [E|E].
    + rewrite E. split; reflexivity.
    + split; [|contradiction]. intros H. exfalso.
      apply (f_equal String.length) in H.
      rewrite !length_append in H. cbn [String.length] in H.
      pose proof (toString_truthy (getTotalItems (mkProps b l))) as Ht.
      clear - H E Ht.
      destruct (JS.toString (getTotalItems (mkProps b l))) as [|c1 [|c2 r]]
        eqn:Es; cbn [String.length] in H; try lia.
      discriminate Ht.
  - intros Hno. unfold checkoutTitle.
    destruct (Z.eqb_spec (getTotalItems (mkProps b l)) 1) as [E|E];
      [|reflexivity].
    apply Hone in E. destruct E as [item [-> Hq]].
    exfalso. now apply (Hno item).
Qed.

Lemma checkoutTitle_units_witness :
  Z.of_nat (List.length (cart Samples.modalProps))
  <= getTotalItems Samples.modalProps
  /\ checkoutTitle Samples.modalProps = "Checkout (2 items)".
Proof.
  assert (H : List.Forall (fun item => 0 < CartItem.quantity item)
                (cart Samples.modalProps)).
  { repeat constructor. }
  destruct (checkoutTitle_units Samples.modalProps H) as [H1 [_ [_ H4]]].
  split; [exact H1|].
  rewrite H4; [reflexivity|].
  intros item Hc. inversion Hc. discriminate.
Defined.

End ModalExtras.

(* ===================================================================== *)
(** ** The order management table: further properties *)
(* ===================================================================== *)

Section ManagementExtras.
Import Eff OrderManagement.

(** Runs [loadOrders] on a reply that has been split into its shapes. *)
Ltac load_run :=
  unfold loadOrders, loadOrders_body, loadOrders_pending, loadOrders_body;
  cbv -[listParams OrderApi.queryParams JS.toString JS.opt_or_else
        String.append Z.gtb Z.le OrderApi.transformOrder].

(** X7.  [loadOrders] never throws and never leaves the loading flag set:
    for every settled reply it returns with [loading] false, and it never
    touches the filters or the update markers.  The stored error is the
    rejection of [fetchAllOrders], or none when the reply is accepted.  A
    rejected reply keeps the displayed rows and the pagination as they
    were and shows exactly one "Loading Failed" notification, whose text
    does not depend on the error.  An accepted page that is put on display
    (it has rows, or the requested page is the first) replaces the rows
    and takes the three pagination values, the current page included,
    from the server's answer. *)
Theorem loadOrders_settles (c s : state) (page : Z)
    (r : reply OrdersListResponse.t) :
  let o := loadOrders c page (Some r) s in
  res o = Returned tt
  /\ loading (st o) = false
  /\ error (st o) = listRejection r
  /\ (searchTerm (st o), statusFilter (st o), paymentFilter (st o),
      updatingOrders (st o))
     = (searchTerm s, statusFilter s, paymentFilter s, updatingOrders s)
  /\ (fetchedPage (Some r) = None ->
      (orders (st o), currentPage (st o), totalPages (st o), totalCount (st o))
      = (orders s, currentPage s, totalPages s, totalCount s)
      /\ events (log o)
         = [Req (GET_orders (OrderApi.queryParams (listParams c page)));
            Toast (mkToast "Loading Failed"
                     "Failed to load orders. Please try again."
                     (Some "destructive") None)])
  /\ (forall pg, fetchedPage (Some r) = Some pg ->
      OrdersPage.orders pg <> [] \/ page <= 1 ->
      (orders (st o), currentPage (st o), totalPages (st o), totalCount (st o))
      = (OrdersPage.orders pg, OrdersPage.currentPage pg,
         OrdersPage.totalPages pg, OrdersPage.totalCount pg)
      /\ events (log o)
         = [Req (GET_orders (OrderApi.queryParams (listParams c page)))]).
Proof.
  intros o. subst o.
  destruct s as [ords ld er term sf pf so som cp tp tc upd].
  destruct r as [m|[[|] code [err|msg|msg [[|row rows] tc' tp' cp']]]];
    cbn [listRejection fetchedPage ok body status].
  all: destruct (page >? 1) eqn:Hgt.
  all: load_run; rewrite ?Hgt; load_run.
  all: repeat (split; [reflexivity|]).
  all: try (split; [intros _; split; reflexivity|]).
  all: try (split; [intros Hf; discriminate Hf|]).
  all: intros pg Hpg Hcond; try discriminate Hpg.
  all: inversion Hpg; subst pg; clear Hpg;
    cbn [OrdersPage.orders OrdersPage.currentPage OrdersPage.totalPages
         OrdersPage.totalCount map
         OrdersListResponse.data OrdersListResponse.totalCount
         OrdersListResponse.totalPages OrdersListResponse.currentPage]
      in Hcond |- *.
  all: try (split; reflexivity).
  apply Z.gtb_lt in Hgt.
  destruct Hcond as [Hcond|Hcond]; [congruence | lia].
Qed.

(** A server error carrying a message: the message is not read. *)
Example loadOrders_drops_server_message :
  let o := loadOrders Samples.table 3
             (Some (Resolved (mkResponse false 500
                      (Failure (Some "Database unavailable")))))
             Samples.table in
  error (st o) = Some "HTTP error! status: 500"
  /\ orders (st o) = orders Samples.table
  /\ loading (st o) = false.
Proof. repeat split. Qed.

Lemma append_str_spec (key : string) (v : option string)
    (q : list (string * string)) :
  OrderApi.append_str key v q
  = (q ++ match v with
          | Some x => if JS.truthy x then [(key, x)] else []
          | None => []
          end)%list.
Proof.
  unfold OrderApi.append_str. destruct v as [x|]; [|now rewrite app_nil_r].
  destruct (JS.truthy x); [reflexivity | now rewrite app_nil_r].
Qed.

Lemma truthy_eqb_empty (x : string) : JS.truthy x = negb (String.eqb x "").
Proof. destruct x; reflexivity. Qed.

Lemma queryParams_listParams (c : state) (page : Z) :
  OrderApi.queryParams (listParams c page)
  = ((if page =? 0 then [] else [("page", JS.toString page)])
     ++ [("limit", "10")]
     ++ (if String.eqb (statusFilter c) "all"
            || String.eqb (statusFilter c) ""
         then [] else [("status", statusFilter c)])
     ++ (if String.eqb (paymentFilter c) "all"
            || String.eqb (paymentFilter c) ""
         then [] else [("paymentStatus", paymentFilter c)])
     ++ (if JS.truthy (JS.trim (searchTerm c))
         then [("phone", JS.trim (searchTerm c))] else [])
     ++ [("sortBy", "order_date"); ("order", "desc");
         ("includeCancelled", "true")])%list.
Proof.
  unfold OrderApi.queryParams, listParams.
  cbn [OrderApi.page OrderApi.limit OrderApi.status_ OrderApi.paymentStatus
       OrderApi.phone OrderApi.sortBy OrderApi.order
       OrderApi.includeCancelled].
  rewrite !append_str_spec.
  unfold OrderApi.append_bool, OrderApi.append_num.
  rewrite !truthy_eqb_empty.
  generalize (statusFilter c) (paymentFilter c) (JS.trim (searchTerm c)).
  intros sf pf t.
  destruct (page =? 0);
    destruct (String.eqb sf "all") eqn:E1;
    destruct (String.eqb sf "") eqn:E2;
    destruct (String.eqb pf "all") eqn:E3;
    destruct (String.eqb pf "") eqn:E4;
    destruct (String.eqb t "") eqn:E5;
    cbv beta iota delta [negb orb];
    rewrite ?truthy_eqb_empty, ?E2, ?E4, ?E5;
    reflexivity.
Qed.

(** X8.  The query that [loadOrders] sends for the filters of its render.
    The page leads (it is left out only for page 0) and is followed by the
    fixed limit of 10; a status or payment filter is sent unless it is
    "all" or empty; the search term is sent as the phone parameter,
    trimmed, unless it is blank; the sort key, the descending order and
    [includeCancelled=true] always close the query.  This query is the
    first event of every run of [loadOrders], whatever the reply. *)
Theorem loadOrders_query (c s : state) (page : Z)
    (listReply : option (reply OrdersListResponse.t)) :
  OrderApi.queryParams (listParams c page)
  = ((if page =? 0 then [] else [("page", JS.toString page)])
     ++ [("limit", "10")]
     ++ (if String.eqb (statusFilter c) "all"
            || String.eqb (statusFilter c) ""
         then [] else [("status", statusFilter c)])
     ++ (if String.eqb (paymentFilter c) "all"
            || String.eqb (paymentFilter c) ""
         then [] else [("paymentStatus", paymentFilter c)])
     ++ (if JS.truthy (JS.trim (searchTerm c))
         then [("phone", JS.trim (searchTerm c))] else [])
     ++ [("sortBy", "order_date"); ("order", "desc");
         ("includeCancelled", "true")])%list
  /\ hd_error (events (log (loadOrders c page listReply s)))
     = Some (Req (GET_orders (OrderApi.queryParams (listParams c page)))).
Proof.
  split; [apply queryParams_listParams|].
  - destruct listReply
      as [[m|[[|] code [err|msg|msg [[|row rows] tc' tp' cp']]]]|];
      destruct (page >? 1) eqn:Hgt;
      load_run; rewrite ?Hgt; reflexivity.
Qed.

(** X9.  Pagination.  From a page within [1, totalPages] neither button
    leaves that range.  An enabled "Previous" goes back exactly one page
    and an enabled "Next" forward exactly one page, and each undoes the
    other; on the first page "Previous", and on the last page "Next", is
    disabled and would not move.  The clicks change nothing but the
    current page and issue no request themselves. *)
Theorem pagination_in_range (s : state) :
  1 <= currentPage s <= totalPages s ->
  let sp := st (previousClick s) in
  let sn := st (nextClick s s) in
  (1 <= currentPage sp <= totalPages sp)
  /\ (1 <= currentPage sn <= totalPages sn)
  /\ (previousDisabled s = false ->
      currentPage sp = currentPage s - 1 /\ st (nextClick sp sp) = s)
  /\ (nextDisabled s = false ->
      currentPage sn = currentPage s + 1 /\ st (previousClick sn) = s)
  /\ (currentPage s = 1 -> previousDisabled s = true /\ sp = s)
  /\ (currentPage s = totalPages s -> nextDisabled s = true /\ sn = s)
  /\ log (previousClick s) = [] /\ log (nextClick s s) = [].
Proof.
  intros Hr sp sn. subst sp sn.
  destruct s as [ords ld er term sf pf so som cp tp tc upd].
  unfold previousDisabled, nextDisabled.
  cbn [previousClick nextClick updateCurrentPage modify st log currentPage
       totalPages loading] in *.
  split; [lia|]. split; [lia|].
  split; [|split; [|split; [|split; [|split; reflexivity]]]].
  - intros Hd. apply orb_false_iff in Hd. destruct Hd as [Hd _].
    apply Z.eqb_neq in Hd.
    split; [lia|]. f_equal. lia.
  - intros Hd. apply orb_false_iff in Hd. destruct Hd as [Hd _].
    apply Z.eqb_neq in Hd.
    split; [lia|]. f_equal. lia.
  - intros ->. split; [reflexivity|]. f_equal.
  - intros <-. rewrite Z.eqb_refl. split; [reflexivity|]. f_equal. lia.
Qed.

Lemma pagination_in_range_witness :
  1 <= currentPage Samples.table <= totalPages Samples.table
  /\ currentPage (st (previousClick Samples.table)) = 2
  /\ st (nextClick Samples.table Samples.table) = Samples.table.
Proof.
  assert (H : 1 <= currentPage Samples.table <= totalPages Samples.table)
    by (cbn; lia).
  split; [exact H|].
  destruct (pagination_in_range Samples.table H)
    as [_ [_ [Hp [_ [_ [Hl _]]]]]].
  split.
  - destruct (Hp eq_refl) as [Hp1 _]. exact Hp1.
  - destruct (Hl eq_refl) as [_ Hl2]. exact Hl2.
Defined.

(** X10.  "Clear Filters" resets the three filters and the current page
    in the state, but the list request it fires at once is the one of the
    render in which the button was drawn: it asks for page 1 with the
    filters that were on display, not with the cleared ones.  In
    particular a status filter other than "all" is still sent.  The
    request is left outstanding with the loading flag set. *)
Theorem clearFilters_requests_stale_filters (c s : state) :
  let o := clearFiltersClick c s in
  res o = Returned tt
  /\ (searchTerm (st o), statusFilter (st o), paymentFilter (st o),
      currentPage (st o)) = ("", "all", "all", 1)
  /\ loading (st o) = true
  /\ orders (st o) = orders s
  /\ events (log o)
     = [Req (GET_orders (OrderApi.queryParams (listParams c 1)))]
  /\ (String.eqb (statusFilter c) "all" || String.eqb (statusFilter c) ""
      = false ->
      In ("status", statusFilter c) (OrderApi.queryParams (listParams c 1))
      /\ OrderApi.queryParams (listParams c 1)
         <> OrderApi.queryParams (listParams (st o) 1)).
Proof.
  intros o. subst o.
  destruct s as [ords ld er term sf pf so som cp tp tc upd].
  assert (Hst : (searchTerm (st (clearFiltersClick c
                   (mkState ords ld er term sf pf so som cp tp tc upd))),
                 statusFilter (st (clearFiltersClick c
                   (mkState ords ld er term sf pf so som cp tp tc upd))),
                 paymentFilter (st (clearFiltersClick c
                   (mkState ords ld er term sf pf so som cp tp tc upd))),
                 currentPage (st (clearFiltersClick c
                   (mkState ords ld er term sf pf so som cp tp tc upd))))
                = ("", "all", "all", 1)).
  { unfold clearFiltersClick. load_run. reflexivity. }
  split; [unfold clearFiltersClick; load_run; reflexivity|].
  split; [exact Hst|].
  split; [unfold clearFiltersClick; load_run; reflexivity|].
  split; [unfold clearFiltersClick; load_run; reflexivity|].
  split; [unfold clearFiltersClick; load_run; reflexivity|].
  intros Hsf.
  rewrite !queryParams_listParams.
  pose proof (f_equal (fun x => fst (fst (fst x))) Hst) as H1.
  pose proof (f_equal (fun x => snd (fst (fst x))) Hst) as H2.
  pose proof (f_equal (fun x => snd (fst x)) Hst) as H3.
  cbv beta iota delta [fst snd] in H1, H2, H3.
  rewrite H1, H2, H3. clear H1 H2 H3.
  rewrite Hsf.
  split.
  - cbn. right. right. left. reflexivity.
  - cbn. intros H. inversion H.
Qed.

(** *** Highlighting of the controls *)

(** X11.  The display name of a status.  Mapping a display status to the
    backend and back gives the same name for every status but
    "delivered", which the table displays as "completed"; so each of the
    five status buttons and each of the three payment buttons, once
    clicked, is the highlighted one of its group in the row shown until
    the list is fetched again, and no other button of that group is;
    the highlighting of the other group is not affected.  That row is the
    one the status handler puts into the list. *)
Theorem clicked_control_highlighted (s : state) (order : Order.t)
    (b b' : button) :
  In b (controls s order) -> In b' (controls s order) ->
  selected (optimisticRow (target b) order) (target b) = true
  /\ (is_status b' = is_status b ->
      selected (optimisticRow (target b) order) (target b') = true ->
      target b' = target b)
  /\ (is_status b' <> is_status b ->
      selected (optimisticRow (target b) order) (target b')
      = selected order (target b'))
  /\ (forall status,
        mapBackendToFrontendStatus (mapFrontendToBackendStatus status)
        = status <-> status <> "delivered")
  /\ (forall status,
        optimistic s (Order.id order) status
        = rewriteRow (Order.id order) (optimisticRow (StatusButton status))
            (orders s)).
Proof.
  intros Hb Hb'.
  split; [|split; [|split; [|split]]].
  - unfold controls, statusButtons, paymentButtons in Hb.
    cbn [map app] in Hb.
    repeat (destruct Hb as [<-|Hb]; [reflexivity|]). destruct Hb.
  - unfold controls, statusButtons, paymentButtons in Hb, Hb'.
    cbn [map app] in Hb, Hb'.
    repeat (destruct Hb as [<-|Hb];
            [repeat (destruct Hb' as [<-|Hb'];
                     [cbn; intros Hk Hsel;
                      first [reflexivity | discriminate Hk
                            | discriminate Hsel]|]);
             destruct Hb'|]).
    destruct Hb.
  - unfold controls, statusButtons, paymentButtons in Hb, Hb'.
    cbn [map app] in Hb, Hb'.
    repeat (destruct Hb as [<-|Hb];
            [repeat (destruct Hb' as [<-|Hb'];
                     [cbn; intros Hk;
                      first [reflexivity | now contradiction Hk]|]);
             destruct Hb'|]).
    destruct Hb.
  - intros status.
    unfold mapBackendToFrontendStatus, mapFrontendToBackendStatus.
    destruct (String.eqb_spec status "completed") as [->|Hc].
    + cbn. split; [discriminate | reflexivity].
    + destruct (String.eqb_spec status "delivered") as [->|Hd].
      * split; [discriminate | congruence].
      * split; [intros _; exact Hd | reflexivity].
  - reflexivity.
Qed.

(** "Completed" is clicked on the pending order of the sample table. *)
Lemma clicked_control_highlighted_witness :
  let order := OrderApi.transformOrder Samples.backendOrder in
  let b := mkButton (StatusButton "completed") false in
  In b (controls Samples.table order)
  /\ Order.orderStatus (optimisticRow (target b) order) = "delivered"
  /\ selected (optimisticRow (target b) order) (target b) = true.
Proof.
  intros order b.
  assert (Hb : In b (controls Samples.table order)).
  { right. right. right. left. reflexivity. }
  split; [exact Hb|]. split; [reflexivity|].
  destruct (clicked_control_highlighted Samples.table order b b Hb Hb)
    as [H _].
  exact H.
Defined.

End ManagementExtras.

(* ===================================================================== *)
(** ** Payment updates, cancellations and the customer lookup *)
(* ===================================================================== *)

Section PaymentExtras.
Import Eff OrderManagement.

(** Closes one case of the run of [handlePaymentUpdate]. *)
Ltac payment_case :=
  cbv -[listParams OrderApi.queryParams union difference singleton elem_of
        gset gset_union gset_difference gset_singleton gset_elem_of
        numbers.Z.eq_dec Z_countable paymentLabel String.append
        JS.opt_truthy Z.gtb Z.le Z.eqb OrderApi.transformOrder
        Order.with_payment];
  split;
  [ do 3 eexists; split; [reflexivity|];
    split; [reflexivity|];
    split; [cbv [updatingOrders]; apply marker_added|];
    split; [cbv [updatingOrders]; apply marker_added|];
    repeat constructor; cbv [updatingOrders snd]; apply marker_added
  | split; [reflexivity|];
    split; [reflexivity|];
    split; [reflexivity|];
    split; [apply marker_removed|] ].

(** X12.  A payment update marks the order as updating and rewrites its
    payment status in the list (the payment method too when one is given,
    the previous method is kept otherwise; the order status is not
    touched), then calls the payment endpoint with the status and the
    method as given, then, whether that call succeeded or failed, fetches
    the current page again.  The marker is present at every request and
    notification of the run and is gone at the end.  The run ends with
    the "Payment Updated" notification carrying the label of the status
    when the endpoint accepted, and with "Update Failed" otherwise; it
    never throws.  When the fetch delivers a page that is put on display,
    the list is exactly the rows of that page. *)
Theorem handlePaymentUpdate_reconciles (s : state) (orderId : Z)
    (newStatus : string) (method : option string) (put : reply unit)
    (refresh revert : reply OrdersListResponse.t) :
  let o := handlePaymentUpdate s orderId newStatus method
             (Some put) (Some refresh) (Some revert) s in
  let reconcile := if updateAccepted put then refresh else revert in
  (exists s1 s2 rest,
     EffX.log o
     = ((EffX.Req (EffX.PUT_orders_payment orderId newStatus method None), s1)
        :: (EffX.Core
              (Req (GET_orders
                      (OrderApi.queryParams (listParams s (currentPage s))))),
            s2)
        :: rest)
     /\ orders s1
        = rewriteRow orderId (optimisticRow (PaymentButton newStatus method))
            (orders s)
     /\ orderId ∈ updatingOrders s1
     /\ orderId ∈ updatingOrders s2
     /\ List.Forall (fun x => orderId ∈ updatingOrders (snd x)) rest)
  /\ EffX.res o = Returned tt
  /\ hd_error (rev (EffX.events (EffX.log o)))
     = Some (EffX.Core (Toast
         (if updateAccepted put
          then mkToast "Payment Updated"
                 ("Payment status updated to " ++ paymentLabel newStatus)
                 None None
          else mkToast "Update Failed"
                 "Failed to update payment status. Please try again."
                 (Some "destructive") None)))
  /\ (updatingOrders (EffX.st o)
      = (updatingOrders s ∪ {[orderId]}) ∖ {[orderId]})
  /\ (orderId ∉ updatingOrders (EffX.st o))
  /\ (forall pg, fetchedPage (Some reconcile) = Some pg ->
        OrdersPage.orders pg <> [] \/ currentPage s <= 1 ->
        orders (EffX.st o) = OrdersPage.orders pg).
Proof.
  intros o reconcile. subst o reconcile.
  unfold handlePaymentUpdate, loadOrders, loadOrders_body, loadOrders_pending,
    loadOrders_body, rewriteRow, optimisticRow.
  destruct s as [ords ld er term sf pf so som cp tp tc upd].
  cbn [currentPage orders updatingOrders].
  destruct (cp >? 1) eqn:Hgt.
  - assert (Hgt' : ~ cp <= 1) by (apply Z.gtb_lt in Hgt; lia).
    split_settled put; cbn [updateAccepted ok body andb].
    all: match goal with
         | |- context [fetchedPage (Some ?r)] =>
             destruct r as [m'|[[|] c' [e'|mm'|mm' [[|row rows] tc' tp' cp']]]]
         end.
    all: payment_case.
    all: intros pg Hpg Hcond; try discriminate Hpg;
      cbv [fetchedPage ok body OrdersListResponse.data
           OrdersListResponse.totalCount OrdersListResponse.totalPages
           OrdersListResponse.currentPage] in Hpg;
      inversion Hpg; subst pg; clear Hpg;
      cbn [OrdersPage.orders map] in Hcond |- *;
      first [ reflexivity
            | destruct Hcond as [Hcond|Hcond]; [congruence | contradiction] ].
  - split_settled put; cbn [updateAccepted ok body andb].
    all: match goal with
         | |- context [fetchedPage (Some ?r)] =>
             destruct r as [m'|[[|] c' [e'|mm'|mm' [[|row rows] tc' tp' cp']]]]
         end.
    all: payment_case.
    all: intros pg Hpg Hcond; try discriminate Hpg;
      cbv [fetchedPage ok body OrdersListResponse.data
           OrdersListResponse.totalCount OrdersListResponse.totalPages
           OrdersListResponse.currentPage] in Hpg;
      inversion Hpg; subst pg; clear Hpg;
      cbn [OrdersPage.orders map]; reflexivity.
Qed.

(** "Unpaid" is clicked on an order paid in cash: the row shows "pending"
    and keeps the cash method, while the request carries no method. *)
Example handlePaymentUpdate_keeps_method :
  let paid := Order.with_payment (OrderApi.transformOrder Samples.backendOrder)
                "paid" (Some "cash") in
  optimisticRow (PaymentButton "pending" None) paid
  = Order.with_payment paid "pending" (Some "cash")
  /\ Order.orderStatus (optimisticRow (PaymentButton "pending" None) paid)
     = Order.orderStatus paid
  /\ paymentLabel "pending" = "Payment Pending"
  /\ paymentLabel "partial" = "undefined".
Proof. repeat split. Qed.

(** Closes one case of the run of [handleCancelOrder]. *)
Ltac cancel_case :=
  cbv -[listParams OrderApi.queryParams union difference singleton elem_of
        gset gset_union gset_difference gset_singleton gset_elem_of
        numbers.Z.eq_dec Z_countable String.append
        Z.gtb Z.le Z.eqb OrderApi.transformOrder].

(** X13.  A cancellation marks the order as updating but does not change
    the list before the endpoint has answered: the request, carrying the
    reason as given and "admin" as the canceller, is issued on the
    unchanged rows.  When the endpoint refuses or fails, nothing is
    fetched: the only other event is the "Cancellation Failed"
    notification and the rows, the pagination and the stored error are as
    before.  When it accepts, the current page is fetched again and the
    run ends with "Order Cancelled".  The handler never throws and the
    marker is gone at the end. *)
Theorem handleCancelOrder_outcome (s : state) (orderId : Z) (reason : string)
    (post : reply unit) (refresh : reply OrdersListResponse.t) :
  let o := handleCancelOrder s orderId reason (Some post) (Some refresh) s in
  let rq := EffX.Req (EffX.POST_orders_cancel orderId
                        {| OrderCancellation.reason := reason;
                           OrderCancellation.cancelledBy := Some "admin" |}) in
  EffX.res o = Returned tt
  /\ (exists s1 rest,
        EffX.log o = (rq, s1) :: rest
        /\ orders s1 = orders s
        /\ orderId ∈ updatingOrders s1)
  /\ (updatingOrders (EffX.st o)
      = (updatingOrders s ∪ {[orderId]}) ∖ {[orderId]})
  /\ (orderId ∉ updatingOrders (EffX.st o))
  /\ (updateAccepted post = false ->
      EffX.events (EffX.log o)
      = [rq;
         EffX.Core (Toast (mkToast "Cancellation Failed"
                             "Failed to cancel order. Please try again."
                             (Some "destructive") None))]
      /\ (orders (EffX.st o), error (EffX.st o), loading (EffX.st o),
          currentPage (EffX.st o), totalPages (EffX.st o),
          totalCount (EffX.st o))
         = (orders s, error s, loading s, currentPage s, totalPages s,
            totalCount s))
  /\ (updateAccepted post = true ->
      (exists rest,
         EffX.events (EffX.log o)
         = rq :: EffX.Core
                   (Req (GET_orders
                           (OrderApi.queryParams
                              (listParams s (currentPage s)))))
              :: rest)
      /\ hd_error (rev (EffX.events (EffX.log o)))
         = Some (EffX.Core (Toast (mkToast "Order Cancelled"
                                     "Order has been cancelled successfully."
                                     None None)))
      /\ forall pg, fetchedPage (Some refresh) = Some pg ->
           OrdersPage.orders pg <> [] \/ currentPage s <= 1 ->
           orders (EffX.st o) = OrdersPage.orders pg).
Proof.
  intros o rq. subst o rq.
  unfold handleCancelOrder, loadOrders, loadOrders_body, loadOrders_pending,
    loadOrders_body.
  destruct s as [ords ld er term sf pf so som cp tp tc upd].
  cbn [currentPage orders updatingOrders error loading totalPages totalCount].
  destruct (cp >? 1) eqn:Hgt.
  - assert (Hgt' : ~ cp <= 1) by (apply Z.gtb_lt in Hgt; lia).
    split_settled post; cbn [updateAccepted ok body andb].
    all: try (destruct refresh
                as [m'|[[|] c' [e'|mm'|mm' [[|row rows] tc' tp' cp']]]]).
    all: cancel_case.
    all: split; [reflexivity|].
    all: split; [do 2 eexists; split; [reflexivity|];
                 split; [reflexivity|];
                 cbv [updatingOrders]; apply marker_added|].
    all: split; [reflexivity|].
    all: split; [apply marker_removed|].
    all: split; [intros Hacc; try discriminate Hacc; split; reflexivity|].
    all: intros Hacc; try discriminate Hacc.
    all: split; [eexists; reflexivity|].
    all: split; [reflexivity|].
    all: intros pg Hpg Hcond; try discriminate Hpg;
      inversion Hpg; subst pg; clear Hpg;
      cbn [OrdersPage.orders map] in Hcond |- *;
      first [ reflexivity
            | destruct Hcond as [Hcond|Hcond]; [congruence | contradiction] ].
  - split_settled post; cbn [updateAccepted ok body andb].
    all: try (destruct refresh
                as [m'|[[|] c' [e'|mm'|mm' [[|row rows] tc' tp' cp']]]]).
    all: cancel_case.
    all: split; [reflexivity|].
    all: split; [do 2 eexists; split; [reflexivity|];
                 split; [reflexivity|];
                 cbv [updatingOrders]; apply marker_added|].
    all: split; [reflexivity|].
    all: split; [apply marker_removed|].
    all: split; [intros Hacc; try discriminate Hacc; split; reflexivity|].
    all: intros Hacc; try discriminate Hacc.
    all: split; [eexists; reflexivity|].
    all: split; [reflexivity|].
    all: intros pg Hpg Hcond; try discriminate Hpg;
      inversion Hpg; subst pg; clear Hpg;
      cbn [OrdersPage.orders map]; reflexivity.
Qed.

End PaymentExtras.

(* ===================================================================== *)
(** ** The order API client: further properties *)
(* ===================================================================== *)

Section ApiExtras.
Import Eff OrderApi.

Lemma or_undefined_not_empty (a : option string) :
  JS.or_undefined a <> Some "".
Proof.
  destruct a as [[|c x]|]; cbn; discriminate.
Qed.

Lemma transformOrder_normalised (b : BackendOrder.t) :
  normalised (transformOrder b).
Proof.
  split.
  - unfold optionalFields, transformOrder.
    cbn [Order.customerEmail Order.paymentMethod Order.specialInstructions
         Order.deliveryAddress Order.estimatedDeliveryTime
         Order.actualDeliveryTime Order.cancelledAt Order.cancelledReason
         Order.cancelledBy].
    intros H.
    repeat (destruct H as [H|H];
            [now apply or_undefined_not_empty in H|]).
    destruct H.
  - unfold transformOrder. cbn [Order.items].
    apply List.Forall_forall. intros item Hin.
    apply in_map_iff in Hin. destruct Hin as [bi [<- _]].
    unfold transformItem. cbn [OrderItem.specialInstructions].
    apply or_undefined_not_empty.
Qed.

Lemma map_transformOrder_normalised (l : list BackendOrder.t) :
  List.Forall normalised (map transformOrder l).
Proof.
  apply List.Forall_forall. intros o Hin.
  apply in_map_iff in Hin. destruct Hin as [b [<- _]].
  apply transformOrder_normalised.
Qed.

Lemma placeOrder_returned_iff {S : Type} (s : S) od r1 r2 r3 order :
  res (placeOrder od r1 r2 r3 s) = Returned order
  <-> OrderModal.probePasses r1 r2 = true
      /\ option_map transformOrder (OrderModal.createdOrder r3) = Some order.
Proof.
  split_reply r1; split_reply r2; cbn;
    try (split; [intros H; discriminate H | intros [H _]; discriminate H]).
  all: split_reply r3; cbn;
    (split;
     [ intros H; first [discriminate H | split; [reflexivity|]; congruence]
     | intros [_ H]; first [discriminate H | congruence] ]).
Qed.

Lemma fetchAllOrders_returned_iff {S : Type} (s : S) params listReply pg :
  res (fetchAllOrders params listReply s) = Returned pg
  <-> OrderManagement.fetchedPage listReply = Some pg.
Proof.
  split_reply listReply; cbn;
    (split; intros H; first [discriminate H | congruence]).
Qed.

Lemma fetchOrdersByPhone_returned_iff {S : Type} (s : S) phone ic
    (phoneReply : option (reply (list BackendOrder.t))) l :
  EffX.res (fetchOrdersByPhone phone ic phoneReply s) = Returned l
  <-> exists r, phoneReply = Some r
                /\ CustomerOrderTracking.foundOrders r = Some l.
Proof.
  split_reply phoneReply; destruct ic; cbn;
    (split;
     [ intros H; first [discriminate H | eexists; split; [reflexivity|]; cbn; congruence]
     | intros [r [Hr H]]; inversion Hr; subst r; cbn in H;
       first [discriminate H | congruence] ]).
Qed.

(** X14.  When the API client returns orders, and what they look like.
    [placeOrder] returns exactly when the probe has passed and the
    order-creation reply is an ok success envelope; [fetchAllOrders] and
    [fetchOrdersByPhone] return exactly for an ok success envelope; the
    result is the transformed backend data.  Every order so returned is
    normalised: an optional text property that the backend sent as null
    or as the empty string is absent, so none of them, on the order or on
    its items, is ever the empty string. *)
Theorem api_orders_normalised {S : Type} (s : S)
    (od : OrderSubmission.t) (r1 r2 : option (reply unit))
    (r3 : option (reply BackendOrder.t)) (params : OrdersParams)
    (listReply : option (reply OrdersListResponse.t))
    (phone : string) (includeCancelled : bool)
    (phoneReply : option (reply (list BackendOrder.t))) :
  (forall order,
     res (placeOrder od r1 r2 r3 s) = Returned order
     <-> OrderModal.probePasses r1 r2 = true
         /\ option_map transformOrder (OrderModal.createdOrder r3)
            = Some order)
  /\ (forall pg,
        res (fetchAllOrders params listReply s) = Returned pg
        <-> OrderManagement.fetchedPage listReply = Some pg)
  /\ (forall l,
        EffX.res (fetchOrdersByPhone phone includeCancelled phoneReply s)
        = Returned l
        <-> exists r, phoneReply = Some r
                      /\ CustomerOrderTracking.foundOrders r = Some l)
  /\ (forall order,
        res (placeOrder od r1 r2 r3 s) = Returned order -> normalised order)
  /\ (forall pg,
        res (fetchAllOrders params listReply s) = Returned pg ->
        List.Forall normalised (OrdersPage.orders pg))
  /\ (forall l,
        EffX.res (fetchOrdersByPhone phone includeCancelled phoneReply s)
        = Returned l ->
        List.Forall normalised l).
Proof.
  split; [intros order; apply placeOrder_returned_iff|].
  split; [intros pg; apply fetchAllOrders_returned_iff|].
  split; [intros l; apply fetchOrdersByPhone_returned_iff|].
  split; [|split].
  - intros order H. apply placeOrder_returned_iff in H.
    destruct H as [_ H].
    destruct (OrderModal.createdOrder r3) as [data|]; [|discriminate H].
    inversion H. apply transformOrder_normalised.
  - intros pg H. apply fetchAllOrders_returned_iff in H.
    split_reply listReply; try discriminate H.
    inversion H. apply map_transformOrder_normalised.
  - intros l H. apply fetchOrdersByPhone_returned_iff in H.
    destruct H as [r [_ H]].
    split_settled r; try discriminate H.
    inversion H. apply map_transformOrder_normalised.
Qed.

(** An empty e-mail and empty item instructions of the backend are
    absent on the order. *)
Example transformOrder_drops_empty :
  let b := BackendOrder.mk 9 "N" "P" (Some "") (301 # 2) "ready" "paid"
             (Some "cash") None None "d" None None None None None
             [BackendOrderItem.mk 1 "x" (301 # 2) 2 (Some "") (301 # 1)]
             "c" "u" in
  Order.customerEmail (transformOrder b) = None
  /\ Order.paymentMethod (transformOrder b) = Some "cash"
  /\ map OrderItem.specialInstructions (Order.items (transformOrder b))
     = [None].
Proof. repeat split. Qed.

(** X15.  The three mutation calls (order status, payment status,
    cancellation) each issue exactly one request, carrying their
    arguments, with "admin" standing in for a missing or empty
    [changedBy]; for a settled reply each returns exactly when the reply
    is an ok success envelope and throws otherwise.  A non-empty message
    of the server's body is the thrown message for all three.  Without
    one, a readable body makes the two update calls throw the HTTP status
    for a non-ok reply and their own fixed text for a refused envelope,
    while the cancellation throws "Failed to cancel order" in both
    cases. *)
Theorem mutation_calls {S : Type} (s : S) (orderId : Z)
    (su : OrderStatusUpdate.t) (pu : PaymentStatusUpdate.t)
    (cn : OrderCancellation.t) (r : reply unit) :
  let o1 := updateOrderStatus orderId su (Some r) s in
  let o2 := updatePaymentStatus orderId pu (Some r) s in
  let o3 := cancelOrder orderId cn (Some r) s in
  events (log o1)
  = [Req (PUT_orders_status orderId (OrderStatusUpdate.status su)
            (match OrderStatusUpdate.changedBy su with
             | Some "" | None => "admin"
             | Some who => who
             end)
            (OrderStatusUpdate.notes su))]
  /\ EffX.events (EffX.log o2)
     = [EffX.Req (EffX.PUT_orders_payment orderId
                    (PaymentStatusUpdate.paymentStatus pu)
                    (PaymentStatusUpdate.paymentMethod pu)
                    (PaymentStatusUpdate.notes pu))]
  /\ EffX.events (EffX.log o3) = [EffX.Req (EffX.POST_orders_cancel orderId cn)]
  /\ (res o1 = Returned tt <-> OrderManagement.updateAccepted r = true)
  /\ (EffX.res o2 = Returned tt <-> OrderManagement.updateAccepted r = true)
  /\ (EffX.res o3 = Returned tt <-> OrderManagement.updateAccepted r = true)
  /\ (OrderManagement.updateAccepted r = false ->
      exists m1 m2 m3,
        res o1 = Threw (ErrorObj m1)
        /\ EffX.res o2 = Threw (ErrorObj m2)
        /\ EffX.res o3 = Threw (ErrorObj m3)
        /\ forall rr, r = Resolved rr ->
             (forall msg, message (body rr) = Some msg ->
                JS.truthy msg = true -> m1 = msg /\ m2 = msg /\ m3 = msg)
             /\ ((forall err, body rr <> Malformed err) ->
                 JS.opt_truthy (message (body rr)) = false ->
                 m1 = (if ok rr then "Failed to update order status"
                       else "HTTP error! status: " ++ JS.toString (status rr))
                 /\ m2 = (if ok rr then "Failed to update payment status"
                          else "HTTP error! status: "
                               ++ JS.toString (status rr))
                 /\ m3 = "Failed to cancel order")).
Proof.
  intros o1 o2 o3. subst o1 o2 o3.
  split; [|split; [|split; [|split; [|split; [|split]]]]].
  - destruct su as [st_ [[|c w]|] nt]; split_settled r; reflexivity.
  - split_settled r; reflexivity.
  - split_settled r; reflexivity.
  - split_settled r; cbn; split; intros H;
      first [discriminate H | reflexivity].
  - split_settled r; cbn; split; intros H;
      first [discriminate H | reflexivity].
  - split_settled r; cbn; split; intros H;
      first [discriminate H | reflexivity].
  - split_settled r; intros Hacc; try discriminate Hacc;
      repeat match goal with
             | m : option string |- _ => destruct m as [[|? ?]|]
             end;
      do 3 eexists;
      (split; [reflexivity|]); (split; [reflexivity|]);
      (split; [reflexivity|]);
      intros rr Hrr; try discriminate Hrr;
      inversion Hrr; subst rr; clear Hrr; cbn [body message ok status];
      (split;
       [ intros msg' Hm Ht;
         first [ discriminate Hm
               | inversion Hm; subst;
                 first [discriminate Ht | repeat split; reflexivity] ]
       | intros Hmal Hno;
         first [ exfalso; eapply Hmal; reflexivity
               | discriminate Hno
               | repeat split; reflexivity ] ]).
Qed.

(** X16.  The statistics calls.  Each issues exactly one request, to its
    own endpoint, and both send the same [Authorization] header: the
    bearer form of the token of the local storage when that is non-empty,
    of the token of the session storage otherwise, and no header at all
    when neither storage holds a non-empty token; an empty bearer is
    never sent.  Each returns the payload exactly for an ok success
    envelope. *)
Theorem stats_calls {S T : Type} (s : S)
    (localToken sessionToken : option string) (r : option (reply T)) :
  let h := authorization (storedToken localToken sessionToken) in
  EffX.events (EffX.log (fetchOrderStats localToken sessionToken r s))
  = [EffX.Req (EffX.GET_orders_stats_orders h)]
  /\ EffX.events (EffX.log (fetchRevenueStats localToken sessionToken r s))
     = [EffX.Req (EffX.GET_stats_revenue h)]
  /\ h <> Some "Bearer "
  /\ (forall t, localToken = Some t -> t <> "" -> h = Some ("Bearer " ++ t))
  /\ (localToken = None \/ localToken = Some "" ->
      (forall t, sessionToken = Some t -> t <> "" ->
         h = Some ("Bearer " ++ t))
      /\ (sessionToken = None \/ sessionToken = Some "" -> h = None))
  /\ (forall data,
        EffX.res (fetchOrderStats localToken sessionToken r s) = Returned data
        <-> exists code msg,
              r = Some (Resolved (mkResponse true code (Success msg data))))
  /\ (forall data,
        EffX.res (fetchRevenueStats localToken sessionToken r s)
        = Returned data
        <-> exists code msg,
              r = Some (Resolved (mkResponse true code (Success msg data)))).
Proof.
  intros h. subst h.
  split; [split_reply r; reflexivity|].
  split; [split_reply r; reflexivity|].
  split; [|split; [|split; [|split]]].
  - destruct localToken as [[|c t]|]; destruct sessionToken as [[|c' t']|];
      cbn; discriminate.
  - intros t -> Ht. destruct t as [|c t]; [congruence|]. reflexivity.
  - intros Hl. split.
    + intros t -> Ht. destruct t as [|c t]; [congruence|].
      destruct Hl as [->| ->]; reflexivity.
    + intros Hs. destruct Hl as [->| ->]; destruct Hs as [->| ->];
        reflexivity.
  - intros data. split_reply r; cbn;
      (split;
       [ intros H; first [discriminate H
                         | inversion H; do 2 eexists; reflexivity]
       | intros [code' [msg' H]]; first [discriminate H | now inversion H] ]).
  - intros data. split_reply r; cbn;
      (split;
       [ intros H; first [discriminate H
                         | inversion H; do 2 eexists; reflexivity]
       | intros [code' [msg' H]]; first [discriminate H | now inversion H] ]).
Qed.

End ApiExtras.

(* ===================================================================== *)
(** ** Order tracking by phone *)
(* ===================================================================== *)

Section TrackingExtras.
Import Eff CustomerOrderTracking.

(** X17.  The customer's order search.  With a blank phone number the
    search does nothing: no request, no change.  Otherwise it issues
    exactly one request, for the phone number as typed (untrimmed) and
    without asking for cancelled orders, with the loading flag set while
    the request is out; for a settled reply it always returns with the
    flag cleared.  An ok success envelope replaces the displayed orders by
    the transformed ones; any failure is silent: the orders stay as they
    were and nothing is notified.  The typed phone number is never
    changed. *)
Theorem searchOrders_outcome (c s : state) (r : reply (list BackendOrder.t)) :
  let o := searchOrders c (Some r) s in
  EffX.res o = Returned tt
  /\ phone (EffX.st o) = phone s
  /\ (JS.blank (phone c) -> o = EffX.mkOut (Returned tt) s [])
  /\ (~ JS.blank (phone c) ->
      loading (EffX.st o) = false
      /\ EffX.events (EffX.log o)
         = [EffX.Req (EffX.GET_orders_customer (phone c) [])]
      /\ List.Forall (fun x => loading (snd x) = true) (EffX.log o)
      /\ orders (EffX.st o)
         = match foundOrders r with
           | Some l => l
           | None => orders s
           end).
Proof.
  intros o. subst o. unfold searchOrders.
  destruct (JS.truthy (JS.trim (phone c))) eqn:Ht; cbn [negb].
  - apply trim_not_blank in Ht.
    destruct s as [ph ords ld].
    split_settled r; cbn;
      (split; [reflexivity|]); (split; [reflexivity|]);
      (split; [intros Hb; contradiction|]);
      intros _; repeat split; repeat constructor.
  - apply trim_blank in Ht.
    split; [reflexivity|]. split; [reflexivity|].
    split; [reflexivity|]. intros Hn. contradiction.
Qed.

(** A search that fails on the network leaves the earlier result on
    display. *)
Example searchOrders_silent_failure :
  let shown := mkState "123-456-7890"
                 [OrderApi.transformOrder Samples.backendOrder] false in
  let o := searchOrders shown (Some (NetworkError "Failed to fetch")) shown in
  EffX.st o = shown
  /\ EffX.events (EffX.log o)
     = [EffX.Req (EffX.GET_orders_customer "123-456-7890" [])].
Proof. split; reflexivity. Qed.

End TrackingExtras.

(* ===================================================================== *)
(** ** Invariants of the popup and of requests in flight *)
(* ===================================================================== *)

Section PopupInvariant.
Import Eff OrderModal.

Lemma dispatch_popup_consistent (a : action) (p : props) (s : state) :
  popup_consistent s -> popup_consistent (st (dispatch a p s)).
Proof.
  intros H.
  destruct a as [v|v|v|v|r1 r2 r3| |open|].
  - unfold dispatch, handler, handleNameChange.
    destruct (negb (JS.truthy (JS.trim v)));
      [|destruct (JS.length (JS.trim v) <? 2)]; exact H.
  - exact H.
  - exact H.
  - exact H.
  - rewrite handleSubmit_run.
    destruct (formValid s); cbn [negb]; [|exact H].
    destruct (cart p); [exact H|].
    destruct (res (OrderApi.placeOrder (S:=unit) (orderData (p, s))
                     r1 r2 r3 tt)) as [order|e|] eqn:E.
    + rewrite (send_returned _ _ _ _ _ _ E).
      unfold popup_consistent. cbn [st popupData showPopup popup_id].
      split; [reflexivity | apply toString_truthy].
    + rewrite (send_threw _ _ _ _ _ _ E). exact H.
    + rewrite (send_suspended _ _ _ _ _ E). exact H.
  - exact H.
  - unfold dispatch, handler, onOpenChange. cbn [snd].
    destruct (showPopup s); cbn [negb]; [exact H|].
    destruct open; exact H.
  - reflexivity.
Qed.

Lemma reachable_popup_consistent (s : state) :
  reachable s -> popup_consistent s.
Proof.
  induction 1 as [|a p s Hr IH].
  - reflexivity.
  - now apply dispatch_popup_consistent.
Qed.

(** X18.  In every state the modal can reach, the success popup is either
    not rendered at all, with no popup data left behind, or it shows the
    details box with an order-id row "#<id>" and the total of the stored
    popup data: it is never open without an order to show, and never
    shows an empty box or the bare text "0". *)
Theorem popup_shows_an_order (s : state) :
  reachable s ->
  (showPopup s = false /\ popupData s = None /\ popup s = None)
  \/ (exists d,
        showPopup s = true /\ popupData s = Some d
        /\ popup s
           = Some (OrderSuccessPopup.DetailsBox
                     {| OrderSuccessPopup.orderIdRow :=
                          Some ("#" ++ popup_id d);
                        OrderSuccessPopup.totalAmountRow :=
                          Some (popup_totalAmount d) |})).
Proof.
  intros Hr. apply reachable_popup_consistent in Hr.
  unfold popup_consistent in Hr. unfold popup.
  destruct (popupData s) as [d|].
  - right. exists d. destruct Hr as [Hs Ht].
    split; [exact Hs|]. split; [reflexivity|].
    rewrite Hs. unfold OrderSuccessPopup.render.
    cbn [negb option_map JS.opt_truthy]. rewrite Ht. reflexivity.
  - left. split; [exact Hr|]. split; [reflexivity|].
    rewrite Hr. reflexivity.
Qed.

(** The state after the sample order has been created. *)
Lemma popup_shows_an_order_witness :
  let s := st (dispatch (Submit Samples.probeOk Samples.probeOk
                           Samples.created)
                 Samples.modalProps Samples.filledForm) in
  let s0 := st (dispatch (EmailChange "asha@example.com")
                  Samples.modalProps initial) in
  reachable s0
  /\ popup s0 = None
  /\ popup s
     = Some (OrderSuccessPopup.DetailsBox
               {| OrderSuccessPopup.orderIdRow := Some "#42";
                  OrderSuccessPopup.totalAmountRow := Some (301 # 2)%Q |}).
Proof.
  intros s s0.
  assert (Hr : reachable s0) by (apply reach_step, reach_initial).
  split; [exact Hr|].
  split; [|reflexivity].
  destruct (popup_shows_an_order s0 Hr) as [[_ [_ H]]|[d [H _]]].
  - exact H.
  - discriminate H.
Defined.

End PopupInvariant.

Section InFlight.
Import Eff OrderManagement.

Lemma controls_updating (s : state) (row : Order.t) (b : button) :
  isUpdating s row = true -> In b (controls s row) -> disabled b = true.
Proof.
  intros Hu. unfold controls, statusButtons, paymentButtons.
  cbn [map app]. rewrite Hu. cbn [orb].
  intros Hin.
  repeat (destruct Hin as [<-|Hin]; [reflexivity|]). destruct Hin.
Qed.

Lemma controls_same_markers (s s' : state) (row : Order.t) :
  isUpdating s' row = isUpdating s row -> controls s' row = controls s row.
Proof.
  intros Hu. unfold controls, statusButtons, paymentButtons.
  now rewrite Hu.
Qed.

Lemma isUpdating_marked (ords : list Order.t) ld er term sf pf so som cp tp tc
    (upd : gset Z) (i : Z) (row : Order.t) :
  isUpdating (mkState ords ld er term sf pf so som cp tp tc (upd ∪ {[i]})) row
  = (Order.id row =? i) || bool_decide (Order.id row ∈ upd).
Proof.
  unfold isUpdating. cbn [updatingOrders].
  destruct (Z.eqb_spec (Order.id row) i) as [->|Hne]; cbn [orb].
  - apply bool_decide_eq_true_2, marker_added.
  - apply bool_decide_ext. rewrite elem_of_union, elem_of_singleton. tauto.
Qed.

(** Runs a handler of the table whose first request is outstanding. *)
Ltac flight_run :=
  cbv -[listParams OrderApi.queryParams union difference singleton elem_of
        gset gset_union gset_difference gset_singleton gset_elem_of
        numbers.Z.eq_dec Z_countable paymentLabel String.append
        JS.opt_truthy Z.gtb Z.le Z.eqb OrderApi.transformOrder
        Order.with_payment Order.with_orderStatus
        mapFrontendToBackendStatus capitalize].

(** X19.  While the endpoint's answer to a click on a status or payment
    control is outstanding, the handler is suspended after exactly one
    request, the list shows the clicked row in its rewritten form, and
    every control of that order, status and payment alike, is disabled,
    so no second update of the same order can be started; the controls of
    all other orders are exactly as before. *)
Theorem update_in_flight (s : state) (order : Order.t) (b : control)
    (refresh revert : option (reply OrdersListResponse.t)) :
  let o := click s order b None refresh revert s in
  EffX.res o = Suspended
  /\ orders (EffX.st o)
     = rewriteRow (Order.id order) (optimisticRow b) (orders s)
  /\ (exists rq,
        EffX.events (EffX.log o) = [rq] /\ EffX.is_request rq = true)
  /\ (forall row b',
        Order.id row = Order.id order ->
        In b' (controls (EffX.st o) row) -> disabled b' = true)
  /\ (forall row,
        Order.id row <> Order.id order ->
        controls (EffX.st o) row = controls s row).
Proof.
  intros o. subst o.
  destruct s as [ords ld er term sf pf so som cp tp tc upd].
  assert (Hst : EffX.st (click
                  (mkState ords ld er term sf pf so som cp tp tc upd)
                  order b None refresh revert
                  (mkState ords ld er term sf pf so som cp tp tc upd))
                = mkState (rewriteRow (Order.id order) (optimisticRow b) ords)
                    ld er term sf pf so som cp tp tc
                    (upd ∪ {[Order.id order]})).
  { destruct b as [status|ps pm];
      unfold click, handleStatusUpdate, handlePaymentUpdate, rewriteRow,
        optimisticRow; flight_run; reflexivity. }
  split; [destruct b as [status|ps pm];
          unfold click, handleStatusUpdate, handlePaymentUpdate;
          flight_run; reflexivity|].
  split; [rewrite Hst; reflexivity|].
  split; [destruct b as [status|ps pm];
          unfold click, handleStatusUpdate, handlePaymentUpdate;
          flight_run; eexists; split; reflexivity|].
  rewrite Hst. split.
  - intros row b' Hid. apply controls_updating.
    rewrite isUpdating_marked, Hid, Z.eqb_refl. reflexivity.
  - intros row Hid. apply controls_same_markers.
    rewrite isUpdating_marked.
    destruct (Z.eqb_spec (Order.id row) (Order.id order)) as [E|_];
      [contradiction | reflexivity].
Qed.


End InFlight.

(* ===================================================================== *)
(** ** What an update of the table tells the user *)
(* ===================================================================== *)

Section UpdateNotifications.
Import Eff OrderManagement.

(** Runs a handler of the table on replies split into their shapes. *)
Ltac notify_run :=
  cbv -[listParams OrderApi.queryParams union difference singleton elem_of
        gset gset_union gset_difference gset_singleton gset_elem_of
        numbers.Z.eq_dec Z_countable paymentLabel String.append
        JS.opt_truthy JS.opt_or_else JS.toString Z.gtb Z.le Z.eqb
        OrderApi.transformOrder
        Order.with_payment Order.with_orderStatus
        mapFrontendToBackendStatus capitalize].

(** X21.  The notifications of a click on a status or payment control,
    for settled replies.  The run always ends with one notification:
    "Status Updated" with the capitalised status, or "Payment Updated"
    with the label of the payment status, when the endpoint accepted, and
    the matching "Update Failed" otherwise.  The revert after a failed
    update depends on the list fetch: when that fetch fails too, the row
    keeps the rewritten, unconfirmed value on display, the stored error
    is the rejection of the fetch, and "Loading Failed" is notified
    before "Update Failed". *)
Theorem update_notifications (s : state) (order : Order.t) (b : control)
    (put : reply unit) (refresh revert : reply OrdersListResponse.t) :
  let o := click s order b (Some put) (Some refresh) (Some revert) s in
  let updated :=
    match b with
    | StatusButton status =>
        mkToast "Status Updated"
          ("Order status updated to " ++ capitalize status) None None
    | PaymentButton paymentStatus _ =>
        mkToast "Payment Updated"
          ("Payment status updated to " ++ paymentLabel paymentStatus)
          None None
    end in
  let failed :=
    mkToast "Update Failed"
      match b with
      | StatusButton _ => "Failed to update order status. Please try again."
      | PaymentButton _ _ =>
          "Failed to update payment status. Please try again."
      end
      (Some "destructive") None in
  EffX.res o = Returned tt
  /\ hd_error (rev (EffX.events (EffX.log o)))
     = Some (EffX.Core (Toast (if updateAccepted put then updated
                               else failed)))
  /\ (updateAccepted put = false -> fetchedPage (Some revert) = None ->
      orders (EffX.st o)
      = rewriteRow (Order.id order) (optimisticRow b) (orders s)
      /\ error (EffX.st o) = listRejection revert
      /\ List.filter EffX.is_toast (EffX.events (EffX.log o))
         = [EffX.Core (Toast (mkToast "Loading Failed"
                                "Failed to load orders. Please try again."
                                (Some "destructive") None));
            EffX.Core (Toast failed)]).
Proof.
  intros o updated failed. subst o updated failed.
  destruct s as [ords ld er term sf pf so som cp tp tc upd].
  destruct b as [target|ps pm];
    unfold click, handleStatusUpdate, handlePaymentUpdate, loadOrders,
      loadOrders_body, loadOrders_pending, loadOrders_body, rewriteRow,
      optimisticRow;
    cbn [currentPage orders updatingOrders];
    destruct (cp >? 1) eqn:Hgt;
    split_settled put; cbn [updateAccepted ok body andb].
  all: match goal with
       | |- context [true = false -> _] =>
           destruct refresh
             as [m'|[[|] c' [e'|mm'|mm' [[|row rows] tc' tp' cp']]]]
       | |- _ =>
           destruct revert
             as [m'|[[|] c' [e'|mm'|mm' [[|row rows] tc' tp' cp']]]]
       end.
  all: cbn [fetchedPage listRejection Eff.ok Eff.body Eff.status].
  all: notify_run; rewrite ?Hgt; notify_run.
  all: split; [reflexivity|].
  all: split; [reflexivity|].
  all: intros Hacc Hf; try discriminate Hacc; try discriminate Hf.
  all: repeat split.
Qed.

(** Order 42 is moved to "completed" while the server is unreachable:
    the row keeps showing the unconfirmed "delivered". *)
Example update_not_reverted_offline :
  let order := OrderApi.transformOrder Samples.backendOrder in
  let o := click Samples.table order (StatusButton "completed")
             Samples.offline Samples.offline Samples.offline Samples.table in
  map Order.orderStatus (orders (EffX.st o)) = ["delivered"]
  /\ error (EffX.st o) = Some "Failed to fetch"
  /\ loading (EffX.st o) = false.
Proof. repeat split. Qed.

End UpdateNotifications.
